(** * BufferGeometry and BoxGeometry: a shallow embedding

    The development follows [src/core/BufferGeometry.js] and the box
    builder ([BoxGeometry]) method by method: slot management, the two
    bounding computations, [applyMatrix4] with [translate], [scale] and
    [center], [setFromPoints], [computeTangents], [computeVertexNormals]
    with [normalizeNormals], [toNonIndexed], [toJSON], [clone] and [copy],
    and the [BoxGeometry] constructor with [buildPlane] and [fromJSON].
    The vector, matrix, box, sphere and attribute-buffer classes they call
    are not part of the excerpt and are modelled from the specification.
    Left out are the methods that rest on classes the specification says
    nothing about: [applyQuaternion], [rotateX], [rotateY], [rotateZ] and
    [lookAt] (quaternions, trigonometry, [Object3D]), [dispose] (the event
    dispatcher), and [BoxGeometry.copy] (a parameter object with absent
    keys).

    Modelling conventions.
    - A JavaScript number is a [number]: a rational, one of the two
      infinities, or NaN.  Arithmetic on finite values is exact (the
      rounding of a sum, a product or a quotient to a double, overflow and
      the sign of zero are not represented); the special values follow
      IEEE 754 as JavaScript does.  [undefined] read from an array is
      folded into NaN, which is what every arithmetic use makes of it.
    - A loop counter is an integer without bound (the counter of the code
      is a double, which [i++] no longer changes once it is [2^53]).
    - [Math.sqrt] is a parameter of the development ([Math_sqrt]).
    - Objects are records, [this] is passed explicitly, the console is a
      list of entries threaded through the [Eff] monad.
    - The attribute dictionaries are finite maps keyed by strings.
    - Typed arrays are lists of numbers with an element type: a store
      into a [Float32Array] rounds to the nearest single-precision float
      ([Math_fround]: ties to even, subnormals, overflow to an infinity),
      a store into a [Float64Array] keeps the number.  A read out of range
      yields [undefined], a write out of range is dropped.
    - Every attribute slot holds a buffer of its own: two slots never share
      one buffer object. *)

From Stdlib Require Import QArith Qround Lqa ZArith Lia.
From stdpp Require Import gmap strings list.

Open Scope nat_scope.

(** ** Numbers *)

Inductive number := NaN | NegInf | Fin (q : Q) | PosInf.

Declare Scope num_scope.
Delimit Scope num_scope with num.
Bind Scope num_scope with number.

Definition zero : number := Fin 0.
Definition one : number := Fin 1.
Definition ofZ (z : Z) : number := Fin (inject_Z z).
Definition ofNat (n : nat) : number := ofZ (Z.of_nat n).

Definition neg (a : number) : number :=
  match a with
  | NaN => NaN
  | NegInf => PosInf
  | PosInf => NegInf
  | Fin q => Fin (Qred (- q))
  end.

Definition add (a b : number) : number :=
  match a, b with
  | NaN, _ | _, NaN => NaN
  | PosInf, NegInf | NegInf, PosInf => NaN
  | PosInf, _ | _, PosInf => PosInf
  | NegInf, _ | _, NegInf => NegInf
  | Fin p, Fin q => Fin (Qred (p + q))
  end.

Definition sub (a b : number) : number := add a (neg b).

(** [signed c inf]: the infinity [inf] with the sign of a finite factor whose
    comparison with zero is [c]; zero times infinity is NaN. *)
Definition signed (c : comparison) (inf : number) : number :=
  match c with
  | Eq => NaN
  | Gt => inf
  | Lt => neg inf
  end.

Definition mul (a b : number) : number :=
  match a, b with
  | NaN, _ | _, NaN => NaN
  | Fin p, Fin q => Fin (Qred (p * q))
  | Fin p, inf => signed (p ?= 0)%Q inf
  | inf, Fin q => signed (q ?= 0)%Q inf
  | PosInf, PosInf | NegInf, NegInf => PosInf
  | PosInf, NegInf | NegInf, PosInf => NegInf
  end.

Definition div (a b : number) : number :=
  match a, b with
  | NaN, _ | _, NaN => NaN
  | Fin p, Fin q =>
      if Qeq_bool q 0 then signed (p ?= 0)%Q PosInf
      else Fin (Qred (p / q))
  | Fin _, _ => zero
  | inf, Fin q => if Qle_bool 0 q then inf else neg inf
  | _, _ => NaN
  end.

Infix "+" := add : num_scope.
Infix "-" := sub : num_scope.
Infix "*" := mul : num_scope.
Infix "/" := div : num_scope.
Notation "- a" := (neg a) : num_scope.

(** [a < b] and [a <= b] of JavaScript: false as soon as one side is NaN. *)
Definition lt (a b : number) : bool :=
  match a, b with
  | NaN, _ | _, NaN => false
  | _, NegInf => false
  | NegInf, _ => true
  | PosInf, _ => false
  | _, PosInf => true
  | Fin p, Fin q => negb (Qle_bool q p)
  end.

Definition le (a b : number) : bool :=
  match a, b with
  | NaN, _ | _, NaN => false
  | NegInf, _ => true
  | _, PosInf => true
  | _, NegInf => false
  | PosInf, _ => false
  | Fin p, Fin q => Qle_bool p q
  end.

Infix "<?" := lt : num_scope.
Infix "<=?" := le : num_scope.

Definition isNaN (a : number) : bool :=
  match a with NaN => true | _ => false end.

Definition isFinite (a : number) : bool :=
  match a with Fin _ => true | _ => false end.

(** [Math.min] and [Math.max]: NaN if either argument is NaN. *)
Definition Math_min (a b : number) : number :=
  match a, b with
  | NaN, _ | _, NaN => NaN
  | _, _ => if (b <? a)%num then b else a
  end.

Definition Math_max (a b : number) : number :=
  match a, b with
  | NaN, _ | _, NaN => NaN
  | _, _ => if (a <? b)%num then b else a
  end.

Definition Math_floor (a : number) : number :=
  match a with
  | Fin q => Fin (inject_Z (Qfloor q))
  | _ => a
  end.

(** [a === 0] *)
Definition isZero (a : number) : bool :=
  match a with Fin q => Qeq_bool q 0 | _ => false end.

(** [a || b] on numbers: [0] and NaN are falsy. *)
Definition orElse (a b : number) : number :=
  match a with
  | NaN => b
  | _ => if isZero a then b else a
  end.

(** A power of two with an integer exponent. *)
Definition pow2 (e : Z) : Q :=
  match e with
  | Zneg p => 1 # (2 ^ p)
  | _ => inject_Z (2 ^ e)
  end.

(** The binary exponent of a positive rational: the [e] with
    [2^e <= q < 2^(e+1)]. *)
Definition exponentOf (q : Q) : Z :=
  let e := (Z.log2 (Qnum q) - Z.log2 (Zpos (Qden q)))%Z in
  if Qle_bool (pow2 e) q then e else (e - 1)%Z.

(** The integer nearest to [q], the even one of the two when [q] lies half
    way between them. *)
Definition roundHalfEven (q : Q) : Z :=
  let f := Qfloor q in
  match (q - inject_Z f ?= 1 # 2)%Q with
  | Lt => f
  | Gt => (f + 1)%Z
  | Eq => if Z.even f then f else (f + 1)%Z
  end.

(** A positive rational rounded to the nearest 32-bit float: 24 significant
    bits, the smallest step [2^-149], [+Infinity] from [2^128] on. *)
Definition froundPositive (q : Q) : number :=
  let e := Z.max (exponentOf q - 23) (-149) in
  let r := (inject_Z (roundHalfEven (q / pow2 e)) * pow2 e)%Q in
  if Qle_bool (pow2 128) r then PosInf else Fin (Qred r).

(** [Math.fround], which is also what a store into a [Float32Array] does to
    a number: round to nearest, ties to even. *)
Definition Math_fround (a : number) : number :=
  match a with
  | Fin q =>
      match (q ?= 0)%Q with
      | Eq => Fin 0
      | Gt => froundPositive q
      | Lt => neg (froundPositive (- q))
      end
  | _ => a
  end.

(** The trip count of [for (let i = 0; i < n; i++)]: the least natural that
    is not below [n]; [None] when the loop never ends ([n] is [+Infinity]).
    The counter is taken as an integer without bound; the counter of the
    code is a double, which [i++] no longer changes once it is [2^53]. *)
Definition tripCount (n : number) : option nat :=
  match n with
  | PosInf => None
  | Fin q => Some (Z.to_nat (Qceiling q))
  | _ => Some 0
  end.

(** ** Attribute buffers *)

(** A vertex index as the code passes it around: [None] is [undefined],
    which is what reading an index buffer out of range yields. *)
Abbreviation vindex := (option nat).

Module BufferAttribute.

(** The element type of a typed array of floats (the integer kinds are not
    represented). *)
Inductive floatType := Float32 | Float64.

(** What a store into a typed array makes of a number. *)
Definition toElement (ty : floatType) (v : number) : number :=
  match ty with
  | Float32 => Math_fround v
  | Float64 => v
  end.

(** Modelled from the spec: the attribute buffer of section 3 (the class
    itself is not part of the excerpt): a flat typed backing array (its
    elements in [array], their type in [elementType]), an item width, a
    normalisation flag, and a count derived as array length / item width.
    [interleaved] carries [(stride, offset)] of an interleaved attribute,
    [isGLBufferAttribute] marks the device-resident kind, [version] is what
    [needsUpdate = true] increments. *)
Record t := make {
  array : list number;
  itemSize : nat;
  normalized : bool;
  version : nat;
  isGLBufferAttribute : bool;
  interleaved : option (nat * nat);
  elementType : floatType
}.

Definition isInterleavedBufferAttribute (a : t) : bool :=
  match interleaved a with Some _ => true | None => false end.

Definition stride (a : t) : nat :=
  match interleaved a with Some (s, _) => s | None => itemSize a end.

Definition offset (a : t) : nat :=
  match interleaved a with Some (_, o) => o | None => 0 end.

(** The spec's invariant: the array length is an exact multiple of the
    item width (of the stride for an interleaved attribute). *)
Definition wf (a : t) : Prop :=
  stride a <> 0 /\ (length (array a) mod stride a) = 0.

Definition count (a : t) : nat := length (array a) / stride a.

Definition with_array (a : t) (arr : list number) : t :=
  make arr (itemSize a) (normalized a) (version a)
       (isGLBufferAttribute a) (interleaved a) (elementType a).

(** [new BufferAttribute(array, itemSize, normalized)], for a typed array
    with the elements [arr] of type [ty]. *)
Definition new (ty : floatType) (arr : list number) (size : nat)
    (norm : bool) : t :=
  make arr size norm 0 false None ty.

(** The elements of a new typed array of length [n]: zeros, whatever the
    element type. *)
Definition zeros (n : nat) : list number := replicate n zero.

(** The elements of [new Float32Array(n)]. *)
Definition Float32Array (n : nat) : list number := zeros n.

(** The elements of [new Float32Array(l)], for a plain array [l]. *)
Definition Float32Array_from (l : list number) : list number :=
  map Math_fround l.

(** Component [k] of vertex [i]. *)
Definition cell (a : t) (i k : nat) : nat := i * stride a + offset a + k.

Definition read (a : t) (i : vindex) (k : nat) : number :=
  match i with
  | Some i => default NaN (array a !! cell a i k)
  | None => NaN
  end.

(** A store into the backing array: the number is converted to the
    element type; a store out of range is dropped. *)
Definition write (a : t) (i : vindex) (k : nat) (v : number) : t :=
  match i with
  | Some i =>
      with_array a (<[cell a i k := toElement (elementType a) v]> (array a))
  | None => a
  end.

Definition getX (a : t) (i : vindex) : number := read a i 0.
Definition getY (a : t) (i : vindex) : number := read a i 1.
Definition getZ (a : t) (i : vindex) : number := read a i 2.
Definition getW (a : t) (i : vindex) : number := read a i 3.

Definition setXYZ (a : t) (i : vindex) (x y z : number) : t :=
  write (write (write a i 0 x) i 1 y) i 2 z.

Definition setXYZW (a : t) (i : vindex) (x y z w : number) : t :=
  write (write (write (write a i 0 x) i 1 y) i 2 z) i 3 w.

(** [attribute.needsUpdate = true] *)
Definition needsUpdate (a : t) : t :=
  make (array a) (itemSize a) (normalized a) (S (version a))
       (isGLBufferAttribute a) (interleaved a) (elementType a).

End BufferAttribute.

(** Modelled from the spec: [new Float32BufferAttribute(array, itemSize)]
    (the class is not part of the excerpt), an attribute buffer over
    [new Float32Array(array)]. *)
Definition Float32BufferAttribute (array : list number) (itemSize : nat)
    : BufferAttribute.t :=
  BufferAttribute.new BufferAttribute.Float32
    (BufferAttribute.Float32Array_from array) itemSize false.

Module IndexAttribute.

(** Modelled from the spec: the index buffer of section 3, an attribute
    buffer of item width 1 over an integer typed array, narrow (16 bit) or
    wide (32 bit). *)
Inductive elementType := Uint16 | Uint32.

Record t := make { array : list nat; type : elementType }.

Definition count (ix : t) : nat := length (array ix).

Definition getX (ix : t) (j : nat) : vindex := array ix !! j.

End IndexAttribute.

(** ** The math collaborators *)

Module Matrix4.
(** Modelled from the spec: the 4x4 matrix of section 6, sixteen
    elements in column-major order. *)
Record t := make { elements : list number }.
Definition e (m : t) (k : nat) : number := default NaN (elements m !! k).
End Matrix4.

Module Vector2.

(** Modelled from the spec: the 2-component vector of section 6. *)
Record t := make { x : number; y : number }.

Definition fromBufferAttribute (a : BufferAttribute.t) (i : vindex) : t :=
  make (BufferAttribute.getX a i) (BufferAttribute.getY a i).

Definition sub (a b : t) : t := make (x a - x b)%num (y a - y b)%num.

End Vector2.

Module Matrix3.

(** Modelled from the spec: the 3x3 matrix of section 6 with the
    normal-matrix derivation (inverse transpose of the upper 3x3 block). *)
Record t := make { elements : list number }.

Definition e (m : t) (k : nat) : number := default NaN (elements m !! k).

Definition setFromMatrix4 (m : Matrix4.t) : t :=
  let me := Matrix4.e m in
  make [me 0; me 1; me 2; me 4; me 5; me 6; me 8; me 9; me 10].

Definition invert (m : t) : t :=
  let n11 := e m 0 in let n21 := e m 1 in let n31 := e m 2 in
  let n12 := e m 3 in let n22 := e m 4 in let n32 := e m 5 in
  let n13 := e m 6 in let n23 := e m 7 in let n33 := e m 8 in
  let t11 := (n33 * n22 - n32 * n23)%num in
  let t12 := (n32 * n13 - n33 * n12)%num in
  let t13 := (n23 * n12 - n22 * n13)%num in
  let det := (n11 * t11 + n21 * t12 + n31 * t13)%num in
  if isZero det then make (replicate 9 zero)
  else
    let detInv := (one / det)%num in
    make [ (t11 * detInv)%num;
           ((n31 * n23 - n33 * n21) * detInv)%num;
           ((n32 * n21 - n31 * n22) * detInv)%num;
           (t12 * detInv)%num;
           ((n33 * n11 - n31 * n13) * detInv)%num;
           ((n31 * n12 - n32 * n11) * detInv)%num;
           (t13 * detInv)%num;
           ((n21 * n13 - n23 * n11) * detInv)%num;
           ((n22 * n11 - n21 * n12) * detInv)%num ].

Definition transpose (m : t) : t :=
  make [e m 0; e m 3; e m 6; e m 1; e m 4; e m 7; e m 2; e m 5; e m 8].

Definition getNormalMatrix (m : Matrix4.t) : t :=
  transpose (invert (setFromMatrix4 m)).

End Matrix3.

Module Vector3.

(** Modelled from the spec: the 3-component vector of section 6
    (construction, component access, add, subtract, scale, normalise,
    dot, cross, distance, and the bridge to attribute buffers).  The
    methods that take a square root receive [Math.sqrt] as [sqrt]. *)
Record t := make { x : number; y : number; z : number }.

(** [new Vector3()] *)
Definition new : t := make zero zero zero.

Definition fromBufferAttribute (a : BufferAttribute.t) (i : vindex) : t :=
  make (BufferAttribute.getX a i) (BufferAttribute.getY a i)
       (BufferAttribute.getZ a i).

Definition add (a b : t) : t :=
  make (x a + x b)%num (y a + y b)%num (z a + z b)%num.

Definition addVectors (a b : t) : t := add a b.

Definition sub (a b : t) : t :=
  make (x a - x b)%num (y a - y b)%num (z a - z b)%num.

Definition subVectors (a b : t) : t := sub a b.

Definition multiplyScalar (a : t) (s : number) : t :=
  make (x a * s)%num (y a * s)%num (z a * s)%num.

Definition divideScalar (a : t) (s : number) : t :=
  multiplyScalar a (one / s)%num.

Definition addScaledVector (a v : t) (s : number) : t :=
  make (x a + x v * s)%num (y a + y v * s)%num (z a + z v * s)%num.

Definition negate (a : t) : t := make (- x a)%num (- y a)%num (- z a)%num.

Definition dot (a b : t) : number :=
  (x a * x b + y a * y b + z a * z b)%num.

Definition crossVectors (a b : t) : t :=
  make (y a * z b - z a * y b)%num
       (z a * x b - x a * z b)%num
       (x a * y b - y a * x b)%num.

Definition cross (a b : t) : t := crossVectors a b.

Definition length (sqrt : number -> number) (a : t) : number :=
  sqrt (x a * x a + y a * y a + z a * z a)%num.

Definition normalize (sqrt : number -> number) (a : t) : t :=
  divideScalar a (orElse (length sqrt a) one).

Definition distanceToSquared (a v : t) : number :=
  let dx := (x a - x v)%num in
  let dy := (y a - y v)%num in
  let dz := (z a - z v)%num in
  (dx * dx + dy * dy + dz * dz)%num.

Definition distanceTo (sqrt : number -> number) (a v : t) : number :=
  sqrt (distanceToSquared a v).

Definition min (a v : t) : t :=
  make (Math_min (x a) (x v)) (Math_min (y a) (y v)) (Math_min (z a) (z v)).

Definition max (a v : t) : t :=
  make (Math_max (x a) (x v)) (Math_max (y a) (y v)) (Math_max (z a) (z v)).

(** The full transform of a point, perspective divide included. *)
Definition applyMatrix4 (a : t) (m : Matrix4.t) : t :=
  let e := Matrix4.e m in
  let w := (one / (e 3 * x a + e 7 * y a + e 11 * z a + e 15))%num in
  make ((e 0 * x a + e 4 * y a + e 8 * z a + e 12) * w)%num
       ((e 1 * x a + e 5 * y a + e 9 * z a + e 13) * w)%num
       ((e 2 * x a + e 6 * y a + e 10 * z a + e 14) * w)%num.

Definition applyMatrix3 (a : t) (m : Matrix3.t) : t :=
  let e := Matrix3.e m in
  make (e 0 * x a + e 3 * y a + e 6 * z a)%num
       (e 1 * x a + e 4 * y a + e 7 * z a)%num
       (e 2 * x a + e 5 * y a + e 8 * z a)%num.

(** Section 4.2: applying the normal matrix alone does not renormalise. *)
Definition applyNormalMatrix (a : t) (m : Matrix3.t) : t :=
  applyMatrix3 a m.

(** The directional part of the transform (no translation), normalised. *)
Definition transformDirection (sqrt : number -> number) (a : t)
    (m : Matrix4.t) : t :=
  let e := Matrix4.e m in
  normalize sqrt
    (make (e 0 * x a + e 4 * y a + e 8 * z a)%num
          (e 1 * x a + e 5 * y a + e 9 * z a)%num
          (e 2 * x a + e 6 * y a + e 10 * z a)%num).

End Vector3.

Module Box3.

(** Modelled from the spec: the axis-aligned box of section 6 (fit from
    buffer, expand by point, get centre, emptiness). *)
Record t := make { min : Vector3.t; max : Vector3.t }.

(** [new Box3()] and [makeEmpty()]: the degenerate, non-intersecting box. *)
Definition makeEmpty : t :=
  make (Vector3.make PosInf PosInf PosInf)
       (Vector3.make NegInf NegInf NegInf).

Definition new : t := makeEmpty.

Definition set (mn mx : Vector3.t) : t := make mn mx.

Definition expandByPoint (b : t) (p : Vector3.t) : t :=
  make (Vector3.min (min b) p) (Vector3.max (max b) p).

Definition setFromBufferAttribute (a : BufferAttribute.t) : t :=
  foldl (fun b i => expandByPoint b (Vector3.fromBufferAttribute a (Some i)))
        makeEmpty (seq 0 (BufferAttribute.count a)).

Definition isEmpty (b : t) : bool :=
  (Vector3.x (max b) <? Vector3.x (min b))%num
  || (Vector3.y (max b) <? Vector3.y (min b))%num
  || (Vector3.z (max b) <? Vector3.z (min b))%num.

Definition getCenter (b : t) : Vector3.t :=
  if isEmpty b then Vector3.make zero zero zero
  else Vector3.multiplyScalar (Vector3.addVectors (min b) (max b))
                              (Fin (1 # 2)).

End Box3.

Module Sphere.

(** Modelled from the spec: the sphere of section 6, a centre and a
    radius. *)
Record t := make { center : Vector3.t; radius : number }.

(** [new Sphere()] *)
Definition new : t := make Vector3.new (Fin (-1)).

Definition set (c : Vector3.t) (r : number) : t := make c r.

End Sphere.

(** ** The geometry record *)

Module Group.
(** A draw group; the record the code builds for a geometry without
    groups, [{ start: 0, count: index.count }], has no material index and
    is given [0] here (nothing reads it). *)
Record t := make { start : nat; count : nat; materialIndex : nat }.
End Group.

Module DrawRange.
Record t := make { start : number; count : number }.
End DrawRange.

Module Parameters.
(** [BoxGeometry.parameters] *)
Record t := make {
  width : number; height : number; depth : number;
  widthSegments : number; heightSegments : number; depthSegments : number
}.
End Parameters.

Module BufferGeometry.

Record t := make {
  id : nat;
  uuid : string;
  name : string;
  type : string;
  index : option IndexAttribute.t;
  indirect : option BufferAttribute.t;
  attributes : gmap string BufferAttribute.t;
  morphAttributes : gmap string (list BufferAttribute.t);
  morphTargetsRelative : bool;
  groups : list Group.t;
  boundingBox : option Box3.t;
  boundingSphere : option Sphere.t;
  drawRange : DrawRange.t;
  userData : gmap string string;
  parameters : option Parameters.t
}.

Definition with_type (g : t) (ty : string) : t :=
  make (id g) (uuid g) (name g) ty (index g) (indirect g) (attributes g)
       (morphAttributes g) (morphTargetsRelative g) (groups g)
       (boundingBox g) (boundingSphere g) (drawRange g) (userData g)
       (parameters g).

Definition with_index (g : t) (ix : option IndexAttribute.t) : t :=
  make (id g) (uuid g) (name g) (type g) ix (indirect g) (attributes g)
       (morphAttributes g) (morphTargetsRelative g) (groups g)
       (boundingBox g) (boundingSphere g) (drawRange g) (userData g)
       (parameters g).

Definition with_indirect (g : t) (a : option BufferAttribute.t) : t :=
  make (id g) (uuid g) (name g) (type g) (index g) a (attributes g)
       (morphAttributes g) (morphTargetsRelative g) (groups g)
       (boundingBox g) (boundingSphere g) (drawRange g) (userData g)
       (parameters g).

Definition with_attributes (g : t) (m : gmap string BufferAttribute.t) : t :=
  make (id g) (uuid g) (name g) (type g) (index g) (indirect g) m
       (morphAttributes g) (morphTargetsRelative g) (groups g)
       (boundingBox g) (boundingSphere g) (drawRange g) (userData g)
       (parameters g).

Definition with_morphAttributes (g : t)
    (m : gmap string (list BufferAttribute.t)) : t :=
  make (id g) (uuid g) (name g) (type g) (index g) (indirect g)
       (attributes g) m (morphTargetsRelative g) (groups g)
       (boundingBox g) (boundingSphere g) (drawRange g) (userData g)
       (parameters g).

Definition with_morphTargetsRelative (g : t) (b : bool) : t :=
  make (id g) (uuid g) (name g) (type g) (index g) (indirect g)
       (attributes g) (morphAttributes g) b (groups g)
       (boundingBox g) (boundingSphere g) (drawRange g) (userData g)
       (parameters g).

Definition with_groups (g : t) (gs : list Group.t) : t :=
  make (id g) (uuid g) (name g) (type g) (index g) (indirect g)
       (attributes g) (morphAttributes g) (morphTargetsRelative g) gs
       (boundingBox g) (boundingSphere g) (drawRange g) (userData g)
       (parameters g).

Definition with_boundingBox (g : t) (b : option Box3.t) : t :=
  make (id g) (uuid g) (name g) (type g) (index g) (indirect g)
       (attributes g) (morphAttributes g) (morphTargetsRelative g)
       (groups g) b (boundingSphere g) (drawRange g) (userData g)
       (parameters g).

Definition with_boundingSphere (g : t) (s : option Sphere.t) : t :=
  make (id g) (uuid g) (name g) (type g) (index g) (indirect g)
       (attributes g) (morphAttributes g) (morphTargetsRelative g)
       (groups g) (boundingBox g) s (drawRange g) (userData g)
       (parameters g).

Definition with_drawRange (g : t) (d : DrawRange.t) : t :=
  make (id g) (uuid g) (name g) (type g) (index g) (indirect g)
       (attributes g) (morphAttributes g) (morphTargetsRelative g)
       (groups g) (boundingBox g) (boundingSphere g) d (userData g)
       (parameters g).

Definition with_parameters (g : t) (p : option Parameters.t) : t :=
  make (id g) (uuid g) (name g) (type g) (index g) (indirect g)
       (attributes g) (morphAttributes g) (morphTargetsRelative g)
       (groups g) (boundingBox g) (boundingSphere g) (drawRange g)
       (userData g) p.

Definition with_name (g : t) (n : string) : t :=
  make (id g) (uuid g) n (type g) (index g) (indirect g)
       (attributes g) (morphAttributes g) (morphTargetsRelative g)
       (groups g) (boundingBox g) (boundingSphere g) (drawRange g)
       (userData g) (parameters g).

Definition with_userData (g : t) (u : gmap string string) : t :=
  make (id g) (uuid g) (name g) (type g) (index g) (indirect g)
       (attributes g) (morphAttributes g) (morphTargetsRelative g)
       (groups g) (boundingBox g) (boundingSphere g) (drawRange g)
       u (parameters g).

End BufferGeometry.

(** ** The ambient state: console, the [_id] counter, the UUID source *)

Inductive level := LevelError | LevelWarn.

Record LogEntry := mkLog { logLevel : level; logMessage : string }.

(** [uuids] is the sequence of identifiers [generateUUID()] will hand out
    (the random source seen as an input). *)
Record World := mkWorld {
  console : list LogEntry;
  _id : nat;
  uuids : list string
}.

Definition Eff (A : Type) : Type := World -> A * World.

Definition ret {A} (a : A) : Eff A := fun w => (a, w).

Definition bind {A B} (m : Eff A) (k : A -> Eff B) : Eff B :=
  fun w => let (a, w') := m w in k a w'.

Notation "'let*' x ':=' m 'in' k" := (bind m (fun x => k))
  (at level 10, x name, m at level 100, k at level 200).
Notation "'let*' '_' ':=' m 'in' k" := (bind m (fun _ => k))
  (at level 10, m at level 100, k at level 200).

Definition console_error (msg : string) : Eff unit :=
  fun w => (tt, mkWorld (console w ++ [mkLog LevelError msg]) (_id w) (uuids w)).

Definition console_warn (msg : string) : Eff unit :=
  fun w => (tt, mkWorld (console w ++ [mkLog LevelWarn msg]) (_id w) (uuids w)).

(** [_id++] *)
Definition nextId : Eff nat :=
  fun w => (_id w, mkWorld (console w) (S (_id w)) (uuids w)).

Definition generateUUID : Eff string :=
  fun w => (hd ""%string (uuids w), mkWorld (console w) (_id w) (tl (uuids w))).

(** How a method call ends: normally, or by a [TypeError] thrown at a read
    of a property of [undefined]; either way with the state reached. *)
Inductive completion (S : Type) := Normal (s : S) | Throw (s : S).
Arguments Normal {S} s.
Arguments Throw {S} s.

Definition stateOf {S} (c : completion S) : S :=
  match c with Normal s | Throw s => s end.

(** A loop over [l] whose body may throw. *)
Fixpoint forEach {A S} (body : S -> A -> completion S) (l : list A) (s : S)
    : completion S :=
  match l with
  | [] => Normal s
  | a :: l' =>
      match body s a with
      | Normal s' => forEach body l' s'
      | Throw s' => Throw s'
      end
  end.

(** The values of [j] in [for (j = start; j < start + count; j += 3)]. *)
Definition steps3 (start count : nat) : list nat :=
  map (fun k => start + 3 * k) (seq 0 ((count + 2) / 3)).

(** ** BufferGeometry *)

Section BufferGeometry_methods.

(** [Math.sqrt], a primitive of the host. *)
Variable Math_sqrt : number -> number.

(** *** Attribute-wide transforms *)

(** Modelled from the spec: the transforms of section 4.2 applied to a whole
    buffer (methods of the attribute class, which is not part of the
    excerpt): every vertex is read, transformed and written back. *)
Definition forEachVertex (f : Vector3.t -> Vector3.t)
    (a : BufferAttribute.t) : BufferAttribute.t :=
  foldl (fun a i =>
           let v := f (Vector3.fromBufferAttribute a (Some i)) in
           BufferAttribute.setXYZ a (Some i)
             (Vector3.x v) (Vector3.y v) (Vector3.z v))
        a (seq 0 (BufferAttribute.count a)).

Definition BufferAttribute_applyMatrix4 (a : BufferAttribute.t)
    (m : Matrix4.t) : BufferAttribute.t :=
  forEachVertex (fun v => Vector3.applyMatrix4 v m) a.

Definition BufferAttribute_applyNormalMatrix (a : BufferAttribute.t)
    (m : Matrix3.t) : BufferAttribute.t :=
  forEachVertex (fun v => Vector3.applyNormalMatrix v m) a.

Definition BufferAttribute_transformDirection (a : BufferAttribute.t)
    (m : Matrix4.t) : BufferAttribute.t :=
  forEachVertex (fun v => Vector3.transformDirection Math_sqrt v m) a.

(** *** Construction and slot management *)

(** [new BufferGeometry()] *)
Definition constructor : Eff BufferGeometry.t :=
  let* i := nextId in
  let* u := generateUUID in
  ret (BufferGeometry.make i u "" "BufferGeometry" None None ∅ ∅ false []
         None None (DrawRange.make zero PosInf) ∅ None).

Definition getIndex (this : BufferGeometry.t) : option IndexAttribute.t :=
  BufferGeometry.index this.

(** Modelled from the spec: [arrayNeedsUint32] of [utils.js] (not part of
    the excerpt), by section 4.1: the wide width only if some value exceeds
    what the narrow width can represent. *)
Definition arrayNeedsUint32 (l : list nat) : bool :=
  existsb (fun v => (65535 <? Z.of_nat v)%Z) l.

(** The argument of [setIndex]: a plain array or a ready index buffer. *)
Inductive indexArgument :=
| IndexArray (l : list nat)
| IndexBuffer (ix : option IndexAttribute.t).

Definition setIndex (this : BufferGeometry.t) (index : indexArgument)
    : BufferGeometry.t :=
  match index with
  | IndexArray l =>
      BufferGeometry.with_index this
        (Some (IndexAttribute.make l
                 (if arrayNeedsUint32 l then IndexAttribute.Uint32
                  else IndexAttribute.Uint16)))
  | IndexBuffer ix => BufferGeometry.with_index this ix
  end.

Definition setIndirect (this : BufferGeometry.t)
    (indirect : option BufferAttribute.t) : BufferGeometry.t :=
  BufferGeometry.with_indirect this indirect.

Definition getIndirect (this : BufferGeometry.t) : option BufferAttribute.t :=
  BufferGeometry.indirect this.

Definition getAttribute (this : BufferGeometry.t) (name : string)
    : option BufferAttribute.t :=
  BufferGeometry.attributes this !! name.

Definition setAttribute (this : BufferGeometry.t) (name : string)
    (attribute : BufferAttribute.t) : BufferGeometry.t :=
  BufferGeometry.with_attributes this
    (<[name := attribute]> (BufferGeometry.attributes this)).

Definition deleteAttribute (this : BufferGeometry.t) (name : string)
    : BufferGeometry.t :=
  BufferGeometry.with_attributes this
    (delete name (BufferGeometry.attributes this)).

Definition hasAttribute (this : BufferGeometry.t) (name : string) : bool :=
  match BufferGeometry.attributes this !! name with
  | Some _ => true
  | None => false
  end.

Definition addGroup (this : BufferGeometry.t) (start count : nat)
    (materialIndex : nat) : BufferGeometry.t :=
  BufferGeometry.with_groups this
    (BufferGeometry.groups this ++ [Group.make start count materialIndex]).

Definition clearGroups (this : BufferGeometry.t) : BufferGeometry.t :=
  BufferGeometry.with_groups this [].

Definition setDrawRange (this : BufferGeometry.t) (start count : number)
    : BufferGeometry.t :=
  BufferGeometry.with_drawRange this (DrawRange.make start count).

(** *** Bounding volumes *)

(** One round of the morph-target loop shared by the two computations:
    [box] is the box being grown, [morphAttribute] the next morph buffer. *)
Definition expandByMorph (relative : bool) (box : Box3.t)
    (morphAttribute : BufferAttribute.t) : Box3.t :=
  let _box := Box3.setFromBufferAttribute morphAttribute in
  if relative then
    let box1 :=
      Box3.expandByPoint box
        (Vector3.addVectors (Box3.min box) (Box3.min _box)) in
    Box3.expandByPoint box1
      (Vector3.addVectors (Box3.max box1) (Box3.max _box))
  else
    Box3.expandByPoint (Box3.expandByPoint box (Box3.min _box))
                       (Box3.max _box).

(** Every branch overwrites the stored box (or the fresh [new Box3()]), so
    its previous value is not consulted. *)
Definition computeBoundingBox (this : BufferGeometry.t)
    : Eff BufferGeometry.t :=
  let position := BufferGeometry.attributes this !! "position" in
  let morphAttributesPosition :=
    BufferGeometry.morphAttributes this !! "position" in
  let nanCheck (b : Box3.t) : Eff BufferGeometry.t :=
    let this' := BufferGeometry.with_boundingBox this (Some b) in
    if isNaN (Vector3.x (Box3.min b)) || isNaN (Vector3.y (Box3.min b))
       || isNaN (Vector3.z (Box3.min b))
    then
      let* _ := console_error
        "THREE.BufferGeometry.computeBoundingBox(): Computed min/max have NaN values. The 'position' attribute is likely to have NaN values." in
      ret this'
    else ret this' in
  match position with
  | Some position =>
      if BufferAttribute.isGLBufferAttribute position then
        let* _ := console_error
          "THREE.BufferGeometry.computeBoundingBox(): GLBufferAttribute requires a manual bounding box." in
        ret (BufferGeometry.with_boundingBox this
               (Some (Box3.set (Vector3.make NegInf NegInf NegInf)
                               (Vector3.make PosInf PosInf PosInf))))
      else
        let box0 := Box3.setFromBufferAttribute position in
        let box1 :=
          match morphAttributesPosition with
          | Some morphs =>
              foldl (expandByMorph (BufferGeometry.morphTargetsRelative this))
                    box0 morphs
          | None => box0
          end in
        nanCheck box1
  | None => nanCheck Box3.makeEmpty
  end.

(** The second pass of [computeBoundingSphere]: the largest squared
    distance from [center], over the vertices and then over the vertices
    of every morph target. *)
Definition maxRadiusSqOf (center : Vector3.t) (position : BufferAttribute.t)
    (morphAttributesPosition : option (list BufferAttribute.t))
    (morphTargetsRelative : bool) : number :=
  let m0 :=
    foldl (fun maxRadiusSq i =>
             let _vector := Vector3.fromBufferAttribute position (Some i) in
             Math_max maxRadiusSq (Vector3.distanceToSquared center _vector))
          zero (seq 0 (BufferAttribute.count position)) in
  match morphAttributesPosition with
  | Some morphs =>
      foldl (fun maxRadiusSq morphAttribute =>
               foldl (fun maxRadiusSq j =>
                        let _vector :=
                          Vector3.fromBufferAttribute morphAttribute (Some j) in
                        let _vector :=
                          if morphTargetsRelative then
                            Vector3.add _vector
                              (Vector3.fromBufferAttribute position (Some j))
                          else _vector in
                        Math_max maxRadiusSq
                          (Vector3.distanceToSquared center _vector))
                     maxRadiusSq
                     (seq 0 (BufferAttribute.count morphAttribute)))
            m0 morphs
  | None => m0
  end.

Definition computeBoundingSphere (this : BufferGeometry.t)
    : Eff BufferGeometry.t :=
  let boundingSphere :=
    match BufferGeometry.boundingSphere this with
    | None => Sphere.new
    | Some s => s
    end in
  let position := BufferGeometry.attributes this !! "position" in
  let morphAttributesPosition :=
    BufferGeometry.morphAttributes this !! "position" in
  match position with
  | Some position =>
      if BufferAttribute.isGLBufferAttribute position then
        let* _ := console_error
          "THREE.BufferGeometry.computeBoundingSphere(): GLBufferAttribute requires a manual bounding sphere." in
        ret (BufferGeometry.with_boundingSphere this
               (Some (Sphere.set Vector3.new PosInf)))
      else
        let box0 := Box3.setFromBufferAttribute position in
        let _box :=
          match morphAttributesPosition with
          | Some morphs =>
              foldl (expandByMorph (BufferGeometry.morphTargetsRelative this))
                    box0 morphs
          | None => box0
          end in
        let center := Box3.getCenter _box in
        let maxRadiusSq :=
          maxRadiusSqOf center position morphAttributesPosition
            (BufferGeometry.morphTargetsRelative this) in
        let radius := Math_sqrt maxRadiusSq in
        let this' :=
          BufferGeometry.with_boundingSphere this
            (Some (Sphere.make center radius)) in
        if isNaN radius then
          let* _ := console_error
            "THREE.BufferGeometry.computeBoundingSphere(): Computed radius is NaN. The 'position' attribute is likely to have NaN values." in
          ret this'
        else ret this'
  | None =>
      ret (BufferGeometry.with_boundingSphere this (Some boundingSphere))
  end.

(** *** Transforms *)

Definition applyMatrix4 (this : BufferGeometry.t) (matrix : Matrix4.t)
    : Eff BufferGeometry.t :=
  let this1 :=
    match BufferGeometry.attributes this !! "position" with
    | Some position =>
        setAttribute this "position"
          (BufferAttribute.needsUpdate
             (BufferAttribute_applyMatrix4 position matrix))
    | None => this
    end in
  let this2 :=
    match BufferGeometry.attributes this1 !! "normal" with
    | Some normal =>
        let normalMatrix := Matrix3.getNormalMatrix matrix in
        setAttribute this1 "normal"
          (BufferAttribute.needsUpdate
             (BufferAttribute_applyNormalMatrix normal normalMatrix))
    | None => this1
    end in
  let this3 :=
    match BufferGeometry.attributes this2 !! "tangent" with
    | Some tangent =>
        setAttribute this2 "tangent"
          (BufferAttribute.needsUpdate
             (BufferAttribute_transformDirection tangent matrix))
    | None => this2
    end in
  let* this4 :=
    match BufferGeometry.boundingBox this3 with
    | Some _ => computeBoundingBox this3
    | None => ret this3
    end in
  match BufferGeometry.boundingSphere this4 with
  | Some _ => computeBoundingSphere this4
  | None => ret this4
  end.

(** *** Tangents *)

(** [list[i].add(d)]; reading [list[i]] out of range yields [undefined]
    and the call on it throws. *)
Definition addAt (l : list Vector3.t) (i : vindex) (d : Vector3.t)
    : option (list Vector3.t) :=
  match i with
  | Some i =>
      match l !! i with
      | Some v => Some (<[i := Vector3.add v d]> l)
      | None => None
      end
  | None => None
  end.

(** The scale factor [r] of a triangle. *)
Definition tangentScale (uvAttribute : BufferAttribute.t) (a b c : vindex)
    : number :=
  let uvA := Vector2.fromBufferAttribute uvAttribute a in
  let uvB := Vector2.fromBufferAttribute uvAttribute b in
  let uvC := Vector2.fromBufferAttribute uvAttribute c in
  let uvB := Vector2.sub uvB uvA in
  let uvC := Vector2.sub uvC uvA in
  (one / (Vector2.x uvB * Vector2.y uvC - Vector2.x uvC * Vector2.y uvB))%num.

Definition handleTriangle (positionAttribute uvAttribute : BufferAttribute.t)
    (tan : list Vector3.t * list Vector3.t) (abc : vindex * vindex * vindex)
    : completion (list Vector3.t * list Vector3.t) :=
  let '(a, b, c) := abc in
  let '(tan1, tan2) := tan in
  let vA := Vector3.fromBufferAttribute positionAttribute a in
  let vB := Vector3.fromBufferAttribute positionAttribute b in
  let vC := Vector3.fromBufferAttribute positionAttribute c in
  let uvA := Vector2.fromBufferAttribute uvAttribute a in
  let uvB := Vector2.fromBufferAttribute uvAttribute b in
  let uvC := Vector2.fromBufferAttribute uvAttribute c in
  let vB := Vector3.sub vB vA in
  let vC := Vector3.sub vC vA in
  let uvB := Vector2.sub uvB uvA in
  let uvC := Vector2.sub uvC uvA in
  let r := tangentScale uvAttribute a b c in
  if negb (isFinite r) then Normal tan
  else
    let sdir :=
      Vector3.multiplyScalar
        (Vector3.addScaledVector
           (Vector3.multiplyScalar vB (Vector2.y uvC)) vC (- Vector2.y uvB)%num)
        r in
    let tdir :=
      Vector3.multiplyScalar
        (Vector3.addScaledVector
           (Vector3.multiplyScalar vC (Vector2.x uvB)) vB (- Vector2.x uvC)%num)
        r in
    match addAt tan1 a sdir with
    | None => Throw tan
    | Some t1 =>
    match addAt t1 b sdir with
    | None => Throw (t1, tan2)
    | Some t1 =>
    match addAt t1 c sdir with
    | None => Throw (t1, tan2)
    | Some t1 =>
    match addAt tan2 a tdir with
    | None => Throw (t1, tan2)
    | Some t2 =>
    match addAt t2 b tdir with
    | None => Throw (t1, t2)
    | Some t2 =>
    match addAt t2 c tdir with
    | None => Throw (t1, t2)
    | Some t2 => Normal (t1, t2)
    end end end end end end.

Definition handleVertex (normalAttribute : BufferAttribute.t)
    (tan1 tan2 : list Vector3.t) (tangentAttribute : BufferAttribute.t)
    (v : vindex) : completion BufferAttribute.t :=
  let n := Vector3.fromBufferAttribute normalAttribute v in
  let n2 := n in
  match v ≫= (fun i => tan1 !! i), v ≫= (fun i => tan2 !! i) with
  | Some t, Some t2 =>
      let tmp :=
        Vector3.normalize Math_sqrt
          (Vector3.sub t (Vector3.multiplyScalar n (Vector3.dot n t))) in
      let tmp2 := Vector3.crossVectors n2 t in
      let test := Vector3.dot tmp2 t2 in
      let w := if (test <? zero)%num then Fin (-1) else one in
      Normal (BufferAttribute.setXYZW tangentAttribute v
                (Vector3.x tmp) (Vector3.y tmp) (Vector3.z tmp) w)
  | _, _ => Throw tangentAttribute
  end.

(** The corners visited for one group, three per step. *)
Definition triangleOf (index : IndexAttribute.t) (j : nat)
    : vindex * vindex * vindex :=
  (IndexAttribute.getX index (j + 0), IndexAttribute.getX index (j + 1),
   IndexAttribute.getX index (j + 2)).

Definition groupTriangles (index : IndexAttribute.t) (group : Group.t)
    : list (vindex * vindex * vindex) :=
  map (triangleOf index) (steps3 (Group.start group) (Group.count group)).

Definition groupVertices (index : IndexAttribute.t) (group : Group.t)
    : list vindex :=
  flat_map (fun j => [IndexAttribute.getX index (j + 0);
                      IndexAttribute.getX index (j + 1);
                      IndexAttribute.getX index (j + 2)])
           (steps3 (Group.start group) (Group.count group)).

(** The first pass: the accumulated tangents and bitangents. *)
Definition accumulateTangents (positionAttribute uvAttribute : BufferAttribute.t)
    (index : IndexAttribute.t) (groups : list Group.t)
    : completion (list Vector3.t * list Vector3.t) :=
  let n := BufferAttribute.count positionAttribute in
  forEach (fun tan group =>
             forEach (handleTriangle positionAttribute uvAttribute)
                     (groupTriangles index group) tan)
          groups (replicate n Vector3.new, replicate n Vector3.new).

Definition computeTangents (this : BufferGeometry.t)
    : Eff (completion BufferGeometry.t) :=
  let index := BufferGeometry.index this in
  let attributes := BufferGeometry.attributes this in
  match index, attributes !! "position", attributes !! "normal",
        attributes !! "uv" with
  | Some index, Some positionAttribute, Some normalAttribute,
    Some uvAttribute =>
      let tangentAttribute :=
        match attributes !! "tangent" with
        | Some a => a
        | None =>
            BufferAttribute.new BufferAttribute.Float32
              (BufferAttribute.Float32Array
                 (4 * BufferAttribute.count positionAttribute)) 4 false
        end in
      let this1 := setAttribute this "tangent" tangentAttribute in
      let groups :=
        match BufferGeometry.groups this with
        | [] => [Group.make 0 (IndexAttribute.count index) 0]
        | gs => gs
        end in
      match accumulateTangents positionAttribute uvAttribute index groups with
      | Throw _ => ret (Throw this1)
      | Normal (tan1, tan2) =>
          match
            forEach (fun tangentAttribute group =>
                       forEach (handleVertex normalAttribute tan1 tan2)
                               (groupVertices index group) tangentAttribute)
                    groups tangentAttribute
          with
          | Normal a => ret (Normal (setAttribute this "tangent" a))
          | Throw a => ret (Throw (setAttribute this "tangent" a))
          end
      end
  | _, _, _, _ =>
      let* _ := console_error
        "THREE.BufferGeometry: .computeTangents() failed. Missing required attributes (index, position, normal or uv)" in
      ret (Normal this)
  end.

(** *** Vertex normals *)

(** The reset loop: every existing normal entry is set to zero. *)
Definition resetNormals (normalAttribute : BufferAttribute.t)
    : BufferAttribute.t :=
  foldl (fun a i => BufferAttribute.setXYZ a (Some i) zero zero zero)
        normalAttribute (seq 0 (BufferAttribute.count normalAttribute)).

(** The face normal of the triangle [pA pB pC]. *)
Definition faceNormal (pA pB pC : Vector3.t) : Vector3.t :=
  let cb := Vector3.subVectors pC pB in
  let ab := Vector3.subVectors pA pB in
  Vector3.cross cb ab.

(** One round of the indexed loop. *)
Definition accumulateFace (index : IndexAttribute.t)
    (positionAttribute normalAttribute : BufferAttribute.t) (i : nat)
    : BufferAttribute.t :=
  let vA := IndexAttribute.getX index (i + 0) in
  let vB := IndexAttribute.getX index (i + 1) in
  let vC := IndexAttribute.getX index (i + 2) in
  let pA := Vector3.fromBufferAttribute positionAttribute vA in
  let pB := Vector3.fromBufferAttribute positionAttribute vB in
  let pC := Vector3.fromBufferAttribute positionAttribute vC in
  let cb := faceNormal pA pB pC in
  let nA := Vector3.fromBufferAttribute normalAttribute vA in
  let nB := Vector3.fromBufferAttribute normalAttribute vB in
  let nC := Vector3.fromBufferAttribute normalAttribute vC in
  let nA := Vector3.add nA cb in
  let nB := Vector3.add nB cb in
  let nC := Vector3.add nC cb in
  let normalAttribute :=
    BufferAttribute.setXYZ normalAttribute vA
      (Vector3.x nA) (Vector3.y nA) (Vector3.z nA) in
  let normalAttribute :=
    BufferAttribute.setXYZ normalAttribute vB
      (Vector3.x nB) (Vector3.y nB) (Vector3.z nB) in
  BufferAttribute.setXYZ normalAttribute vC
    (Vector3.x nC) (Vector3.y nC) (Vector3.z nC).

(** One round of the non-indexed loop. *)
Definition assignFace (positionAttribute normalAttribute : BufferAttribute.t)
    (i : nat) : BufferAttribute.t :=
  let pA := Vector3.fromBufferAttribute positionAttribute (Some (i + 0)) in
  let pB := Vector3.fromBufferAttribute positionAttribute (Some (i + 1)) in
  let pC := Vector3.fromBufferAttribute positionAttribute (Some (i + 2)) in
  let cb := faceNormal pA pB pC in
  let normalAttribute :=
    BufferAttribute.setXYZ normalAttribute (Some (i + 0))
      (Vector3.x cb) (Vector3.y cb) (Vector3.z cb) in
  let normalAttribute :=
    BufferAttribute.setXYZ normalAttribute (Some (i + 1))
      (Vector3.x cb) (Vector3.y cb) (Vector3.z cb) in
  BufferAttribute.setXYZ normalAttribute (Some (i + 2))
    (Vector3.x cb) (Vector3.y cb) (Vector3.z cb).

(** [normalizeNormals] on the normal buffer itself. *)
Definition normalizeAttribute (normals : BufferAttribute.t)
    : BufferAttribute.t :=
  forEachVertex (Vector3.normalize Math_sqrt) normals.

(** [normalizeNormals()]; without a normal attribute the first read,
    [normals.count], throws. *)
Definition normalizeNormals (this : BufferGeometry.t)
    : completion BufferGeometry.t :=
  match BufferGeometry.attributes this !! "normal" with
  | Some normals => Normal (setAttribute this "normal" (normalizeAttribute normals))
  | None => Throw this
  end.

(** The normals written by the two loops, before normalisation. *)
Definition faceNormals (index : option IndexAttribute.t)
    (positionAttribute normalAttribute : BufferAttribute.t)
    : BufferAttribute.t :=
  match index with
  | Some index =>
      foldl (accumulateFace index positionAttribute) normalAttribute
            (steps3 0 (IndexAttribute.count index))
  | None =>
      foldl (assignFace positionAttribute) normalAttribute
            (steps3 0 (BufferAttribute.count positionAttribute))
  end.

Definition computeVertexNormals (this : BufferGeometry.t)
    : Eff BufferGeometry.t :=
  let index := BufferGeometry.index this in
  let positionAttribute := getAttribute this "position" in
  match positionAttribute with
  | Some positionAttribute =>
      let normalAttribute :=
        match getAttribute this "normal" with
        | None =>
            BufferAttribute.new BufferAttribute.Float32
              (BufferAttribute.Float32Array
                 (BufferAttribute.count positionAttribute * 3)) 3 false
        | Some normalAttribute => resetNormals normalAttribute
        end in
      let normalAttribute :=
        faceNormals index positionAttribute normalAttribute in
      let this1 := setAttribute this "normal" normalAttribute in
      let this2 := stateOf (normalizeNormals this1) in
      match getAttribute this2 "normal" with
      | Some normalAttribute =>
          ret (setAttribute this2 "normal"
                 (BufferAttribute.needsUpdate normalAttribute))
      | None => ret this2
      end
  | None => ret this
  end.

(** *** Conversion to a non-indexed geometry *)

(** The inner copy loop: [itemSize] cells from [array[index...]] to
    [array2[index2...]]. *)
Definition copyItem (array : list number) (itemSize : nat)
    (st : list number * nat * nat) : list number * nat * nat :=
  foldl (fun '(array2, index, index2) (_ : nat) =>
           (<[index2 := default NaN (array !! index)]> array2,
            S index, S index2))
        st (seq 0 itemSize).

Definition convertBufferAttribute (attribute : BufferAttribute.t)
    (indices : list nat) : BufferAttribute.t :=
  let array := BufferAttribute.array attribute in
  let itemSize := BufferAttribute.itemSize attribute in
  let normalized := BufferAttribute.normalized attribute in
  (* new array.constructor(indices.length * itemSize): the element type of
     the source, so that the copy below converts nothing *)
  let array2 := BufferAttribute.zeros (length indices * itemSize) in
  let '(array2, _, _) :=
    foldl (fun '(array2, index, index2) i =>
             let index :=
               match BufferAttribute.interleaved attribute with
               | Some (stride, offset) => i * stride + offset
               | None => i * itemSize
               end in
             copyItem array itemSize (array2, index, index2))
          (array2, 0, 0) indices in
  BufferAttribute.new (BufferAttribute.elementType attribute) array2 itemSize
    normalized.

(** What [toNonIndexed] returns: the receiver itself or a new geometry. *)
Inductive returned := This | Fresh (geometry2 : BufferGeometry.t).

Definition toNonIndexed (this : BufferGeometry.t) : Eff returned :=
  match BufferGeometry.index this with
  | None =>
      let* _ := console_warn
        "THREE.BufferGeometry.toNonIndexed(): BufferGeometry is already non-indexed." in
      ret This
  | Some index =>
      let* geometry2 := constructor in
      let indices := IndexAttribute.array index in
      let attributes := BufferGeometry.attributes this in
      let geometry2 :=
        map_fold (fun name attribute geometry2 =>
                    setAttribute geometry2 name
                      (convertBufferAttribute attribute indices))
                 geometry2 attributes in
      let morphAttributes := BufferGeometry.morphAttributes this in
      let geometry2 :=
        map_fold (fun name morphAttribute geometry2 =>
                    let morphArray :=
                      map (fun attribute =>
                             convertBufferAttribute attribute indices)
                          morphAttribute in
                    BufferGeometry.with_morphAttributes geometry2
                      (<[name := morphArray]>
                         (BufferGeometry.morphAttributes geometry2)))
                 geometry2 morphAttributes in
      let geometry2 :=
        BufferGeometry.with_morphTargetsRelative geometry2
          (BufferGeometry.morphTargetsRelative this) in
      let geometry2 :=
        foldl (fun geometry2 group =>
                 addGroup geometry2 (Group.start group) (Group.count group)
                          (Group.materialIndex group))
              geometry2 (BufferGeometry.groups this) in
      ret (Fresh geometry2)
  end.

(** *** Points, translation, scaling, centring *)

(** An element of the array given to [setFromPoints]: a 2-component or a
    3-component vector. *)
Inductive point := Point2 (v : Vector2.t) | Point3 (v : Vector3.t).

Definition point_x (p : point) : number :=
  match p with Point2 v => Vector2.x v | Point3 v => Vector3.x v end.

Definition point_y (p : point) : number :=
  match p with Point2 v => Vector2.y v | Point3 v => Vector3.y v end.

(** [point.z || 0]: a 2-component vector has no [z]. *)
Definition point_z_or_0 (p : point) : number :=
  match p with Point2 _ => zero | Point3 v => orElse (Vector3.z v) zero end.

Definition setFromPoints (this : BufferGeometry.t) (points : list point)
    : Eff BufferGeometry.t :=
  let positionAttribute := getAttribute this "position" in
  match positionAttribute with
  | None =>
      let position :=
        foldl (fun position point =>
                 position ++ [point_x point; point_y point; point_z_or_0 point])
              [] points in
      ret (setAttribute this "position" (Float32BufferAttribute position 3))
  | Some positionAttribute =>
      let l := Nat.min (length points) (BufferAttribute.count positionAttribute) in
      let '(positionAttribute', _) :=
        foldl (fun '(a, i) point =>
                 (BufferAttribute.setXYZ a (Some i)
                    (point_x point) (point_y point) (point_z_or_0 point),
                  S i))
              (positionAttribute, 0) (take l points) in
      let this' :=
        setAttribute this "position"
          (BufferAttribute.needsUpdate positionAttribute') in
      if BufferAttribute.count positionAttribute <? length points then
        let* _ := console_warn
          "THREE.BufferGeometry: Buffer size too small for points data. Use .dispose() and create a new geometry." in
        ret this'
      else ret this'
  end.

(** Modelled from the spec: the translation and scaling matrices of
    section 6 ("composition from translation/rotation/scale primitives"),
    column-major. *)
Definition Matrix4_makeTranslation (x y z : number) : Matrix4.t :=
  Matrix4.make [one; zero; zero; zero;
                zero; one; zero; zero;
                zero; zero; one; zero;
                x; y; z; one].

Definition Matrix4_makeScale (x y z : number) : Matrix4.t :=
  Matrix4.make [x; zero; zero; zero;
                zero; y; zero; zero;
                zero; zero; z; zero;
                zero; zero; zero; one].

Definition translate (this : BufferGeometry.t) (x y z : number)
    : Eff BufferGeometry.t :=
  applyMatrix4 this (Matrix4_makeTranslation x y z).

Definition scale (this : BufferGeometry.t) (x y z : number)
    : Eff BufferGeometry.t :=
  applyMatrix4 this (Matrix4_makeScale x y z).

(** [center()]; reading the centre of a missing box would throw. *)
Definition center (this : BufferGeometry.t)
    : Eff (completion BufferGeometry.t) :=
  let* this1 := computeBoundingBox this in
  match BufferGeometry.boundingBox this1 with
  | Some boundingBox =>
      let _offset := Vector3.negate (Box3.getCenter boundingBox) in
      let* this2 :=
        translate this1 (Vector3.x _offset) (Vector3.y _offset)
                  (Vector3.z _offset) in
      ret (Normal this2)
  | None => ret (Throw this1)
  end.

End BufferGeometry_methods.

(** ** Copies and serialisation *)

Module JSON.

(** [data.metadata] *)
Record metadata := mkMetadata {
  version : number;
  metaType : string;
  generator : string
}.

(** [data.data]: [A] is what an attribute serialises to. *)
Record data (A : Type) := mkData {
  attributes : gmap string A;
  index : option (IndexAttribute.elementType * list nat);
  morphAttributes : option (gmap string (list A));
  morphTargetsRelative : option bool;
  groups : option (list Group.t);
  boundingSphere : option (list number * number)
}.
Arguments mkData {A}.
Arguments attributes {A}.
Arguments index {A}.
Arguments morphAttributes {A}.
Arguments morphTargetsRelative {A}.
Arguments groups {A}.
Arguments boundingSphere {A}.

(** The record [toJSON] returns; a key that is not set is [None]. *)
Record t (A : Type) := make {
  meta : metadata;
  uuid : string;
  type : string;
  name : option string;
  userData : option (gmap string string);
  width : option number;
  height : option number;
  depth : option number;
  widthSegments : option number;
  heightSegments : option number;
  depthSegments : option number;
  geometryData : option (data A)
}.
Arguments make {A}.
Arguments meta {A}.
Arguments uuid {A}.
Arguments type {A}.
Arguments name {A}.
Arguments userData {A}.
Arguments width {A}.
Arguments height {A}.
Arguments depth {A}.
Arguments widthSegments {A}.
Arguments heightSegments {A}.
Arguments depthSegments {A}.
Arguments geometryData {A}.

End JSON.

Section Copying.

(** The attribute class's own [clone] and [toJSON], and the index
    buffer's [clone], are not part of the excerpt: they are parameters.
    [AttributeJSON] is what an attribute serialises to. *)
Variable BufferAttribute_clone : BufferAttribute.t -> BufferAttribute.t.
Variable IndexAttribute_clone : IndexAttribute.t -> IndexAttribute.t.
Variable AttributeJSON : Type.
Variable BufferAttribute_toJSON : BufferAttribute.t -> AttributeJSON.

(** [copy(source)], for a [source] that is another object than the
    receiver; the clones of a box and of a sphere are the same values in
    new objects. *)
Definition copy (this source : BufferGeometry.t) : BufferGeometry.t :=
  let this := BufferGeometry.with_index this None in
  let this := BufferGeometry.with_attributes this ∅ in
  let this := BufferGeometry.with_morphAttributes this ∅ in
  let this := BufferGeometry.with_groups this [] in
  let this := BufferGeometry.with_boundingBox this None in
  let this := BufferGeometry.with_boundingSphere this None in
  let this := BufferGeometry.with_name this (BufferGeometry.name source) in
  let this :=
    match BufferGeometry.index source with
    | Some index => setIndex this (IndexBuffer (Some (IndexAttribute_clone index)))
    | None => this
    end in
  let this :=
    map_fold (fun name attribute this =>
                setAttribute this name (BufferAttribute_clone attribute))
             this (BufferGeometry.attributes source) in
  let this :=
    map_fold (fun name morphAttribute this =>
                let array := map BufferAttribute_clone morphAttribute in
                BufferGeometry.with_morphAttributes this
                  (<[name := array]> (BufferGeometry.morphAttributes this)))
             this (BufferGeometry.morphAttributes source) in
  let this :=
    BufferGeometry.with_morphTargetsRelative this
      (BufferGeometry.morphTargetsRelative source) in
  let this :=
    foldl (fun this group =>
             addGroup this (Group.start group) (Group.count group)
                      (Group.materialIndex group))
          this (BufferGeometry.groups source) in
  let this :=
    match BufferGeometry.boundingBox source with
    | Some boundingBox => BufferGeometry.with_boundingBox this (Some boundingBox)
    | None => this
    end in
  let this :=
    match BufferGeometry.boundingSphere source with
    | Some boundingSphere =>
        BufferGeometry.with_boundingSphere this (Some boundingSphere)
    | None => this
    end in
  let this :=
    BufferGeometry.with_drawRange this
      (DrawRange.make (DrawRange.start (BufferGeometry.drawRange source))
                      (DrawRange.count (BufferGeometry.drawRange source))) in
  BufferGeometry.with_userData this (BufferGeometry.userData source).

(** [clone()] on a receiver built by [new BufferGeometry()]. *)
Definition clone (this : BufferGeometry.t) : Eff BufferGeometry.t :=
  let* geometry := constructor in
  ret (copy geometry this).

(** [index.array.constructor.name] is carried as the element type. *)
Definition toJSON (this : BufferGeometry.t) : JSON.t AttributeJSON :=
  let meta := JSON.mkMetadata (Fin (46 # 10)) "BufferGeometry" "BufferGeometry.toJSON" in
  let name :=
    if decide (BufferGeometry.name this = ""%string) then None
    else Some (BufferGeometry.name this) in
  let userData :=
    if decide (0 < size (BufferGeometry.userData this))
    then Some (BufferGeometry.userData this) else None in
  match BufferGeometry.parameters this with
  | Some parameters =>
      JSON.make meta (BufferGeometry.uuid this) (BufferGeometry.type this)
        name userData
        (Some (Parameters.width parameters))
        (Some (Parameters.height parameters))
        (Some (Parameters.depth parameters))
        (Some (Parameters.widthSegments parameters))
        (Some (Parameters.heightSegments parameters))
        (Some (Parameters.depthSegments parameters))
        None
  | None =>
      let index :=
        match BufferGeometry.index this with
        | Some index =>
            Some (IndexAttribute.type index, IndexAttribute.array index)
        | None => None
        end in
      let attributes :=
        map_fold (fun key attribute (attributes : gmap string AttributeJSON) =>
                    <[key := BufferAttribute_toJSON attribute]> attributes)
                 ∅ (BufferGeometry.attributes this) in
      let '(morphAttributes, hasMorphAttributes) :=
        map_fold (fun key attributeArray
                      '((morphAttributes, hasMorphAttributes)
                        : gmap string (list AttributeJSON) * bool) =>
                    let array := map BufferAttribute_toJSON attributeArray in
                    if 0 <? length array
                    then (<[key := array]> morphAttributes, true)
                    else (morphAttributes, hasMorphAttributes))
                 (∅, false) (BufferGeometry.morphAttributes this) in
      let groups :=
        if 0 <? length (BufferGeometry.groups this)
        then Some (BufferGeometry.groups this) else None in
      let boundingSphere :=
        match BufferGeometry.boundingSphere this with
        | Some boundingSphere =>
            let c := Sphere.center boundingSphere in
            Some ([Vector3.x c; Vector3.y c; Vector3.z c],
                  Sphere.radius boundingSphere)
        | None => None
        end in
      JSON.make meta (BufferGeometry.uuid this) (BufferGeometry.type this)
        name userData None None None None None None
        (Some (JSON.mkData attributes index
                 (if hasMorphAttributes then Some morphAttributes else None)
                 (if hasMorphAttributes
                  then Some (BufferGeometry.morphTargetsRelative this) else None)
                 groups boundingSphere))
  end.

End Copying.

(** ** BoxGeometry *)

Inductive axis := AxisX | AxisY | AxisZ.

(** [vector[u] = value] *)
Definition setComponent (vector : Vector3.t) (u : axis) (value : number)
    : Vector3.t :=
  match u with
  | AxisX => Vector3.make value (Vector3.y vector) (Vector3.z vector)
  | AxisY => Vector3.make (Vector3.x vector) value (Vector3.z vector)
  | AxisZ => Vector3.make (Vector3.x vector) (Vector3.y vector) value
  end.

(** [for (let i = 0; i < n; i++) body]; [None] when the loop, or a loop
    inside its body, never ends. *)
Fixpoint iterate {S} (body : S -> nat -> option S) (l : list nat) (s : S)
    : option S :=
  match l with
  | [] => Some s
  | i :: l' =>
      match body s i with
      | Some s' => iterate body l' s'
      | None => None
      end
  end.

Definition forUpTo {S} (n : number) (body : S -> nat -> option S) (s : S)
    : option S :=
  match tripCount n with
  | Some k => iterate body (seq 0 k) s
  | None => None
  end.

(** The integer an index buffer stores for [n] (the values pushed by
    [buildPlane] are non-negative integers). *)
Definition toIndex (n : number) : nat :=
  match n with
  | Fin q => Z.to_nat (Qfloor q)
  | _ => 0
  end.

(** The variables of the constructor that [buildPlane] closes over. *)
Record Builder := mkBuilder {
  indices : list number;
  vertices : list number;
  normals : list number;
  uvs : list number;
  numberOfVertices : nat;
  groupStart : nat;
  scope : BufferGeometry.t
}.

Definition buildPlane (u v w : axis) (udir vdir : number)
    (width height depth : number) (gridX gridY : number)
    (materialIndex : nat) (st : Builder) : option Builder :=
  let segmentWidth := (width / gridX)%num in
  let segmentHeight := (height / gridY)%num in
  let widthHalf := (width / Fin 2)%num in
  let heightHalf := (height / Fin 2)%num in
  let depthHalf := (depth / Fin 2)%num in
  let gridX1 := (gridX + one)%num in
  let gridY1 := (gridY + one)%num in
  let vertexLoop :=
    forUpTo gridY1 (fun s iy =>
      let y := (ofNat iy * segmentHeight - heightHalf)%num in
      forUpTo gridX1 (fun '(vector, vertices, normals, uvs, vertexCounter) ix =>
        let x := (ofNat ix * segmentWidth - widthHalf)%num in
        let vector := setComponent vector u (x * udir)%num in
        let vector := setComponent vector v (y * vdir)%num in
        let vector := setComponent vector w depthHalf in
        let vertices :=
          vertices ++ [Vector3.x vector; Vector3.y vector; Vector3.z vector] in
        let vector := setComponent vector u zero in
        let vector := setComponent vector v zero in
        let vector :=
          setComponent vector w
            (if (zero <? depth)%num then one else Fin (-1)) in
        let normals :=
          normals ++ [Vector3.x vector; Vector3.y vector; Vector3.z vector] in
        let uvs := uvs ++ [(ofNat ix / gridX)%num] in
        let uvs := uvs ++ [(one - ofNat iy / gridY)%num] in
        Some (vector, vertices, normals, uvs, vertexCounter + 1)) s)
      (Vector3.new, vertices st, normals st, uvs st, 0) in
  match vertexLoop with
  | None => None
  | Some (_, vertices, normals, uvs, vertexCounter) =>
      let indexLoop :=
        forUpTo gridY (fun s iy =>
          forUpTo gridX (fun '(indices, groupCount) ix =>
            let a :=
              (ofNat (numberOfVertices st) + ofNat ix + gridX1 * ofNat iy)%num in
            let b :=
              (ofNat (numberOfVertices st) + ofNat ix
               + gridX1 * (ofNat iy + one))%num in
            let c :=
              (ofNat (numberOfVertices st) + (ofNat ix + one)
               + gridX1 * (ofNat iy + one))%num in
            let d :=
              (ofNat (numberOfVertices st) + (ofNat ix + one)
               + gridX1 * ofNat iy)%num in
            let indices := indices ++ [a; b; d] in
            let indices := indices ++ [b; c; d] in
            Some (indices, groupCount + 6)) s)
          (indices st, 0) in
      match indexLoop with
      | None => None
      | Some (indices, groupCount) =>
          let scope := addGroup (scope st) (groupStart st) groupCount materialIndex in
          Some (mkBuilder indices vertices normals uvs
                  (numberOfVertices st + vertexCounter)
                  (groupStart st + groupCount) scope)
      end
  end.

(** [new BoxGeometry(width, height, depth, widthSegments, heightSegments,
    depthSegments)]; [None] when a segment count makes a loop endless. *)
Definition BoxGeometry (width height depth : number)
    (widthSegments heightSegments depthSegments : number)
    : Eff (option BufferGeometry.t) :=
  let* this := constructor in
  let this := BufferGeometry.with_type this "BoxGeometry" in
  let this :=
    BufferGeometry.with_parameters this
      (Some (Parameters.make width height depth
               widthSegments heightSegments depthSegments)) in
  let widthSegments := Math_floor widthSegments in
  let heightSegments := Math_floor heightSegments in
  let depthSegments := Math_floor depthSegments in
  let st := Some (mkBuilder [] [] [] [] 0 0 this) in
  let st :=
    st ≫= buildPlane AxisZ AxisY AxisX (Fin (-1)) (Fin (-1))
            depth height width depthSegments heightSegments 0 in
  let st :=
    st ≫= buildPlane AxisZ AxisY AxisX one (Fin (-1))
            depth height (- width)%num depthSegments heightSegments 1 in
  let st :=
    st ≫= buildPlane AxisX AxisZ AxisY one one
            width depth height widthSegments depthSegments 2 in
  let st :=
    st ≫= buildPlane AxisX AxisZ AxisY one (Fin (-1))
            width depth (- height)%num widthSegments depthSegments 3 in
  let st :=
    st ≫= buildPlane AxisX AxisY AxisZ one (Fin (-1))
            width height depth widthSegments heightSegments 4 in
  let built :=
    st ≫= buildPlane AxisX AxisY AxisZ (Fin (-1)) (Fin (-1))
            width height (- depth)%num widthSegments heightSegments 5 in
  match built with
  | None => ret None
  | Some st =>
      let this := setIndex (scope st) (IndexArray (map toIndex (indices st))) in
      let this :=
        setAttribute this "position" (Float32BufferAttribute (vertices st) 3) in
      let this :=
        setAttribute this "normal" (Float32BufferAttribute (normals st) 3) in
      let this :=
        setAttribute this "uv" (Float32BufferAttribute (uvs st) 2) in
      ret (Some this)
  end.

(** [BoxGeometry.fromJSON(data)]: a key that is missing takes the
    constructor's default, [1]. *)
Definition fromJSON {A} (data : JSON.t A) : Eff (option BufferGeometry.t) :=
  BoxGeometry (default one (JSON.width data)) (default one (JSON.height data))
              (default one (JSON.depth data))
              (default one (JSON.widthSegments data))
              (default one (JSON.heightSegments data))
              (default one (JSON.depthSegments data)).

(** ** A concrete square root

    The square root rounded down to a multiple of [2^-20]; it stands for
    [Math.sqrt] wherever a development below needs a closed instance. *)
Definition sqrt_floor (a : number) : number :=
  match a with
  | NaN | NegInf => NaN
  | PosInf => PosInf
  | Fin q =>
      if Qle_bool 0 q
      then Fin (Qred (Z.sqrt (Qfloor (q * inject_Z (2 ^ 40))) # 2 ^ 20))
      else NaN
  end.

Definition world0 : World := mkWorld [] 0 [].

(** ** Sample geometries *)

(** [new BufferGeometry()] in the initial world. *)
Definition emptyGeometry : BufferGeometry.t := fst (constructor world0).

(** A unit quad in the plane [z = 0]: four vertices, two triangles. *)
Definition quadPositions : list number :=
  [Fin 0; Fin 0; Fin 0;   Fin 1; Fin 0; Fin 0;
   Fin 0; Fin 1; Fin 0;   Fin 1; Fin 1; Fin 0].

Definition quadNormals : list number :=
  [Fin 0; Fin 0; Fin 1;   Fin 0; Fin 0; Fin 1;
   Fin 0; Fin 0; Fin 1;   Fin 0; Fin 0; Fin 1].

Definition quadUvs : list number :=
  [Fin 0; Fin 0;   Fin 1; Fin 0;   Fin 0; Fin 1;   Fin 1; Fin 1].

Definition quadIndex : list nat := [0; 1; 2; 2; 1; 3].

Definition quad : BufferGeometry.t :=
  let g := setIndex emptyGeometry (IndexArray quadIndex) in
  let g := setAttribute g "position" (Float32BufferAttribute quadPositions 3) in
  let g := setAttribute g "normal" (Float32BufferAttribute quadNormals 3) in
  setAttribute g "uv" (Float32BufferAttribute quadUvs 2).


(** The quad stripped of its positions, and of its texture coordinates. *)
Definition quadWithoutPosition : BufferGeometry.t :=
  deleteAttribute quad "position".

Definition quadWithoutUv : BufferGeometry.t := deleteAttribute quad "uv".

(** A texture-coordinate buffer with every vertex on the same coordinate. *)
Definition quadCollapsedUv : BufferAttribute.t :=
  Float32BufferAttribute (replicate 8 zero) 2.

(** The identity transform. *)
Definition identity4 : Matrix4.t :=
  Matrix4.make [Fin 1; Fin 0; Fin 0; Fin 0;
                Fin 0; Fin 1; Fin 0; Fin 0;
                Fin 0; Fin 0; Fin 1; Fin 0;
                Fin 0; Fin 0; Fin 0; Fin 1].

(** The quad after [computeBoundingBox()] only. *)
Definition quadBoxed : BufferGeometry.t := fst (computeBoundingBox quad world0).

(** The quad with one relative morph target lifting every vertex by one. *)
Definition quadLift : BufferAttribute.t :=
  Float32BufferAttribute
    [Fin 0; Fin 0; Fin 1;   Fin 0; Fin 0; Fin 1;
     Fin 0; Fin 0; Fin 1;   Fin 0; Fin 0; Fin 1] 3.

Definition quadMorphed : BufferGeometry.t :=
  BufferGeometry.with_morphTargetsRelative
    (BufferGeometry.with_morphAttributes quad {[ "position"%string := [quadLift] ]})
    true.

(** The quad with an empty relative morph target. *)
Definition quadEmptyMorph : BufferGeometry.t :=
  BufferGeometry.with_morphTargetsRelative
    (BufferGeometry.with_morphAttributes quad
       {[ "position"%string := [Float32BufferAttribute [] 3] ]})
    true.

(** The quad with an index entry that refers to no vertex. *)
Definition quadBadIndex : BufferGeometry.t :=
  setIndex quad (IndexArray [0; 1; 7]).

(** A geometry whose only vertex has a NaN coordinate. *)
Definition nanPoint : BufferGeometry.t :=
  setAttribute emptyGeometry "position"
    (Float32BufferAttribute [NaN; Fin 0; Fin 0] 3).

(** Two vertices with infinite coordinates, and one relative morph target
    moving the first of them. *)
Definition infinitePositions : BufferAttribute.t :=
  Float32BufferAttribute [PosInf; Fin 0; Fin 0;   Fin 1; Fin 2; NegInf] 3.

Definition infinitePoints : BufferGeometry.t :=
  BufferGeometry.with_morphTargetsRelative
    (BufferGeometry.with_morphAttributes
       (setAttribute emptyGeometry "position" infinitePositions)
       {[ "position"%string :=
            [Float32BufferAttribute
               [Fin 1; Fin 1; Fin 1;   Fin 0; Fin 0; Fin 0] 3] ]})
    true.

(** A buffer laid out as the quad's normals are, holding other numbers. *)
Definition quadOtherNormals : BufferAttribute.t :=
  Float32BufferAttribute
    [Fin 5; NaN; Fin (-3);   PosInf; Fin 1; Fin 1;
     Fin 0; Fin 0; Fin (-1);   Fin (1 # 2); NegInf; Fin 7] 3.

(** The 2 x 1 x 1 box of section 8. *)
Definition box211 : option BufferGeometry.t :=
  fst (BoxGeometry (Fin 2) one one one one one world0).

(** * Vocabulary of the statements *)

(** A number in lowest terms, as every arithmetic operation returns it. *)
Definition canonical (a : number) : Prop :=
  match a with
  | Fin q => Qred q = q
  | _ => True
  end.

(** [w'] is [w] after one call of [console.error]. *)
Definition reportsError (w w' : World) : Prop :=
  exists msg, w' = snd (console_error msg w).

(** The same completion with [f] applied to the state it carries. *)
Definition mapCompletion {A B} (f : A -> B) (c : completion A) : completion B :=
  match c with
  | Normal a => Normal (f a)
  | Throw a => Throw (f a)
  end.

(** Two geometries with the same attribute buffers, morph targets and
    morph mode: all that the bounding computations read (the sphere also
    keeps the sphere already stored when there is no position). *)
Definition sameVertexData (g1 g2 : BufferGeometry.t) : Prop :=
  BufferGeometry.attributes g1 = BufferGeometry.attributes g2
  /\ BufferGeometry.morphAttributes g1 = BufferGeometry.morphAttributes g2
  /\ BufferGeometry.morphTargetsRelative g1
     = BufferGeometry.morphTargetsRelative g2.

(** The normals of the vertices each draw group refers to, group by group. *)
Definition groupNormals (g : BufferGeometry.t) : list (list Vector3.t) :=
  match BufferGeometry.index g, BufferGeometry.attributes g !! "normal" with
  | Some index, Some normal =>
      map (fun group =>
             map (fun j => Vector3.fromBufferAttribute normal
                             (IndexAttribute.getX index j))
                 (seq (Group.start group) (Group.count group)))
          (BufferGeometry.groups g)
  | _, _ => []
  end.

(** The [itemSize] cells of [array] from [index] on, as the copy loop reads
    them. *)
Definition gather (array : list number) (index itemSize : nat) : list number :=
  map (fun j => default NaN (array !! (index + j))) (seq 0 itemSize).

(** Where the cells of vertex [i] start, as [convertBufferAttribute]
    computes it. *)
Definition sourceIndex (attribute : BufferAttribute.t) (i : nat) : nat :=
  match BufferAttribute.interleaved attribute with
  | Some (stride, offset) => i * stride + offset
  | None => i * BufferAttribute.itemSize attribute
  end.

(** What it means for [attribute2] to be the expansion of [attribute] along
    [indices]: same item width and normalisation flag, one vertex per index
    entry, and the [i]-th vertex a copy of the source vertex [indices[i]]. *)
Definition expandedFrom (attribute : BufferAttribute.t) (indices : list nat)
    (attribute2 : BufferAttribute.t) : Prop :=
  BufferAttribute.itemSize attribute2 = BufferAttribute.itemSize attribute
  /\ BufferAttribute.normalized attribute2 = BufferAttribute.normalized attribute
  /\ BufferAttribute.interleaved attribute2 = None
  /\ length (BufferAttribute.array attribute2)
     = length indices * BufferAttribute.itemSize attribute
  /\ (BufferAttribute.itemSize attribute <> 0 ->
      BufferAttribute.count attribute2 = length indices)
  /\ forall i k,
       i < length indices -> k < BufferAttribute.itemSize attribute ->
       BufferAttribute.read attribute2 (Some i) k
       = BufferAttribute.read attribute (indices !! i) k.

(** Writes to a buffer seen on its backing array: [vertexWrites s o l l']
    when [l'] comes from [l] by writes to cells [0], [1] or [2] of vertices
    laid out with stride [s] and offset [o]. *)
Inductive vertexWrites (s o : nat) (l : list number) : list number -> Prop :=
| vertexWrites_refl : vertexWrites s o l l
| vertexWrites_step l' v k x :
    vertexWrites s o l l' -> k < 3 ->
    vertexWrites s o l (<[v * s + o + k := x]> l').

(** [setXYZ(i, 0, 0, 0)] on the backing array. *)
Definition zeroAt (s o : nat) (l : list number) (i : nat) : list number :=
  <[i * s + o + 2 := zero]> (<[i * s + o + 1 := zero]> (<[i * s + o + 0 := zero]> l)).

(** [b] comes from the buffer [a] by vertex writes. *)
Definition rewrites (a b : BufferAttribute.t) : Prop :=
  exists l',
    b = BufferAttribute.with_array a l'
    /\ vertexWrites (BufferAttribute.stride a) (BufferAttribute.offset a)
         (BufferAttribute.array a) l'.

(** The normal buffer [computeVertexNormals] starts from. *)
Definition initialNormals (this : BufferGeometry.t)
    (positionAttribute : BufferAttribute.t) : BufferAttribute.t :=
  match BufferGeometry.attributes this !! "normal" with
  | None =>
      BufferAttribute.new BufferAttribute.Float32
        (BufferAttribute.Float32Array
           (BufferAttribute.count positionAttribute * 3)) 3 false
  | Some normalAttribute => resetNormals normalAttribute
  end.

(** The normal buffer [computeVertexNormals] ends with, the version counter
    apart. *)
Definition recomputedNormals (Math_sqrt : number -> number)
    (this : BufferGeometry.t) (positionAttribute : BufferAttribute.t)
    : BufferAttribute.t :=
  normalizeAttribute Math_sqrt
    (faceNormals (BufferGeometry.index this) positionAttribute
       (initialNormals this positionAttribute)).

(** The vertices of a buffer, as [fromBufferAttribute] reads them. *)
Definition verticesOf (a : BufferAttribute.t) : list Vector3.t :=
  map (fun i => Vector3.fromBufferAttribute a (Some i))
      (seq 0 (BufferAttribute.count a)).

(** Every coordinate of [v] is a finite number. *)
Definition Vector3_isFinite (v : Vector3.t) : bool :=
  isFinite (Vector3.x v) && isFinite (Vector3.y v) && isFinite (Vector3.z v).

(** Every coordinate of every vertex is a finite number. *)
Definition finiteVertices (a : BufferAttribute.t) : bool :=
  forallb Vector3_isFinite (verticesOf a).

(** [a <= b] component-wise. *)
Definition Vector3_le (a b : Vector3.t) : Prop :=
  (Vector3.x a <=? Vector3.x b)%num = true
  /\ (Vector3.y a <=? Vector3.y b)%num = true
  /\ (Vector3.z a <=? Vector3.z b)%num = true.

(** [box.min <= p <= box.max] component-wise. *)
Definition containsPoint (box : Box3.t) (p : Vector3.t) : Prop :=
  Vector3_le (Box3.min box) p /\ Vector3_le p (Box3.max box).

(** Vertex [j] of a morph target as it is shown: added to the base vertex
    in relative mode, taken as it is in absolute mode. *)
Definition morphExpanded (relative : bool)
    (position morphAttribute : BufferAttribute.t) (j : nat) : Vector3.t :=
  let v := Vector3.fromBufferAttribute morphAttribute (Some j) in
  if relative
  then Vector3.add v (Vector3.fromBufferAttribute position (Some j))
  else v.

(** No coordinate is NaN (infinities are allowed). *)
Definition Vector3_noNaN (v : Vector3.t) : Prop :=
  isNaN (Vector3.x v) = false /\ isNaN (Vector3.y v) = false
  /\ isNaN (Vector3.z v) = false.

Definition Box3_noNaN (b : Box3.t) : Prop :=
  Vector3_noNaN (Box3.min b) /\ Vector3_noNaN (Box3.max b).

Definition Box3_isFinite (b : Box3.t) : Prop :=
  Vector3_isFinite (Box3.min b) = true /\ Vector3_isFinite (Box3.max b) = true.

(** [b] lies inside [b']. *)
Definition Box3_within (b b' : Box3.t) : Prop :=
  Vector3_le (Box3.min b') (Box3.min b) /\ Vector3_le (Box3.max b) (Box3.max b').

(** The box [computeBoundingBox] stores for a readable position buffer. *)
Definition fittedBox (this : BufferGeometry.t) (position : BufferAttribute.t)
    : Box3.t :=
  match BufferGeometry.morphAttributes this !! "position" with
  | Some morphs =>
      foldl (expandByMorph (BufferGeometry.morphTargetsRelative this))
            (Box3.setFromBufferAttribute position) morphs
  | None => Box3.setFromBufferAttribute position
  end.

(** The points the second pass of [computeBoundingSphere] measures: the
    vertices, then the vertices of every morph target (added to the base
    vertex in relative mode). *)
Definition sphereVertices (relative : bool) (position : BufferAttribute.t)
    (morphs : option (list BufferAttribute.t)) : list Vector3.t :=
  verticesOf position
  ++ flat_map (fun m => map (morphExpanded relative position m)
                            (seq 0 (BufferAttribute.count m)))
              (default [] morphs).

(** The morph targets fit the position buffer: every coordinate is finite,
    no target is empty and, in relative mode, no target has more vertices
    than there are positions. *)
Definition alignedMorphTargets (this : BufferGeometry.t)
    (position : BufferAttribute.t) : bool :=
  forallb (fun m =>
             finiteVertices m
             && (0 <? BufferAttribute.count m)
             && (negb (BufferGeometry.morphTargetsRelative this)
                 || (BufferAttribute.count m <=? BufferAttribute.count position)))
          (default [] (BufferGeometry.morphAttributes this !! "position")).


(** ** The layout of a box *)

(** What [buildPlane] appends for a grid of [gx] by [gy] cells. *)
Record planeAdds (gx gy materialIndex : nat) (st st' : Builder) : Prop := {
  adds_vertices : exists vs,
    vertices st' = vertices st ++ vs /\ length vs = 3 * (S gx * S gy);
  adds_normals : exists ns,
    normals st' = normals st ++ ns /\ length ns = 3 * (S gx * S gy);
  adds_uvs : exists us,
    uvs st' = uvs st ++ us /\ length us = 2 * (S gx * S gy);
  adds_indices : exists new,
    indices st' = indices st ++ new /\ length new = 6 * (gx * gy) /\
    Forall (fun n => toIndex n < numberOfVertices st + S gx * S gy) new;
  adds_numberOfVertices :
    numberOfVertices st' = numberOfVertices st + S gx * S gy;
  adds_groupStart : groupStart st' = groupStart st + 6 * (gx * gy);
  adds_scope :
    scope st' = addGroup (scope st) (groupStart st) (6 * (gx * gy)) materialIndex
}.

(** The vertices a box of [w], [h], [d] segments has: each face brings its
    own grid of corners. *)
Definition boxVertexCount (w h d : nat) : nat :=
  2 * (S d * S h) + 2 * (S w * S d) + 2 * (S w * S h).

(** Its index entries: two triangles per cell. *)
Definition boxIndexCount (w h d : nat) : nat :=
  6 * (2 * (d * h) + 2 * (w * d) + 2 * (w * h)).

(** Its groups: one per face, in the order +x, -x, +y, -y, +z, -z. *)
Definition boxGroups (w h d : nat) : list Group.t :=
  [Group.make 0 (6 * (d * h)) 0;
   Group.make (6 * (d * h)) (6 * (d * h)) 1;
   Group.make (12 * (d * h)) (6 * (w * d)) 2;
   Group.make (12 * (d * h) + 6 * (w * d)) (6 * (w * d)) 3;
   Group.make (12 * (d * h) + 12 * (w * d)) (6 * (w * h)) 4;
   Group.make (12 * (d * h) + 12 * (w * d) + 6 * (w * h)) (6 * (w * h)) 5].



(** ** Points handed to [setFromPoints] *)

(** The vertex [setFromPoints] stores for a point: [(x, y, z || 0)]. *)
Definition pointVertex (p : point) : Vector3.t :=
  Vector3.make (point_x p) (point_y p) (point_z_or_0 p).

(** The warning of [setFromPoints]. *)
Definition bufferTooSmall : LogEntry :=
  mkLog LevelWarn
    "THREE.BufferGeometry: Buffer size too small for points data. Use .dispose() and create a new geometry.".

(** ** Copies and identity *)

(** [g] under another id and uuid. *)
Definition reidentified (g : BufferGeometry.t) (id : nat) (uuid : string)
    : BufferGeometry.t :=
  BufferGeometry.make id uuid (BufferGeometry.name g) (BufferGeometry.type g)
    (BufferGeometry.index g) (BufferGeometry.indirect g)
    (BufferGeometry.attributes g) (BufferGeometry.morphAttributes g)
    (BufferGeometry.morphTargetsRelative g) (BufferGeometry.groups g)
    (BufferGeometry.boundingBox g) (BufferGeometry.boundingSphere g)
    (BufferGeometry.drawRange g) (BufferGeometry.userData g)
    (BufferGeometry.parameters g).

(** The builder with [f] applied to the geometry under construction. *)
Definition rescope (f : BufferGeometry.t -> BufferGeometry.t) (st : Builder)
    : Builder :=
  mkBuilder (indices st) (vertices st) (normals st) (uvs st)
            (numberOfVertices st) (groupStart st) (f (scope st)).

(** The morph targets [toJSON] writes out: the keys whose list is not
    empty. *)
Definition writtenMorphTargets (this : BufferGeometry.t)
    : gmap string (list BufferAttribute.t) :=
  filter (fun kv => 0 < length kv.2) (BufferGeometry.morphAttributes this).

(** ** Buffers vertex by vertex *)

(** A buffer with whole vertices in its array and room for three
    components in each. *)
Definition roomy (a : BufferAttribute.t) : Prop :=
  BufferAttribute.wf a /\
  BufferAttribute.offset a + 3 <= BufferAttribute.stride a.

(** A vector as a typed array of element type [ty] holds it. *)
Definition Vector3_toElement (ty : BufferAttribute.floatType) (v : Vector3.t)
    : Vector3.t :=
  Vector3.make (BufferAttribute.toElement ty (Vector3.x v))
               (BufferAttribute.toElement ty (Vector3.y v))
               (BufferAttribute.toElement ty (Vector3.z v)).

(** [a'] has the vertices of [a], each one sent through [f] and stored. *)
Definition vertexwise (f : Vector3.t -> Vector3.t) (a a' : BufferAttribute.t)
    : Prop :=
  BufferAttribute.count a' = BufferAttribute.count a /\
  forall i, i < BufferAttribute.count a ->
    Vector3.fromBufferAttribute a' (Some i)
    = Vector3_toElement (BufferAttribute.elementType a)
        (f (Vector3.fromBufferAttribute a (Some i))).

(** ** Tight bounds *)

(** Some vertex of [a] has [bound] as the coordinate [coord]. *)
Definition attains (a : BufferAttribute.t) (coord : Vector3.t -> number)
    (bound : number) : Prop :=
  exists i, i < BufferAttribute.count a /\
            coord (Vector3.fromBufferAttribute a (Some i)) = bound.

(** The box [computeBoundingBox] stores when it cannot read positions from
    a device-resident buffer: all of space. *)
Definition Box3_everything : Box3.t :=
  Box3.make (Vector3.make NegInf NegInf NegInf)
            (Vector3.make PosInf PosInf PosInf).

(** ** Vertex normals *)

(** The three corners the indexed loop of [computeVertexNormals] reads in
    the round that starts at index entry [i]. *)
Definition cornersAt (index : IndexAttribute.t) (i : nat) : list vindex :=
  [IndexAttribute.getX index (i + 0); IndexAttribute.getX index (i + 1);
   IndexAttribute.getX index (i + 2)].

(** The face normal of that round. *)
Definition faceNormalAt (index : IndexAttribute.t)
    (positionAttribute : BufferAttribute.t) (i : nat) : Vector3.t :=
  faceNormal
    (Vector3.fromBufferAttribute positionAttribute
       (IndexAttribute.getX index (i + 0)))
    (Vector3.fromBufferAttribute positionAttribute
       (IndexAttribute.getX index (i + 1)))
    (Vector3.fromBufferAttribute positionAttribute
       (IndexAttribute.getX index (i + 2))).


(** [b] is laid out as [a] is: the same item width, flags, interleaving
    and element type, and as many array elements.  The numbers in the array
    and the version counter are free. *)
Definition sameLayout (a b : BufferAttribute.t) : Prop :=
  BufferAttribute.itemSize a = BufferAttribute.itemSize b
  /\ BufferAttribute.normalized a = BufferAttribute.normalized b
  /\ BufferAttribute.isGLBufferAttribute a = BufferAttribute.isGLBufferAttribute b
  /\ BufferAttribute.interleaved a = BufferAttribute.interleaved b
  /\ BufferAttribute.elementType a = BufferAttribute.elementType b
  /\ length (BufferAttribute.array a) = length (BufferAttribute.array b).

(** [p] is the place in the array of one of the three components of a
    vertex of [a]. *)
Definition vertexCell (a : BufferAttribute.t) (p : nat) : Prop :=
  exists i k,
    i < BufferAttribute.count a /\ k < 3 /\ p = BufferAttribute.cell a i k.

(** [a] and [b] are laid out alike and hold the same numbers at the places
    [P]. *)
Definition agreeOn (P : nat -> Prop) (a b : BufferAttribute.t) : Prop :=
  sameLayout a b
  /\ forall p, P p -> BufferAttribute.array a !! p = BufferAttribute.array b !! p.

(** ** Tangents *)

(** The groups [computeTangents] walks: the geometry's own, or one group
    over the whole index if it has none. *)
Definition tangentGroups (this : BufferGeometry.t) (index : IndexAttribute.t)
    : list Group.t :=
  match BufferGeometry.groups this with
  | [] => [Group.make 0 (IndexAttribute.count index) 0]
  | gs => gs
  end.

(** The corners it visits, in order. *)
Definition visitedCorners (this : BufferGeometry.t) (index : IndexAttribute.t)
    : list vindex :=
  flat_map (groupVertices index) (tangentGroups this index).


(** ** The vertices of a box *)

(** The numbers a list of vectors takes in a buffer of item size 3. *)
Definition triples (vs : list Vector3.t) : list number :=
  flat_map (fun v => [Vector3.x v; Vector3.y v; Vector3.z v]) vs.

(** The corners of a grid of [gx] by [gy] cells, row by row. *)
Definition gridPoints {A} (gx gy : nat) (F : nat -> nat -> A) : list A :=
  flat_map (fun iy => map (fun ix => F ix iy) (seq 0 (S gx))) (seq 0 (S gy)).

(** The position [buildPlane] pushes for corner [(ix, iy)]. *)
Definition planePoint (u v w : axis) (udir vdir width height depth : number)
    (gridX gridY : number) (ix iy : nat) : Vector3.t :=
  let x := (ofNat ix * (width / gridX) - width / Fin 2)%num in
  let y := (ofNat iy * (height / gridY) - height / Fin 2)%num in
  setComponent
    (setComponent (setComponent Vector3.new u (x * udir)%num) v (y * vdir)%num)
    w (depth / Fin 2)%num.

(** The normal it pushes for every corner. *)
Definition planeNormal (u v w : axis) (depth : number) : Vector3.t :=
  setComponent (setComponent (setComponent Vector3.new u zero) v zero) w
    (if (zero <? depth)%num then one else Fin (-1)).

(** The six directions along the axes. *)
Definition axisDirections : list Vector3.t :=
  [Vector3.make one zero zero; Vector3.make (Fin (-1)) zero zero;
   Vector3.make zero one zero; Vector3.make zero (Fin (-1)) zero;
   Vector3.make zero zero one; Vector3.make zero zero (Fin (-1))].

(** The positions of a box of [w], [h], [d] segments, face by face. *)
Definition boxPoints (width height depth : number) (w h d : nat)
    : list Vector3.t :=
  gridPoints d h
    (planePoint AxisZ AxisY AxisX (Fin (-1)) (Fin (-1))
       depth height width (ofNat d) (ofNat h))
  ++ gridPoints d h
       (planePoint AxisZ AxisY AxisX one (Fin (-1))
          depth height (- width)%num (ofNat d) (ofNat h))
  ++ gridPoints w d
       (planePoint AxisX AxisZ AxisY one one
          width depth height (ofNat w) (ofNat d))
  ++ gridPoints w d
       (planePoint AxisX AxisZ AxisY one (Fin (-1))
          width depth (- height)%num (ofNat w) (ofNat d))
  ++ gridPoints w h
       (planePoint AxisX AxisY AxisZ one (Fin (-1))
          width height depth (ofNat w) (ofNat h))
  ++ gridPoints w h
       (planePoint AxisX AxisY AxisZ (Fin (-1)) (Fin (-1))
          width height (- depth)%num (ofNat w) (ofNat h)).

(** Its normals, face by face. *)
Definition boxNormals (width height depth : number) (w h d : nat)
    : list Vector3.t :=
  gridPoints d h (fun _ _ => planeNormal AxisZ AxisY AxisX width)
  ++ gridPoints d h (fun _ _ => planeNormal AxisZ AxisY AxisX (- width)%num)
  ++ gridPoints w d (fun _ _ => planeNormal AxisX AxisZ AxisY height)
  ++ gridPoints w d (fun _ _ => planeNormal AxisX AxisZ AxisY (- height)%num)
  ++ gridPoints w h (fun _ _ => planeNormal AxisX AxisY AxisZ depth)
  ++ gridPoints w h (fun _ _ => planeNormal AxisX AxisY AxisZ (- depth)%num).

(** A vertex [p] with normal [n] lies on the plane of its face of the box:
    along the axis of the normal it is at half the size of the box, stored
    as a 32-bit float, on the side the normal points to. *)
Definition onFacePlane (width height depth : number) (n p : Vector3.t) : Prop :=
  (Vector3.x n = one -> Vector3.x p = Math_fround (width / Fin 2)%num) /\
  (Vector3.x n = Fin (-1) -> Vector3.x p = Math_fround (- width / Fin 2)%num) /\
  (Vector3.y n = one -> Vector3.y p = Math_fround (height / Fin 2)%num) /\
  (Vector3.y n = Fin (-1) -> Vector3.y p = Math_fround (- height / Fin 2)%num) /\
  (Vector3.z n = one -> Vector3.z p = Math_fround (depth / Fin 2)%num) /\
  (Vector3.z n = Fin (-1) -> Vector3.z p = Math_fround (- depth / Fin 2)%num).

(** ** More sample geometries *)

(** Five points, one without a usable [z] and one of two components. *)
Definition samplePoints : list point :=
  [Point3 (Vector3.make (Fin 1) (Fin 2) NaN);
   Point2 (Vector2.make (Fin 3) (Fin 4));
   Point3 (Vector3.make (Fin 5) (Fin 6) (Fin 7));
   Point3 (Vector3.make (Fin 8) (Fin 9) (Fin 10));
   Point3 (Vector3.make (Fin 11) (Fin 12) (Fin 13))].

(** The quad with its positions in a device-resident buffer. *)
Definition quadGL : BufferGeometry.t :=
  setAttribute quad "position"
    (BufferAttribute.make quadPositions 3 false 0 true None
       BufferAttribute.Float32).

(** The quad with only its first triangle in the index: the fourth vertex
    is a corner of no triangle. *)
Definition quadOneTriangle : BufferGeometry.t :=
  setIndex quad (IndexArray [0; 1; 2]).

(** The quad with normals of any length, two of them zero. *)
Definition quadSomeZeroNormals : BufferAttribute.t :=
  Float32BufferAttribute
    [Fin 0; Fin 0; Fin 0;   Fin 0; Fin 0; Fin 2;
     Fin 0; Fin 0; Fin 0;   Fin 3; Fin 0; Fin 4] 3.

Definition quadZeroNormals : BufferGeometry.t :=
  setAttribute quad "normal" quadSomeZeroNormals.

(** The box of section 8 itself. *)
Definition box211Geometry : BufferGeometry.t := default emptyGeometry box211.

(** The quad after [computeTangents()]. *)
Definition quadTangents : BufferGeometry.t :=
  stateOf (fst (computeTangents sqrt_floor quad world0)).

(** The world after one geometry has been constructed. *)
Definition world1 : World := snd (constructor world0).

(** * Facts about numbers *)

Section NumberFacts.

Lemma Qle_bool_false (p q : Q) : Qle_bool p q = false -> (q < p)%Q.
Proof.
  intros H. apply Qnot_le_lt. intros C. apply Qle_bool_iff in C. congruence.
Qed.

Lemma Qle_bool_refl (p : Q) : Qle_bool p p = true.
Proof. apply Qle_bool_iff. apply Qle_refl. Qed.

Lemma le_Fin (p q : Q) : (Fin p <=? Fin q)%num = true <-> (p <= q)%Q.
Proof. apply Qle_bool_iff. Qed.


Lemma isFinite_notNaN (a : number) : isFinite a = true -> isNaN a = false.
Proof. destruct a; simpl; intros H; try discriminate; reflexivity. Qed.

Lemma le_refl (a : number) : isNaN a = false -> (a <=? a)%num = true.
Proof. destruct a; simpl; intros H; try discriminate; try reflexivity. apply Qle_bool_refl. Qed.

Lemma le_trans (a b c : number) :
  (a <=? b)%num = true -> (b <=? c)%num = true -> (a <=? c)%num = true.
Proof.
  destruct a, b, c; simpl; intros H1 H2; try discriminate; try reflexivity.
  apply Qle_bool_iff in H1, H2. apply Qle_bool_iff. eapply Qle_trans; eassumption.
Qed.

Lemma lt_false_le (a b : number) :
  isNaN a = false -> isNaN b = false ->
  (a <? b)%num = false -> (b <=? a)%num = true.
Proof.
  destruct a, b; simpl; intros Ha Hb H; try discriminate; try reflexivity.
  apply negb_false_iff in H. exact H.
Qed.

Lemma lt_true_le (a b : number) : (a <? b)%num = true -> (a <=? b)%num = true.
Proof.
  destruct a, b; simpl; intros H; try discriminate; try reflexivity.
  apply negb_true_iff, Qle_bool_false in H. apply Qle_bool_iff, Qlt_le_weak, H.
Qed.

Lemma le_lt_false (a b : number) : (a <=? b)%num = true -> (b <? a)%num = false.
Proof.
  destruct a, b; simpl; intros H; try discriminate; try reflexivity.
  rewrite H. reflexivity.
Qed.

Lemma Math_min_notNaN (a b : number) :
  isNaN a = false -> isNaN b = false -> isNaN (Math_min a b) = false.
Proof.
  destruct a, b; simpl; intros Ha Hb; try discriminate; try reflexivity.
  destruct (negb (Qle_bool q q0)); reflexivity.
Qed.

Lemma Math_max_notNaN (a b : number) :
  isNaN a = false -> isNaN b = false -> isNaN (Math_max a b) = false.
Proof.
  destruct a, b; simpl; intros Ha Hb; try discriminate; try reflexivity.
  destruct (negb (Qle_bool q0 q)); reflexivity.
Qed.

Lemma Math_min_cases (a b : number) :
  isNaN a = false -> isNaN b = false ->
  (Math_min a b = a /\ (a <=? b)%num = true)
  \/ (Math_min a b = b /\ (b <=? a)%num = true).
Proof.
  intros Ha Hb.
  assert (E : Math_min a b = if (b <? a)%num then b else a)
    by (destruct a, b; try discriminate; reflexivity).
  rewrite E. destruct (b <? a)%num eqn:Hlt.
  - right. split; [reflexivity|]. apply lt_true_le, Hlt.
  - left. split; [reflexivity|]. apply lt_false_le; assumption.
Qed.

Lemma Math_max_cases (a b : number) :
  isNaN a = false -> isNaN b = false ->
  (Math_max a b = a /\ (b <=? a)%num = true)
  \/ (Math_max a b = b /\ (a <=? b)%num = true).
Proof.
  intros Ha Hb.
  assert (E : Math_max a b = if (a <? b)%num then b else a)
    by (destruct a, b; try discriminate; reflexivity).
  rewrite E. destruct (a <? b)%num eqn:Hlt.
  - right. split; [reflexivity|]. apply lt_true_le, Hlt.
  - left. split; [reflexivity|]. apply lt_false_le; assumption.
Qed.

Lemma Math_min_le_l (a b : number) :
  isNaN a = false -> isNaN b = false -> (Math_min a b <=? a)%num = true.
Proof.
  intros Ha Hb. destruct (Math_min_cases a b Ha Hb) as [[-> H]|[-> H]];
    [apply le_refl, Ha | exact H].
Qed.

Lemma Math_min_le_r (a b : number) :
  isNaN a = false -> isNaN b = false -> (Math_min a b <=? b)%num = true.
Proof.
  intros Ha Hb. destruct (Math_min_cases a b Ha Hb) as [[-> H]|[-> H]];
    [exact H | apply le_refl, Hb].
Qed.

Lemma Math_max_le_l (a b : number) :
  isNaN a = false -> isNaN b = false -> (a <=? Math_max a b)%num = true.
Proof.
  intros Ha Hb. destruct (Math_max_cases a b Ha Hb) as [[-> H]|[-> H]];
    [apply le_refl, Ha | exact H].
Qed.

Lemma Math_max_le_r (a b : number) :
  isNaN a = false -> isNaN b = false -> (b <=? Math_max a b)%num = true.
Proof.
  intros Ha Hb. destruct (Math_max_cases a b Ha Hb) as [[-> H]|[-> H]];
    [exact H | apply le_refl, Hb].
Qed.

Lemma Math_min_finite (a b : number) :
  isFinite a = true -> isFinite b = true -> isFinite (Math_min a b) = true.
Proof.
  intros Ha Hb.
  destruct (Math_min_cases a b (isFinite_notNaN _ Ha) (isFinite_notNaN _ Hb))
    as [[-> _]|[-> _]]; assumption.
Qed.

Lemma Math_max_finite (a b : number) :
  isFinite a = true -> isFinite b = true -> isFinite (Math_max a b) = true.
Proof.
  intros Ha Hb.
  destruct (Math_max_cases a b (isFinite_notNaN _ Ha) (isFinite_notNaN _ Hb))
    as [[-> _]|[-> _]]; assumption.
Qed.

Lemma add_finite (a b : number) :
  isFinite a = true -> isFinite b = true -> isFinite (a + b)%num = true.
Proof. destruct a, b; simpl; intros; try discriminate; reflexivity. Qed.

Lemma neg_finite (a : number) : isFinite a = true -> isFinite (- a)%num = true.
Proof. destruct a; simpl; intros; try discriminate; reflexivity. Qed.

Lemma sub_finite (a b : number) :
  isFinite a = true -> isFinite b = true -> isFinite (a - b)%num = true.
Proof. intros Ha Hb. apply add_finite; [exact Ha | apply neg_finite, Hb]. Qed.

Lemma mul_finite (a b : number) :
  isFinite a = true -> isFinite b = true -> isFinite (a * b)%num = true.
Proof. destruct a, b; simpl; intros; try discriminate; reflexivity. Qed.

Lemma add_le_mono (a b c d : number) :
  isFinite a = true -> isFinite b = true ->
  isFinite c = true -> isFinite d = true ->
  (a <=? c)%num = true -> (b <=? d)%num = true ->
  (a + b <=? c + d)%num = true.
Proof.
  destruct a, b, c, d; simpl; intros; try discriminate.
  repeat match goal with H : Qle_bool _ _ = true |- _ => apply Qle_bool_iff in H end.
  apply Qle_bool_iff. rewrite !Qred_correct. lra.
Qed.





Lemma add_canonical (a b : number) : canonical (a + b)%num.
Proof. destruct a, b; simpl; trivial. apply Qred_complete, Qred_correct. Qed.

Lemma le_antisym (a b : number) :
  canonical a -> canonical b ->
  (a <=? b)%num = true -> (b <=? a)%num = true -> a = b.
Proof.
  destruct a, b; simpl; intros Ha Hb H1 H2; try discriminate; try reflexivity.
  apply Qle_bool_iff in H1, H2. rewrite <- Ha, <- Hb. f_equal.
  apply Qred_complete. apply Qle_antisym; assumption.
Qed.

Lemma square_nonneg (a : number) :
  isFinite a = true -> (zero <=? a * a)%num = true.
Proof.
  destruct a; simpl; intros H; try discriminate.
  apply Qle_bool_iff. rewrite Qred_correct. nra.
Qed.

Lemma add_nonneg (a b : number) :
  isFinite a = true -> isFinite b = true ->
  (zero <=? a)%num = true -> (zero <=? b)%num = true ->
  (zero <=? a + b)%num = true.
Proof.
  destruct a, b; simpl; intros; try discriminate.
  repeat match goal with H : Qle_bool _ _ = true |- _ => apply Qle_bool_iff in H end.
  apply Qle_bool_iff. rewrite Qred_correct. lra.
Qed.

(** Zero, one and minus one are floats of either width: a store keeps
    them. *)
Lemma toElement_zero ty : BufferAttribute.toElement ty zero = zero.
Proof. destruct ty; reflexivity. Qed.

Lemma toElement_one ty : BufferAttribute.toElement ty one = one.
Proof. destruct ty; reflexivity. Qed.

Lemma toElement_minus_one ty :
  BufferAttribute.toElement ty (Fin (-1)) = Fin (-1).
Proof. destruct ty; reflexivity. Qed.

Lemma toElement_NaN ty : BufferAttribute.toElement ty NaN = NaN.
Proof. destruct ty; reflexivity. Qed.

End NumberFacts.

(** * Properties *)

Section Claims.

Variable Math_sqrt : number -> number.

(** ** Projections of the field updates *)

Lemma attributes_setAttribute g name a :
  BufferGeometry.attributes (setAttribute g name a)
  = <[name := a]> (BufferGeometry.attributes g).
Proof. reflexivity. Qed.

Lemma setAttribute_setDrawRange g name a s c :
  setAttribute (setDrawRange g s c) name a
  = setDrawRange (setAttribute g name a) s c.
Proof. reflexivity. Qed.

Lemma with_boundingBox_setDrawRange g b s c :
  BufferGeometry.with_boundingBox (setDrawRange g s c) b
  = setDrawRange (BufferGeometry.with_boundingBox g b) s c.
Proof. reflexivity. Qed.

Lemma with_boundingSphere_setDrawRange g b s c :
  BufferGeometry.with_boundingSphere (setDrawRange g s c) b
  = setDrawRange (BufferGeometry.with_boundingSphere g b) s c.
Proof. reflexivity. Qed.

(** ** Vertex normals without positions *)

(** C9: on a geometry with no position attribute [computeVertexNormals()]
    does nothing at all: the geometry comes back field for field as it
    was, so no normal attribute is created, and the world (console
    included) is unchanged, so nothing is reported. *)
Theorem computeVertexNormals_without_position (g : BufferGeometry.t) (w : World) :
  BufferGeometry.attributes g !! "position" = None ->
  computeVertexNormals Math_sqrt g w = (g, w).
Proof.
  intros Hpos. unfold computeVertexNormals, getAttribute.
  rewrite Hpos. reflexivity.
Qed.

(** ** Tangents: the guard on the required attributes *)

(** C4: when the index, the position, the normal or the uv attribute is
    missing, [computeTangents()] reports one error and returns normally with
    the geometry exactly as it was: no tangent attribute is created and no
    attribute is touched. *)
Theorem computeTangents_missing_input (g : BufferGeometry.t) (w : World) :
  BufferGeometry.index g = None
  \/ BufferGeometry.attributes g !! "position" = None
  \/ BufferGeometry.attributes g !! "normal" = None
  \/ BufferGeometry.attributes g !! "uv" = None ->
  fst (computeTangents Math_sqrt g w) = Normal g
  /\ reportsError w (snd (computeTangents Math_sqrt g w)).
Proof.
  intros H. unfold computeTangents, reportsError.
  destruct (BufferGeometry.index g) as [ix|];
    [destruct (BufferGeometry.attributes g !! "position") as [p|];
     [destruct (BufferGeometry.attributes g !! "normal") as [n|];
      [destruct (BufferGeometry.attributes g !! "uv") as [u|]|]|]|];
    try (split; [reflexivity | eexists; reflexivity]).
  exfalso. destruct H as [H|[H|[H|H]]]; discriminate.
Qed.

(** ** The draw range is never read *)

Lemma computeVertexNormals_setDrawRange g s c w :
  computeVertexNormals Math_sqrt (setDrawRange g s c) w
  = (setDrawRange (fst (computeVertexNormals Math_sqrt g w)) s c,
     snd (computeVertexNormals Math_sqrt g w)).
Proof.
  unfold computeVertexNormals, getAttribute, normalizeNormals. simpl.
  destruct (BufferGeometry.attributes g !! "position"); [|reflexivity].
  simpl. rewrite !lookup_insert_eq. simpl. rewrite !lookup_insert_eq.
  reflexivity.
Qed.

Lemma computeTangents_setDrawRange g s c w :
  computeTangents Math_sqrt (setDrawRange g s c) w
  = (mapCompletion (fun g' => setDrawRange g' s c)
       (fst (computeTangents Math_sqrt g w)),
     snd (computeTangents Math_sqrt g w)).
Proof.
  unfold computeTangents. simpl.
  repeat (case_match; simpl; try reflexivity).
Qed.

Lemma computeBoundingBox_setDrawRange g s c w :
  computeBoundingBox (setDrawRange g s c) w
  = (setDrawRange (fst (computeBoundingBox g w)) s c,
     snd (computeBoundingBox g w)).
Proof.
  unfold computeBoundingBox. simpl.
  repeat (case_match; simpl; try reflexivity).
Qed.

Lemma computeBoundingSphere_setDrawRange g s c w :
  computeBoundingSphere Math_sqrt (setDrawRange g s c) w
  = (setDrawRange (fst (computeBoundingSphere Math_sqrt g w)) s c,
     snd (computeBoundingSphere Math_sqrt g w)).
Proof.
  unfold computeBoundingSphere. simpl.
  repeat (case_match; simpl; try reflexivity).
Qed.

(** C10: the draw range never influences derivation.  Running
    [computeVertexNormals], [computeTangents], [computeBoundingBox] or
    [computeBoundingSphere] after [setDrawRange(start, count)] gives exactly
    what running it before gives (the same normals, tangents, bounds,
    console output and completion), the draw range itself apart. *)
Theorem drawRange_never_read (g : BufferGeometry.t) (start count : number)
    (w : World) :
  computeVertexNormals Math_sqrt (setDrawRange g start count) w
  = (setDrawRange (fst (computeVertexNormals Math_sqrt g w)) start count,
     snd (computeVertexNormals Math_sqrt g w))
  /\ computeTangents Math_sqrt (setDrawRange g start count) w
     = (mapCompletion (fun g' => setDrawRange g' start count)
          (fst (computeTangents Math_sqrt g w)),
        snd (computeTangents Math_sqrt g w))
  /\ computeBoundingBox (setDrawRange g start count) w
     = (setDrawRange (fst (computeBoundingBox g w)) start count,
        snd (computeBoundingBox g w))
  /\ computeBoundingSphere Math_sqrt (setDrawRange g start count) w
     = (setDrawRange (fst (computeBoundingSphere Math_sqrt g w)) start count,
        snd (computeBoundingSphere Math_sqrt g w)).
Proof.
  split; [apply computeVertexNormals_setDrawRange|].
  split; [apply computeTangents_setDrawRange|].
  split; [apply computeBoundingBox_setDrawRange
         | apply computeBoundingSphere_setDrawRange].
Qed.

(** ** Transforms and the cached bounds *)

Lemma computeBoundingBox_congruence g1 g2 w1 w2 :
  sameVertexData g1 g2 ->
  BufferGeometry.boundingBox (fst (computeBoundingBox g1 w1))
  = BufferGeometry.boundingBox (fst (computeBoundingBox g2 w2)).
Proof.
  intros (Ha & Hm & Hr). unfold computeBoundingBox.
  rewrite Ha, Hm, Hr.
  repeat (case_match; simpl; try reflexivity).
Qed.

Lemma computeBoundingSphere_congruence g1 g2 w1 w2 :
  sameVertexData g1 g2 ->
  is_Some (BufferGeometry.attributes g2 !! "position")
  \/ BufferGeometry.boundingSphere g1 = BufferGeometry.boundingSphere g2 ->
  BufferGeometry.boundingSphere (fst (computeBoundingSphere Math_sqrt g1 w1))
  = BufferGeometry.boundingSphere (fst (computeBoundingSphere Math_sqrt g2 w2)).
Proof.
  intros (Ha & Hm & Hr) Hs. unfold computeBoundingSphere.
  rewrite Ha, Hm, Hr.
  destruct (BufferGeometry.attributes g2 !! "position") as [p|].
  - repeat (case_match; simpl; try reflexivity).
  - destruct Hs as [[? ?]|Hs]; [discriminate|]. rewrite Hs. reflexivity.
Qed.

Lemma computeBoundingBox_frame g w :
  sameVertexData (fst (computeBoundingBox g w)) g
  /\ BufferGeometry.boundingSphere (fst (computeBoundingBox g w))
     = BufferGeometry.boundingSphere g
  /\ is_Some (BufferGeometry.boundingBox (fst (computeBoundingBox g w))).
Proof.
  unfold computeBoundingBox, sameVertexData.
  repeat (case_match; simpl); repeat split; eauto.
Qed.

Lemma computeBoundingSphere_frame g w :
  sameVertexData (fst (computeBoundingSphere Math_sqrt g w)) g
  /\ BufferGeometry.boundingBox (fst (computeBoundingSphere Math_sqrt g w))
     = BufferGeometry.boundingBox g
  /\ is_Some (BufferGeometry.boundingSphere
                (fst (computeBoundingSphere Math_sqrt g w))).
Proof.
  unfold computeBoundingSphere, sameVertexData.
  repeat (case_match; simpl); repeat split; eauto.
Qed.

(** A second [computeBoundingSphere] stores what the first one stored. *)
Lemma computeBoundingSphere_again g w w' :
  BufferGeometry.boundingSphere
    (fst (computeBoundingSphere Math_sqrt
            (fst (computeBoundingSphere Math_sqrt g w)) w'))
  = BufferGeometry.boundingSphere (fst (computeBoundingSphere Math_sqrt g w)).
Proof.
  pose proof (computeBoundingSphere_frame g w) as (Hv & _ & _).
  destruct (BufferGeometry.attributes g !! "position") as [p|] eqn:Hp.
  - apply computeBoundingSphere_congruence; [exact Hv|].
    left. rewrite Hp. eauto.
  - clear Hv. unfold computeBoundingSphere at 2 3. rewrite Hp. cbn.
    unfold computeBoundingSphere. cbn. rewrite Hp. reflexivity.
Qed.

(** The geometry [applyMatrix4] hands to the bounding computations: the
    three attribute buffers transformed, everything else as it was. *)
Lemma applyMatrix4_unfold g m w :
  exists g3,
    BufferGeometry.boundingBox g3 = BufferGeometry.boundingBox g
    /\ BufferGeometry.boundingSphere g3 = BufferGeometry.boundingSphere g
    /\ BufferGeometry.attributes g3 !! "position"
       = (fun position =>
            BufferAttribute.needsUpdate (BufferAttribute_applyMatrix4 position m))
           <$> BufferGeometry.attributes g !! "position"
    /\ applyMatrix4 Math_sqrt g m w
       = match BufferGeometry.boundingBox g3 with
         | Some _ =>
             let (g4, w4) := computeBoundingBox g3 w in
             match BufferGeometry.boundingSphere g4 with
             | Some _ => computeBoundingSphere Math_sqrt g4 w4
             | None => (g4, w4)
             end
         | None =>
             match BufferGeometry.boundingSphere g3 with
             | Some _ => computeBoundingSphere Math_sqrt g3 w
             | None => (g3, w)
             end
         end.
Proof.
  unfold applyMatrix4.
  match goal with
  | |- context [bind (match BufferGeometry.boundingBox ?x with _ => _ end)] =>
      set (g3 := x)
  end.
  exists g3. split; [|split; [|split]].
  - subst g3. repeat (case_match; simpl); reflexivity.
  - subst g3. repeat (case_match; simpl); reflexivity.
  - subst g3.
    destruct (BufferGeometry.attributes g !! "position") as [p|] eqn:Hp;
      repeat (case_match; rewrite ?attributes_setAttribute);
      rewrite ?lookup_insert_ne by discriminate;
      rewrite ?lookup_insert_eq, ?Hp; reflexivity.
  - clearbody g3. unfold bind, ret.
    destruct (BufferGeometry.boundingBox g3);
      [destruct (computeBoundingBox g3 w) as [g4 w4]|];
      [destruct (BufferGeometry.boundingSphere g4)
      |destruct (BufferGeometry.boundingSphere g3)]; reflexivity.
Qed.

(** C3 (as the code has it): [applyMatrix4] recomputes the bounding box
    exactly when a box was stored before the call, and the bounding sphere
    exactly when a sphere was stored before the call, each on its own.  A
    volume that is recomputed agrees with what a new computation on the
    resulting geometry, whose positions are the transformed ones, stores; a
    volume that was null stays null, so with neither computed both remain
    null. *)
Theorem applyMatrix4_recomputes_stored_bounds (g : BufferGeometry.t)
    (m : Matrix4.t) (w : World) :
  let g' := fst (applyMatrix4 Math_sqrt g m w) in
  BufferGeometry.attributes g' !! "position"
  = (fun position =>
       BufferAttribute.needsUpdate (BufferAttribute_applyMatrix4 position m))
      <$> BufferGeometry.attributes g !! "position"
  /\ match BufferGeometry.boundingBox g with
     | None => BufferGeometry.boundingBox g' = None
     | Some _ =>
         is_Some (BufferGeometry.boundingBox g')
         /\ forall w',
              BufferGeometry.boundingBox g'
              = BufferGeometry.boundingBox (fst (computeBoundingBox g' w'))
     end
  /\ match BufferGeometry.boundingSphere g with
     | None => BufferGeometry.boundingSphere g' = None
     | Some _ =>
         is_Some (BufferGeometry.boundingSphere g')
         /\ forall w',
              BufferGeometry.boundingSphere g'
              = BufferGeometry.boundingSphere
                  (fst (computeBoundingSphere Math_sqrt g' w'))
     end.
Proof.
  cbv zeta.
  destruct (applyMatrix4_unfold g m w) as (g3 & Hb & Hs & Hpos & ->).
  rewrite <- Hb, <- Hs, <- Hpos. clear Hb Hs Hpos.
  destruct (BufferGeometry.boundingBox g3) as [b|] eqn:Hb.
  - destruct (computeBoundingBox g3 w) as [g4 w4] eqn:H4.
    pose proof (computeBoundingBox_frame g3 w) as (Hv & Hsph & Hsome).
    rewrite H4 in Hv, Hsph, Hsome. simpl in Hv, Hsph, Hsome.
    rewrite <- Hsph.
    destruct (BufferGeometry.boundingSphere g4) as [s|] eqn:Hs4.
    + pose proof (computeBoundingSphere_frame g4 w4) as (Hv' & Hbox & Hsome').
      split; [destruct Hv' as (-> & _), Hv as (-> & _); reflexivity|].
      split.
      * rewrite Hbox. split; [exact Hsome|]. intros w'.
        rewrite <- (computeBoundingBox_congruence g3 _ w w').
        -- rewrite H4. reflexivity.
        -- destruct Hv as (? & ? & ?), Hv' as (? & ? & ?).
           repeat split; congruence.
      * split; [exact Hsome'|]. intros w'.
        symmetry. apply computeBoundingSphere_again.
    + simpl. split; [destruct Hv as (-> & _); reflexivity|].
      split; [|exact Hs4].
      split; [exact Hsome|]. intros w'.
      rewrite <- (computeBoundingBox_congruence g3 g4 w w').
      * rewrite H4. reflexivity.
      * destruct Hv as (? & ? & ?). repeat split; congruence.
  - destruct (BufferGeometry.boundingSphere g3) as [s|] eqn:Hs3.
    + pose proof (computeBoundingSphere_frame g3 w) as (Hv' & Hbox & Hsome').
      split; [destruct Hv' as (-> & _); reflexivity|].
      split; [rewrite Hbox; exact Hb|].
      split; [exact Hsome'|]. intros w'.
      symmetry. apply computeBoundingSphere_again.
    + simpl. split; [reflexivity|]. split; assumption.
Qed.

(** ** Degenerate UV triangles *)

Lemma forEach_app {A S} (body : S -> A -> completion S) (l1 l2 : list A) (s : S) :
  forEach body (l1 ++ l2) s
  = match forEach body l1 s with
    | Normal s' => forEach body l2 s'
    | Throw s' => Throw s'
    end.
Proof.
  revert s. induction l1 as [|a l1 IH]; intros s; simpl; [reflexivity|].
  destruct (body s a); [apply IH | reflexivity].
Qed.

(** C5: a triangle whose scale factor [r] is not finite leaves the
    accumulated tangents and bitangents of every vertex as they were, and
    the loop goes on: running the triangles of a group with such a triangle
    among them gives what running them without it gives. *)
Theorem degenerate_uv_triangle_contributes_nothing
    (positionAttribute uvAttribute : BufferAttribute.t) (a b c : vindex)
    (tan : list Vector3.t * list Vector3.t)
    (before after : list (vindex * vindex * vindex)) :
  isFinite (tangentScale uvAttribute a b c) = false ->
  handleTriangle positionAttribute uvAttribute tan (a, b, c) = Normal tan
  /\ forEach (handleTriangle positionAttribute uvAttribute)
       (before ++ (a, b, c) :: after) tan
     = forEach (handleTriangle positionAttribute uvAttribute)
         (before ++ after) tan.
Proof.
  intros Hr.
  assert (Hskip : forall t,
             handleTriangle positionAttribute uvAttribute t (a, b, c) = Normal t).
  { intros [t1 t2]. unfold handleTriangle. rewrite Hr. reflexivity. }
  split; [apply Hskip|].
  rewrite !forEach_app.
  destruct (forEach _ before tan) as [s|s]; [|reflexivity].
  cbn [forEach]. rewrite Hskip. reflexivity.
Qed.

(** ** The 2 x 1 x 1 box *)

(** C8: the box of width 2, height 1, depth 1 with one segment per side has
    24 position vertices, 36 index entries and six draw groups of count 6
    with material indices 0 to 5; the groups come in the face order +x, -x,
    +y, -y, +z, -z (every vertex a group refers to carries that face's
    normal). *)
Theorem box_2x1x1_layout (w : World) :
  exists g,
    fst (BoxGeometry (Fin 2) one one one one one w) = Some g
    /\ BufferAttribute.count <$> (BufferGeometry.attributes g !! "position")
       = Some 24
    /\ IndexAttribute.count <$> BufferGeometry.index g = Some 36
    /\ BufferGeometry.groups g
       = [Group.make 0 6 0; Group.make 6 6 1; Group.make 12 6 2;
          Group.make 18 6 3; Group.make 24 6 4; Group.make 30 6 5]
    /\ groupNormals g
       = map (replicate 6)
           [Vector3.make (Fin 1) (Fin 0) (Fin 0);
            Vector3.make (Fin (-1)) (Fin 0) (Fin 0);
            Vector3.make (Fin 0) (Fin 1) (Fin 0);
            Vector3.make (Fin 0) (Fin (-1)) (Fin 0);
            Vector3.make (Fin 0) (Fin 0) (Fin 1);
            Vector3.make (Fin 0) (Fin 0) (Fin (-1))].
Proof.
  eexists. split; [vm_compute; reflexivity|].
  repeat split; vm_compute; reflexivity.
Qed.
(** ** Conversion to a non-indexed geometry *)

Lemma length_gather array index itemSize :
  length (gather array index itemSize) = itemSize.
Proof. unfold gather. rewrite length_map, length_seq. reflexivity. Qed.

Lemma gather_S array index k :
  gather array index (S k)
  = default NaN (array !! index) :: gather array (S index) k.
Proof.
  unfold gather. simpl. rewrite Nat.add_0_r. f_equal.
  rewrite <- seq_shift, map_map. apply map_ext. intros j.
  do 3 f_equal. lia.
Qed.

Lemma lookup_gather array index itemSize k :
  k < itemSize ->
  gather array index itemSize !! k = Some (default NaN (array !! (index + k))).
Proof.
  intros Hk. unfold gather. rewrite list_lookup_fmap, lookup_seq_lt by exact Hk.
  reflexivity.
Qed.

Lemma copyItem_steps array (l : list nat) :
  forall (done rest : list number) (index : nat),
    length l <= length rest ->
    foldl (fun '(array2, index, index2) (_ : nat) =>
             (<[index2 := default NaN (array !! index)]> array2,
              S index, S index2))
          (done ++ rest, index, length done) l
    = (done ++ gather array index (length l) ++ drop (length l) rest,
       index + length l, length done + length l).
Proof.
  induction l as [|x l IH]; intros done rest index Hlen.
  - simpl. rewrite !Nat.add_0_r. reflexivity.
  - destruct rest as [|r rest]; [simpl in Hlen; lia|].
    cbn [foldl].
    rewrite insert_app_r_alt by lia. rewrite Nat.sub_diag. cbn [insert list_insert].
    replace (done ++ default NaN (array !! index) :: rest)
      with ((done ++ [default NaN (array !! index)]) ++ rest)
      by (rewrite <- app_assoc; reflexivity).
    replace (S (length done)) with (length (done ++ [default NaN (array !! index)]))
      by (rewrite length_app; simpl; lia).
    rewrite IH by (simpl in Hlen; lia).
    rewrite length_app. cbn [length drop]. rewrite gather_S.
    rewrite <- app_assoc. cbn [app].
    f_equal; [f_equal|]; lia.
Qed.

Lemma copyItem_spec array itemSize done rest index :
  itemSize <= length rest ->
  copyItem array itemSize (done ++ rest, index, length done)
  = (done ++ gather array index itemSize ++ drop itemSize rest,
     index + itemSize, length done + itemSize).
Proof.
  intros Hlen. unfold copyItem.
  pose proof (copyItem_steps array (seq 0 itemSize) done rest index) as H.
  rewrite length_seq in H. apply H. exact Hlen.
Qed.

Lemma sourceIndex_cell attribute i k :
  sourceIndex attribute i + k = BufferAttribute.cell attribute i k.
Proof.
  unfold sourceIndex, BufferAttribute.cell, BufferAttribute.stride,
    BufferAttribute.offset.
  destruct (BufferAttribute.interleaved attribute) as [[s o]|]; lia.
Qed.

Lemma convert_loop attribute (indices : list nat) :
  forall (done : list number) (index0 : nat),
  exists index',
    foldl (fun '(array2, index, index2) i =>
             let index :=
               match BufferAttribute.interleaved attribute with
               | Some (stride, offset) => i * stride + offset
               | None => i * BufferAttribute.itemSize attribute
               end in
             copyItem (BufferAttribute.array attribute)
                      (BufferAttribute.itemSize attribute)
                      (array2, index, index2))
          (done ++ replicate (length indices * BufferAttribute.itemSize attribute) zero,
           index0, length done) indices
    = (done ++ flat_map (fun i => gather (BufferAttribute.array attribute)
                                         (sourceIndex attribute i)
                                         (BufferAttribute.itemSize attribute))
                        indices,
       index',
       length done + length indices * BufferAttribute.itemSize attribute).
Proof.
  induction indices as [|i indices IH]; intros done index0.
  - exists index0. simpl. rewrite app_nil_r, Nat.add_0_r. reflexivity.
  - cbv zeta in IH. cbn [foldl length]. cbv zeta.
    change (match BufferAttribute.interleaved attribute with
            | Some (stride, offset) => i * stride + offset
            | None => i * BufferAttribute.itemSize attribute
            end) with (sourceIndex attribute i).
    rewrite copyItem_spec
      by (rewrite length_replicate; lia).
    replace (drop (BufferAttribute.itemSize attribute)
               (replicate (S (length indices) * BufferAttribute.itemSize attribute) zero))
      with (replicate (length indices * BufferAttribute.itemSize attribute) zero).
    2:{ rewrite drop_replicate. f_equal. lia. }
    rewrite app_assoc.
    replace (length done + BufferAttribute.itemSize attribute)
      with (length (done ++ gather (BufferAttribute.array attribute)
                                   (sourceIndex attribute i)
                                   (BufferAttribute.itemSize attribute)))
      by (rewrite length_app, length_gather; reflexivity).
    destruct (IH (done ++ gather (BufferAttribute.array attribute)
                                 (sourceIndex attribute i)
                                 (BufferAttribute.itemSize attribute))
                 (sourceIndex attribute i + BufferAttribute.itemSize attribute))
      as [index' ->].
    exists index'. rewrite length_app, length_gather. cbn [flat_map].
    rewrite <- app_assoc.
    f_equal. lia.
Qed.

Lemma array_convertBufferAttribute attribute indices :
  BufferAttribute.array (convertBufferAttribute attribute indices)
  = flat_map (fun i => gather (BufferAttribute.array attribute)
                              (sourceIndex attribute i)
                              (BufferAttribute.itemSize attribute))
             indices.
Proof.
  unfold convertBufferAttribute, BufferAttribute.zeros.
  destruct (convert_loop attribute indices [] 0) as [index' H].
  cbn [app length] in H. rewrite H. reflexivity.
Qed.

Lemma length_flat_map_fixed {A B} (f : A -> list B) (n : nat) (l : list A) :
  (forall a, length (f a) = n) ->
  length (flat_map f l) = length l * n.
Proof.
  intros Hf. induction l as [|a l IH]; [reflexivity|].
  cbn [flat_map length]. rewrite length_app, Hf, IH. lia.
Qed.

Lemma lookup_flat_map_fixed {A B} (f : A -> list B) (n : nat) (l : list A) :
  (forall a, length (f a) = n) ->
  forall i k, k < n ->
    flat_map f l !! (i * n + k) = l !! i ≫= fun a => f a !! k.
Proof.
  intros Hf. induction l as [|a l IH]; intros i k Hk.
  - reflexivity.
  - cbn [flat_map]. destruct i as [|i].
    + simpl. rewrite lookup_app_l by (rewrite Hf; exact Hk). reflexivity.
    + rewrite lookup_app_r by (rewrite Hf; lia).
      rewrite Hf. replace (S i * n + k - n) with (i * n + k) by lia.
      rewrite IH by exact Hk. reflexivity.
Qed.

Lemma convertBufferAttribute_shape attribute indices :
  convertBufferAttribute attribute indices
  = BufferAttribute.new (BufferAttribute.elementType attribute)
      (BufferAttribute.array (convertBufferAttribute attribute indices))
      (BufferAttribute.itemSize attribute)
      (BufferAttribute.normalized attribute).
Proof.
  unfold convertBufferAttribute.
  destruct (foldl _ _ indices) as [[array2 ?] ?]. reflexivity.
Qed.

Lemma convertBufferAttribute_expands attribute indices :
  expandedFrom attribute indices (convertBufferAttribute attribute indices).
Proof.
  assert (Hlen : length (BufferAttribute.array
                           (convertBufferAttribute attribute indices))
                 = length indices * BufferAttribute.itemSize attribute).
  { rewrite array_convertBufferAttribute.
    apply length_flat_map_fixed. intros a. apply length_gather. }
  pose proof (array_convertBufferAttribute attribute indices) as Harr.
  rewrite convertBufferAttribute_shape.
  set (array2 := BufferAttribute.array (convertBufferAttribute attribute indices))
    in *.
  clearbody array2. unfold expandedFrom. cbn.
  split; [reflexivity|]. split; [reflexivity|]. split; [reflexivity|].
  split; [exact Hlen|]. split.
  - intros Hsize. unfold BufferAttribute.count, BufferAttribute.stride. cbn.
    rewrite Hlen. apply Nat.div_mul. exact Hsize.
  - intros i k Hi Hk. unfold BufferAttribute.cell, BufferAttribute.stride,
      BufferAttribute.offset. cbn.
    rewrite Nat.add_0_r, Harr.
    rewrite (lookup_flat_map_fixed _ (BufferAttribute.itemSize attribute))
      by (try exact Hk; intros a; apply length_gather).
    destruct (indices !! i) as [ix|] eqn:E.
    + cbn [mbind option_bind]. rewrite lookup_gather by exact Hk.
      cbn [default]. rewrite sourceIndex_cell. reflexivity.
    + apply lookup_ge_None in E. lia.
Qed.

Lemma toNonIndexed_attributes (g0 : BufferGeometry.t) (indices : list nat)
    (attributes : gmap string BufferAttribute.t) :
  map_fold (fun name attribute geometry2 =>
              setAttribute geometry2 name
                (convertBufferAttribute attribute indices))
           g0 attributes
  = BufferGeometry.with_attributes g0
      (((fun a => convertBufferAttribute a indices) <$> attributes)
       ∪ BufferGeometry.attributes g0).
Proof.
  apply (map_fold_weak_ind
           (fun r m => r = BufferGeometry.with_attributes g0
                             (((fun a => convertBufferAttribute a indices) <$> m)
                              ∪ BufferGeometry.attributes g0))).
  - rewrite fmap_empty, (left_id_L ∅ (∪)). destruct g0; reflexivity.
  - intros i x m r Hi ->. unfold setAttribute. cbn.
    rewrite fmap_insert, insert_union_l. reflexivity.
Qed.

Lemma toNonIndexed_morphAttributes (g0 : BufferGeometry.t) (indices : list nat)
    (morphAttributes : gmap string (list BufferAttribute.t)) :
  map_fold (fun name morphAttribute geometry2 =>
              let morphArray :=
                map (fun attribute => convertBufferAttribute attribute indices)
                    morphAttribute in
              BufferGeometry.with_morphAttributes geometry2
                (<[name := morphArray]>
                   (BufferGeometry.morphAttributes geometry2)))
           g0 morphAttributes
  = BufferGeometry.with_morphAttributes g0
      ((map (fun a => convertBufferAttribute a indices) <$> morphAttributes)
       ∪ BufferGeometry.morphAttributes g0).
Proof.
  apply (map_fold_weak_ind
           (fun r m => r = BufferGeometry.with_morphAttributes g0
                             ((map (fun a => convertBufferAttribute a indices) <$> m)
                              ∪ BufferGeometry.morphAttributes g0))).
  - rewrite fmap_empty, (left_id_L ∅ (∪)). destruct g0; reflexivity.
  - intros i x m r Hi ->. cbn.
    rewrite fmap_insert, insert_union_l. reflexivity.
Qed.

Lemma copy_groups (groups : list Group.t) :
  forall g0,
    foldl (fun geometry2 group =>
             addGroup geometry2 (Group.start group) (Group.count group)
                      (Group.materialIndex group))
          g0 groups
    = BufferGeometry.with_groups g0 (BufferGeometry.groups g0 ++ groups).
Proof.
  induction groups as [|[s c m] groups IH]; intros g0.
  - simpl. rewrite app_nil_r. destruct g0; reflexivity.
  - cbn [foldl]. rewrite IH. unfold addGroup. cbn.
    rewrite <- app_assoc. reflexivity.
Qed.

(** C7: [toNonIndexed()] on a geometry without an index reports a warning
    and returns the receiver itself.  On an indexed geometry it returns a
    new geometry with no index whose attributes, and whose morph-target
    attributes, are the expansions of the receiver's along the index array:
    each has one vertex per index entry (six for [0,1,2,2,1,3]), the [i]-th
    being the source vertex [indices[i]]; the morph-relativity flag and the
    draw groups are those of the receiver. *)
Theorem toNonIndexed_expands_along_index (this : BufferGeometry.t) (w : World) :
  match BufferGeometry.index this with
  | None =>
      fst (toNonIndexed this w) = This
      /\ exists msg, snd (toNonIndexed this w) = snd (console_warn msg w)
  | Some index =>
      let indices := IndexAttribute.array index in
      exists geometry2,
        fst (toNonIndexed this w) = Fresh geometry2
        /\ BufferGeometry.index geometry2 = None
        /\ (forall name,
              BufferGeometry.attributes geometry2 !! name
              = (fun a => convertBufferAttribute a indices)
                  <$> BufferGeometry.attributes this !! name)
        /\ (forall name,
              BufferGeometry.morphAttributes geometry2 !! name
              = map (fun a => convertBufferAttribute a indices)
                  <$> BufferGeometry.morphAttributes this !! name)
        /\ (forall attribute,
              expandedFrom attribute indices
                (convertBufferAttribute attribute indices))
        /\ BufferGeometry.morphTargetsRelative geometry2
           = BufferGeometry.morphTargetsRelative this
        /\ BufferGeometry.groups geometry2 = BufferGeometry.groups this
  end.
Proof.
  unfold toNonIndexed.
  destruct (BufferGeometry.index this) as [index|].
  - cbv zeta. unfold bind, ret, constructor, nextId, generateUUID. cbn.
    eexists. split; [reflexivity|].
    rewrite copy_groups. cbn.
    rewrite toNonIndexed_morphAttributes. cbn.
    rewrite toNonIndexed_attributes. cbn.
    rewrite !(right_id_L ∅ (∪)).
    split; [reflexivity|].
    split; [intros name; apply lookup_fmap|].
    split; [intros name; apply lookup_fmap|].
    split; [intros attribute; apply convertBufferAttribute_expands|].
    split; reflexivity.
  - split; [reflexivity|]. eexists. reflexivity.
Qed.
(** ** Recomputing vertex normals *)

Lemma vertexWrites_length s o l l' :
  vertexWrites s o l l' -> length l' = length l.
Proof.
  induction 1 as [|l' v k x _ IH _]; [reflexivity|].
  rewrite length_insert. exact IH.
Qed.

Lemma vertexWrites_trans s o l1 l2 l3 :
  vertexWrites s o l1 l2 -> vertexWrites s o l2 l3 -> vertexWrites s o l1 l3.
Proof.
  intros H12 H23. induction H23 as [|l' v k x _ IH Hk]; [exact H12|].
  apply vertexWrites_step; assumption.
Qed.

Lemma insert_zero_after_insert (l : list number) (p q : nat) (x : number) :
  <[q := zero]> (<[p := x]> l) = <[q := zero]> l
  \/ <[q := zero]> (<[p := x]> l) = <[p := x]> (<[q := zero]> l).
Proof.
  destruct (decide (p = q)) as [->|Hne].
  - left. apply list_insert_insert_eq.
  - right. apply list_insert_insert_ne. congruence.
Qed.

Lemma zeroAt_after_insert s o (l : list number) (p i : nat) (x : number) :
  zeroAt s o (<[p := x]> l) i = zeroAt s o l i
  \/ zeroAt s o (<[p := x]> l) i = <[p := x]> (zeroAt s o l i).
Proof.
  unfold zeroAt.
  destruct (insert_zero_after_insert l p (i * s + o + 0) x) as [->| ->];
    [left; reflexivity|].
  destruct (insert_zero_after_insert (<[i * s + o + 0 := zero]> l) p
              (i * s + o + 1) x) as [->| ->];
    [left; reflexivity|].
  destruct (insert_zero_after_insert
              (<[i * s + o + 1 := zero]> (<[i * s + o + 0 := zero]> l)) p
              (i * s + o + 2) x) as [->| ->];
    [left | right]; reflexivity.
Qed.

Lemma zeroAt_absorbs s o (l : list number) (v k : nat) (x : number) :
  k < 3 ->
  zeroAt s o (<[v * s + o + k := x]> l) v = zeroAt s o l v.
Proof.
  intros Hk. unfold zeroAt.
  assert (k = 0 \/ k = 1 \/ k = 2) as [->|[->| ->]] by lia.
  - rewrite list_insert_insert_eq. reflexivity.
  - rewrite (list_insert_insert_ne _ (v * s + o + 0) (v * s + o + 1)) by lia.
    rewrite list_insert_insert_eq.
    rewrite (list_insert_insert_ne _ (v * s + o + 1) (v * s + o + 0)) by lia.
    reflexivity.
  - rewrite (list_insert_insert_ne _ (v * s + o + 0) (v * s + o + 2)) by lia.
    rewrite (list_insert_insert_ne _ (v * s + o + 1) (v * s + o + 2)) by lia.
    rewrite list_insert_insert_eq.
    rewrite (list_insert_insert_ne _ (v * s + o + 2) (v * s + o + 1)) by lia.
    rewrite (list_insert_insert_ne _ (v * s + o + 2) (v * s + o + 0)) by lia.
    reflexivity.
Qed.

Lemma zeroAll_after_insert s o (vs : list nat) :
  forall (l : list number) (p : nat) (x : number),
    foldl (zeroAt s o) (<[p := x]> l) vs = foldl (zeroAt s o) l vs
    \/ foldl (zeroAt s o) (<[p := x]> l) vs = <[p := x]> (foldl (zeroAt s o) l vs).
Proof.
  induction vs as [|i vs IH]; intros l p x; [right; reflexivity|].
  cbn [foldl].
  destruct (zeroAt_after_insert s o l p i x) as [->| ->];
    [left; reflexivity | apply IH].
Qed.

(** A write to a cell of a vertex that the reset loop visits is undone by
    the loop. *)
Lemma zeroAll_absorbs s o (vs : list nat) (l : list number) (v k : nat)
    (x : number) :
  v ∈ vs -> k < 3 ->
  foldl (zeroAt s o) (<[v * s + o + k := x]> l) vs = foldl (zeroAt s o) l vs.
Proof.
  intros Hin Hk. apply list_elem_of_split in Hin as (vs1 & vs2 & ->).
  rewrite !foldl_app. cbn [foldl].
  destruct (zeroAll_after_insert s o vs1 l (v * s + o + k) x) as [->| ->];
    [reflexivity|].
  rewrite zeroAt_absorbs by exact Hk. reflexivity.
Qed.

Lemma zeroAll_vertexWrites s o n (l l' : list number) :
  s <> 0 -> length l = n * s ->
  vertexWrites s o l l' ->
  foldl (zeroAt s o) l' (seq 0 n) = foldl (zeroAt s o) l (seq 0 n).
Proof.
  intros Hs Hlen H. induction H as [|l' v k x Hw IH Hk]; [reflexivity|].
  rewrite <- IH. destruct (decide (v < n)) as [Hv|Hv].
  - apply zeroAll_absorbs; [|exact Hk]. apply elem_of_seq. lia.
  - rewrite list_insert_ge; [reflexivity|].
    rewrite (vertexWrites_length _ _ _ _ Hw), Hlen. nia.
Qed.

Lemma rewrites_refl a : rewrites a a.
Proof. exists (BufferAttribute.array a). split; [destruct a; reflexivity|constructor]. Qed.

Lemma setXYZ_array a (i : nat) x y z :
  BufferAttribute.setXYZ a (Some i) x y z
  = BufferAttribute.with_array a
      (<[i * BufferAttribute.stride a + BufferAttribute.offset a + 2
         := BufferAttribute.toElement (BufferAttribute.elementType a) z]>
         (<[i * BufferAttribute.stride a + BufferAttribute.offset a + 1
            := BufferAttribute.toElement (BufferAttribute.elementType a) y]>
            (<[i * BufferAttribute.stride a + BufferAttribute.offset a + 0
               := BufferAttribute.toElement (BufferAttribute.elementType a) x]>
               (BufferAttribute.array a)))).
Proof. reflexivity. Qed.

Lemma rewrites_setXYZ a b v x y z :
  rewrites a b -> rewrites a (BufferAttribute.setXYZ b v x y z).
Proof.
  intros (l' & -> & Hw). destruct v as [i|]; [|exists l'; split; [reflexivity|exact Hw]].
  rewrite setXYZ_array. eexists. split; [reflexivity|].
  cbn. repeat (apply vertexWrites_step; [|lia]). exact Hw.
Qed.

Lemma rewrites_foldl {A} (f : BufferAttribute.t -> A -> BufferAttribute.t)
    (l : list A) :
  (forall a b x, rewrites a b -> rewrites a (f b x)) ->
  forall a b, rewrites a b -> rewrites a (foldl f b l).
Proof.
  intros Hf. induction l as [|x l IH]; intros a b Hab; [exact Hab|].
  cbn [foldl]. apply IH, Hf, Hab.
Qed.

Lemma rewrites_faceNormals index positionAttribute a b :
  rewrites a b -> rewrites a (faceNormals index positionAttribute b).
Proof.
  intros Hab. unfold faceNormals. destruct index as [index|].
  - apply rewrites_foldl; [|exact Hab]. intros a' b' i H.
    unfold accumulateFace. repeat apply rewrites_setXYZ. exact H.
  - apply rewrites_foldl; [|exact Hab]. intros a' b' i H.
    unfold assignFace. repeat apply rewrites_setXYZ. exact H.
Qed.

Lemma rewrites_forEachVertex f a b :
  rewrites a b -> rewrites a (forEachVertex f b).
Proof.
  intros Hab. unfold forEachVertex.
  apply rewrites_foldl; [|exact Hab]. intros a' b' i H.
  apply rewrites_setXYZ. exact H.
Qed.

Lemma resetNormals_array a :
  resetNormals a
  = BufferAttribute.with_array a
      (foldl (zeroAt (BufferAttribute.stride a) (BufferAttribute.offset a))
             (BufferAttribute.array a) (seq 0 (BufferAttribute.count a))).
Proof.
  unfold resetNormals.
  generalize (seq 0 (BufferAttribute.count a)) as vs.
  intros vs.
  assert (H : forall l,
    foldl (fun a i => BufferAttribute.setXYZ a (Some i) zero zero zero)
          (BufferAttribute.with_array a l) vs
    = BufferAttribute.with_array a
        (foldl (zeroAt (BufferAttribute.stride a) (BufferAttribute.offset a)) l vs)).
  { induction vs as [|i vs IH]; intros l; [reflexivity|].
    cbn [foldl]. rewrite setXYZ_array, toElement_zero. cbn. apply IH. }
  rewrite <- H. destruct a; reflexivity.
Qed.

Lemma count_with_array a l :
  length l = length (BufferAttribute.array a) ->
  BufferAttribute.count (BufferAttribute.with_array a l) = BufferAttribute.count a.
Proof. intros H. unfold BufferAttribute.count. cbn. rewrite H. reflexivity. Qed.

(** The reset loop undoes whatever vertex writes came before it. *)
Lemma resetNormals_rewrites a b :
  BufferAttribute.wf a -> rewrites a b -> resetNormals b = resetNormals a.
Proof.
  intros [Hs Hmod] (l' & -> & Hw).
  rewrite !resetNormals_array.
  rewrite count_with_array by (apply (vertexWrites_length _ _ _ _ Hw)).
  cbn. f_equal.
  apply zeroAll_vertexWrites; [exact Hs| |exact Hw].
  unfold BufferAttribute.count.
  apply Nat.Div0.div_exact in Hmod. lia.
Qed.

Lemma wf_with_array a l :
  length l = length (BufferAttribute.array a) ->
  BufferAttribute.wf a -> BufferAttribute.wf (BufferAttribute.with_array a l).
Proof. intros H [Hs Hm]. split; cbn; [exact Hs|rewrite H; exact Hm]. Qed.

Lemma length_zeroAll s o vs (l : list number) :
  length (foldl (zeroAt s o) l vs) = length l.
Proof.
  revert l. induction vs as [|i vs IH]; intros l; [reflexivity|].
  cbn [foldl]. rewrite IH. unfold zeroAt. rewrite !length_insert. reflexivity.
Qed.

Lemma rewrites_resetNormals a : rewrites a (resetNormals a).
Proof.
  unfold resetNormals. apply rewrites_foldl; [|apply rewrites_refl].
  intros a' b' i H. apply rewrites_setXYZ. exact H.
Qed.

Lemma wf_resetNormals a : BufferAttribute.wf a -> BufferAttribute.wf (resetNormals a).
Proof.
  intros H. rewrite resetNormals_array. apply wf_with_array; [|exact H].
  apply length_zeroAll.
Qed.

(** A buffer of zeros is what the reset loop makes of it. *)
Lemma resetNormals_fresh n :
  resetNormals (BufferAttribute.new BufferAttribute.Float32 (BufferAttribute.Float32Array n) 3 false)
  = BufferAttribute.new BufferAttribute.Float32 (BufferAttribute.Float32Array n) 3 false.
Proof.
  rewrite resetNormals_array.
  generalize (seq 0 (BufferAttribute.count
                       (BufferAttribute.new BufferAttribute.Float32 (BufferAttribute.Float32Array n) 3 false))).
  intros vs. unfold BufferAttribute.new, BufferAttribute.with_array. cbn. f_equal.
  unfold BufferAttribute.Float32Array, BufferAttribute.zeros.
  induction vs as [|i vs IH]; [reflexivity|].
  cbn [foldl]. unfold zeroAt at 2. rewrite !insert_replicate. exact IH.
Qed.

Lemma wf_fresh n :
  BufferAttribute.wf
    (BufferAttribute.new BufferAttribute.Float32 (BufferAttribute.Float32Array (n * 3)) 3 false).
Proof.
  split; [cbn; lia|].
  change (length (replicate (n * 3) zero) mod 3 = 0).
  rewrite length_replicate. apply Nat.Div0.mod_mul.
Qed.

(** The version counter does not interfere with reads and writes. *)
Lemma setXYZ_needsUpdate a v x y z :
  BufferAttribute.setXYZ (BufferAttribute.needsUpdate a) v x y z
  = BufferAttribute.needsUpdate (BufferAttribute.setXYZ a v x y z).
Proof. destruct v; reflexivity. Qed.

Lemma fromBufferAttribute_needsUpdate a v :
  Vector3.fromBufferAttribute (BufferAttribute.needsUpdate a) v
  = Vector3.fromBufferAttribute a v.
Proof. destruct v; reflexivity. Qed.

Lemma foldl_needsUpdate {A} (f : BufferAttribute.t -> A -> BufferAttribute.t)
    (l : list A) :
  (forall a x, f (BufferAttribute.needsUpdate a) x = BufferAttribute.needsUpdate (f a x)) ->
  forall a,
    foldl f (BufferAttribute.needsUpdate a) l
    = BufferAttribute.needsUpdate (foldl f a l).
Proof.
  intros Hf. induction l as [|x l IH]; intros a; [reflexivity|].
  cbn [foldl]. rewrite Hf. apply IH.
Qed.

Lemma resetNormals_needsUpdate a :
  resetNormals (BufferAttribute.needsUpdate a)
  = BufferAttribute.needsUpdate (resetNormals a).
Proof.
  unfold resetNormals.
  change (BufferAttribute.count (BufferAttribute.needsUpdate a))
    with (BufferAttribute.count a).
  apply foldl_needsUpdate. intros a' i. apply setXYZ_needsUpdate.
Qed.

Lemma faceNormals_needsUpdate index positionAttribute a :
  faceNormals index positionAttribute (BufferAttribute.needsUpdate a)
  = BufferAttribute.needsUpdate (faceNormals index positionAttribute a).
Proof.
  unfold faceNormals. destruct index as [index|].
  - apply foldl_needsUpdate. intros a' i. unfold accumulateFace.
    rewrite !fromBufferAttribute_needsUpdate, !setXYZ_needsUpdate. reflexivity.
  - apply foldl_needsUpdate. intros a' i. unfold assignFace.
    rewrite !setXYZ_needsUpdate. reflexivity.
Qed.

Lemma normalizeAttribute_needsUpdate a :
  normalizeAttribute Math_sqrt (BufferAttribute.needsUpdate a)
  = BufferAttribute.needsUpdate (normalizeAttribute Math_sqrt a).
Proof.
  unfold normalizeAttribute, forEachVertex.
  change (BufferAttribute.count (BufferAttribute.needsUpdate a))
    with (BufferAttribute.count a).
  apply foldl_needsUpdate. intros a' i.
  rewrite fromBufferAttribute_needsUpdate, setXYZ_needsUpdate. reflexivity.
Qed.

Lemma computeVertexNormals_unfold this w positionAttribute :
  BufferGeometry.attributes this !! "position" = Some positionAttribute ->
  computeVertexNormals Math_sqrt this w
  = (setAttribute this "normal"
       (BufferAttribute.needsUpdate (recomputedNormals Math_sqrt this positionAttribute)),
     w).
Proof.
  intros Hp. unfold computeVertexNormals, getAttribute, normalizeNormals.
  rewrite Hp. cbn. rewrite lookup_insert_eq. cbn. rewrite lookup_insert_eq.
  unfold ret, setAttribute. cbn. rewrite !insert_insert_eq.
  unfold recomputedNormals, initialNormals.
  destruct (BufferGeometry.attributes this !! "normal"); reflexivity.
Qed.

(** Resetting the recomputed normals gives back the buffer the
    recomputation started from. *)
Lemma resetNormals_recomputedNormals this positionAttribute :
  (forall n, BufferGeometry.attributes this !! "normal" = Some n ->
             BufferAttribute.wf n) ->
  resetNormals (recomputedNormals Math_sqrt this positionAttribute)
  = initialNormals this positionAttribute.
Proof.
  intros Hwf.
  assert (Hinit : BufferAttribute.wf (initialNormals this positionAttribute)
                  /\ resetNormals (initialNormals this positionAttribute)
                     = initialNormals this positionAttribute).
  { unfold initialNormals.
    destruct (BufferGeometry.attributes this !! "normal") as [n|] eqn:E.
    - split; [apply wf_resetNormals, Hwf; reflexivity|].
      apply resetNormals_rewrites; [apply Hwf; reflexivity|].
      apply rewrites_resetNormals.
    - split; [apply wf_fresh | apply resetNormals_fresh]. }
  destruct Hinit as [Hwf0 Hreset].
  transitivity (resetNormals (initialNormals this positionAttribute));
    [|exact Hreset].
  apply resetNormals_rewrites; [exact Hwf0|].
  unfold recomputedNormals, normalizeAttribute.
  apply rewrites_forEachVertex, rewrites_faceNormals, rewrites_refl.
Qed.

(** *** What the result does not depend on *)

Lemma sameLayout_refl a : sameLayout a a.
Proof. repeat split. Qed.

Lemma sameLayout_sym a b : sameLayout a b -> sameLayout b a.
Proof. intros (?&?&?&?&?&?). repeat split; congruence. Qed.

Lemma sameLayout_trans a b c : sameLayout a b -> sameLayout b c -> sameLayout a c.
Proof. intros (?&?&?&?&?&?) (?&?&?&?&?&?). repeat split; congruence. Qed.

Lemma sameLayout_with_array a l :
  length l = length (BufferAttribute.array a) ->
  sameLayout a (BufferAttribute.with_array a l).
Proof. intros H. repeat split. cbn. congruence. Qed.

Lemma sameLayout_needsUpdate a : sameLayout a (BufferAttribute.needsUpdate a).
Proof. repeat split. Qed.

Lemma sameLayout_rewrites a b : rewrites a b -> sameLayout a b.
Proof.
  intros (l & -> & Hw). apply sameLayout_with_array.
  apply (vertexWrites_length _ _ _ _ Hw).
Qed.

Lemma version_rewrites a b :
  rewrites a b -> BufferAttribute.version b = BufferAttribute.version a.
Proof. intros (l & -> & _). reflexivity. Qed.

Lemma sameLayout_cell a b i k :
  sameLayout a b -> BufferAttribute.cell b i k = BufferAttribute.cell a i k.
Proof.
  intros (Hs&_&_&Hi&_&_).
  unfold BufferAttribute.cell, BufferAttribute.stride, BufferAttribute.offset.
  rewrite Hi, Hs. reflexivity.
Qed.

Lemma sameLayout_count a b :
  sameLayout a b -> BufferAttribute.count b = BufferAttribute.count a.
Proof.
  intros (Hs&_&_&Hi&_&Hl).
  unfold BufferAttribute.count, BufferAttribute.stride.
  rewrite Hi, Hs, Hl. reflexivity.
Qed.

(** One store, seen at the place [p] of two arrays of one length. *)
Lemma insert_agree (l1 l2 : list number) (q p : nat) (x1 x2 : number) :
  length l1 = length l2 ->
  (q = p -> x1 = x2) ->
  (q <> p -> l1 !! p = l2 !! p) ->
  <[q := x1]> l1 !! p = <[q := x2]> l2 !! p.
Proof.
  intros Hlen Hx Hl. destruct (decide (q = p)) as [->|Hne].
  - rewrite (Hx eq_refl). destruct (decide (p < length l1)) as [Hp|Hp].
    + rewrite !list_lookup_insert_eq by lia. reflexivity.
    + rewrite !lookup_ge_None_2 by (rewrite length_insert; lia). reflexivity.
  - rewrite !list_lookup_insert_ne by exact Hne. apply Hl, Hne.
Qed.

(** [setXYZ] on two buffers of one layout, seen at the place [p]: the
    arrays agree there afterwards if the component written there, if any,
    is the same, and if they agreed there before unless [p] is written. *)
Lemma setXYZ_agree_at a b u x y z x' y' z' p :
  sameLayout a b ->
  (forall i, u = Some i -> BufferAttribute.cell a i 0 = p -> x = x') ->
  (forall i, u = Some i -> BufferAttribute.cell a i 1 = p -> y = y') ->
  (forall i, u = Some i -> BufferAttribute.cell a i 2 = p -> z = z') ->
  ((forall i k, u = Some i -> k < 3 -> BufferAttribute.cell a i k <> p) ->
   BufferAttribute.array a !! p = BufferAttribute.array b !! p) ->
  BufferAttribute.array (BufferAttribute.setXYZ a u x y z) !! p
  = BufferAttribute.array (BufferAttribute.setXYZ b u x' y' z') !! p.
Proof.
  intros Hab Hx Hy Hz Hold. destruct u as [i|].
  2:{ apply Hold. intros i k [=]. }
  rewrite !setXYZ_array.
  cbn [BufferAttribute.array BufferAttribute.with_array].
  pose proof Hab as (_&_&_&_&Hty&Hlen). rewrite <- Hty.
  change (i * BufferAttribute.stride b + BufferAttribute.offset b + 0)
    with (BufferAttribute.cell b i 0).
  change (i * BufferAttribute.stride b + BufferAttribute.offset b + 1)
    with (BufferAttribute.cell b i 1).
  change (i * BufferAttribute.stride b + BufferAttribute.offset b + 2)
    with (BufferAttribute.cell b i 2).
  rewrite !(sameLayout_cell a b) by exact Hab.
  change (i * BufferAttribute.stride a + BufferAttribute.offset a + 0)
    with (BufferAttribute.cell a i 0).
  change (i * BufferAttribute.stride a + BufferAttribute.offset a + 1)
    with (BufferAttribute.cell a i 1).
  change (i * BufferAttribute.stride a + BufferAttribute.offset a + 2)
    with (BufferAttribute.cell a i 2).
  apply insert_agree; [rewrite !length_insert; exact Hlen| |].
  { intros E. rewrite (Hz i eq_refl E). reflexivity. }
  intros N2. apply insert_agree; [rewrite !length_insert; exact Hlen| |].
  { intros E. rewrite (Hy i eq_refl E). reflexivity. }
  intros N1. apply insert_agree; [exact Hlen| |].
  { intros E. rewrite (Hx i eq_refl E). reflexivity. }
  intros N0. apply Hold. intros i' k [= <-] Hk.
  assert (k = 0 \/ k = 1 \/ k = 2) as [->|[->| ->]] by lia; assumption.
Qed.

Lemma sameLayout_setXYZ a b u x y z x' y' z' :
  sameLayout a b ->
  sameLayout (BufferAttribute.setXYZ a u x y z)
             (BufferAttribute.setXYZ b u x' y' z').
Proof.
  intros Hab.
  eapply sameLayout_trans;
    [apply sameLayout_sym, sameLayout_rewrites, rewrites_setXYZ, rewrites_refl|].
  eapply sameLayout_trans; [exact Hab|].
  apply sameLayout_rewrites, rewrites_setXYZ, rewrites_refl.
Qed.

Lemma setXYZ_agreeOn (P : nat -> Prop) a b u x y z x' y' z' :
  agreeOn P a b ->
  (forall i, u = Some i -> P (BufferAttribute.cell a i 0) -> x = x') ->
  (forall i, u = Some i -> P (BufferAttribute.cell a i 1) -> y = y') ->
  (forall i, u = Some i -> P (BufferAttribute.cell a i 2) -> z = z') ->
  agreeOn P (BufferAttribute.setXYZ a u x y z)
            (BufferAttribute.setXYZ b u x' y' z').
Proof.
  intros [Hab Hold] Hx Hy Hz. split; [apply sameLayout_setXYZ, Hab|].
  intros p Hp. apply setXYZ_agree_at; [exact Hab|..].
  - intros i Hu <-. apply (Hx i Hu Hp).
  - intros i Hu <-. apply (Hy i Hu Hp).
  - intros i Hu <-. apply (Hz i Hu Hp).
  - intros _. apply Hold, Hp.
Qed.

Lemma read_agreeOn (P : nat -> Prop) a b u k :
  agreeOn P a b ->
  (forall i, u = Some i -> P (BufferAttribute.cell a i k)) ->
  BufferAttribute.read a u k = BufferAttribute.read b u k.
Proof.
  intros [Hab Hold] HP. destruct u as [i|]; [|reflexivity].
  unfold BufferAttribute.read. rewrite (sameLayout_cell a b) by exact Hab.
  rewrite (Hold _ (HP i eq_refl)). reflexivity.
Qed.

Lemma cell_setXYZ a u x y z i k :
  BufferAttribute.cell (BufferAttribute.setXYZ a u x y z) i k
  = BufferAttribute.cell a i k.
Proof.
  apply sameLayout_cell, sameLayout_rewrites, rewrites_setXYZ, rewrites_refl.
Qed.

(** The indexed loop keeps two buffers in agreement: what it adds at a
    place depends on what was at that place only. *)
Lemma accumulateFace_agreeOn (P : nat -> Prop) index positionAttribute a b i :
  agreeOn P a b ->
  agreeOn P (accumulateFace index positionAttribute a i)
            (accumulateFace index positionAttribute b i).
Proof.
  intros Hab. unfold accumulateFace. cbv zeta.
  set (cb := faceNormal _ _ _).
  assert (Hread : forall u k,
            (forall v, u = Some v -> P (BufferAttribute.cell a v k)) ->
            BufferAttribute.read a u k = BufferAttribute.read b u k)
    by (intros u k HP; apply (read_agreeOn P); assumption).
  unfold Vector3.fromBufferAttribute, BufferAttribute.getX,
    BufferAttribute.getY, BufferAttribute.getZ.
  cbn [Vector3.add Vector3.x Vector3.y Vector3.z].
  repeat (apply setXYZ_agreeOn; [| | |]); try exact Hab;
    intros v Hv; rewrite ?cell_setXYZ; intros HP;
    f_equal; apply Hread;
    intros v' Hv'; rewrite Hv in Hv'; injection Hv' as <-; exact HP.
Qed.

Lemma assignFace_agreeOn (P : nat -> Prop) positionAttribute a b i :
  agreeOn P a b ->
  agreeOn P (assignFace positionAttribute a i) (assignFace positionAttribute b i).
Proof.
  intros Hab. unfold assignFace. cbv zeta.
  repeat (apply setXYZ_agreeOn; [| | |]); try exact Hab; reflexivity.
Qed.

Lemma foldl_agreeOn {A} (P : nat -> Prop)
    (f : BufferAttribute.t -> A -> BufferAttribute.t) (l : list A) :
  (forall a b x, agreeOn P a b -> agreeOn P (f a x) (f b x)) ->
  forall a b, agreeOn P a b -> agreeOn P (foldl f a l) (foldl f b l).
Proof.
  intros Hf. induction l as [|x l IH]; intros a b Hab; [exact Hab|].
  cbn [foldl]. apply IH, Hf, Hab.
Qed.

Lemma faceNormals_agreeOn (P : nat -> Prop) index positionAttribute a b :
  agreeOn P a b ->
  agreeOn P (faceNormals index positionAttribute a)
            (faceNormals index positionAttribute b).
Proof.
  intros Hab. unfold faceNormals. destruct index as [index|].
  - apply foldl_agreeOn; [|exact Hab]. intros a' b' i.
    apply accumulateFace_agreeOn.
  - apply foldl_agreeOn; [|exact Hab]. intros a' b' i.
    apply assignFace_agreeOn.
Qed.

Lemma fromBufferAttribute_agreeOn (P : nat -> Prop) a b i :
  agreeOn P a b ->
  (forall k, k < 3 -> P (BufferAttribute.cell a i k)) ->
  Vector3.fromBufferAttribute a (Some i) = Vector3.fromBufferAttribute b (Some i).
Proof.
  intros Hab HP.
  unfold Vector3.fromBufferAttribute, BufferAttribute.getX,
    BufferAttribute.getY, BufferAttribute.getZ.
  f_equal; apply (read_agreeOn P); try exact Hab;
    intros i' [= <-]; apply HP; lia.
Qed.

(** A loop that rewrites vertex after vertex keeps two buffers in
    agreement on the vertices it goes through. *)
Lemma forEachVertex_steps_agreeOn (P : nat -> Prop) (f : Vector3.t -> Vector3.t)
    (vs : list nat) :
  forall a b,
    agreeOn P a b ->
    (forall i k, i ∈ vs -> k < 3 -> P (BufferAttribute.cell a i k)) ->
    agreeOn P
      (foldl (fun a i =>
                let v := f (Vector3.fromBufferAttribute a (Some i)) in
                BufferAttribute.setXYZ a (Some i)
                  (Vector3.x v) (Vector3.y v) (Vector3.z v)) a vs)
      (foldl (fun a i =>
                let v := f (Vector3.fromBufferAttribute a (Some i)) in
                BufferAttribute.setXYZ a (Some i)
                  (Vector3.x v) (Vector3.y v) (Vector3.z v)) b vs).
Proof.
  induction vs as [|i vs IH]; intros a b Hab HP; [exact Hab|].
  cbn [foldl]. cbv zeta.
  assert (Hv : Vector3.fromBufferAttribute a (Some i)
               = Vector3.fromBufferAttribute b (Some i)).
  { apply (fromBufferAttribute_agreeOn P); [exact Hab|].
    intros k Hk. apply HP; [left|exact Hk]. }
  apply IH.
  - rewrite Hv. apply setXYZ_agreeOn; [exact Hab|reflexivity..].
  - intros j k Hj Hk. rewrite cell_setXYZ. apply HP; [right; exact Hj|exact Hk].
Qed.

Lemma forEachVertex_agreeOn (P : nat -> Prop) (f : Vector3.t -> Vector3.t) a b :
  agreeOn P a b ->
  (forall i k, i < BufferAttribute.count a -> k < 3 ->
               P (BufferAttribute.cell a i k)) ->
  agreeOn P (forEachVertex f a) (forEachVertex f b).
Proof.
  intros Hab HP. unfold forEachVertex.
  rewrite (sameLayout_count a b) by apply Hab.
  apply forEachVertex_steps_agreeOn; [exact Hab|].
  intros i k Hi Hk. apply HP; [|exact Hk]. apply elem_of_seq in Hi. lia.
Qed.

(** The reset loop brings two buffers of one layout into agreement on
    their vertices, whatever they held. *)
Lemma resetNormals_agreeOn a b :
  sameLayout a b -> agreeOn (vertexCell a) (resetNormals a) (resetNormals b).
Proof.
  intros Hab. unfold resetNormals, vertexCell.
  rewrite (sameLayout_count a b) by exact Hab.
  generalize (BufferAttribute.count a) as n. intros n.
  induction n as [|n [Hl Hold]].
  - split; [exact Hab|]. intros p (i & k & Hi & _). lia.
  - rewrite seq_S, !foldl_app. cbn [foldl].
    change (0 + n) with n.
    split; [apply sameLayout_setXYZ, Hl|].
    intros p (i & k & Hi & Hk & ->).
    assert (Hcell : forall j k',
              BufferAttribute.cell
                (foldl (fun a i => BufferAttribute.setXYZ a (Some i) zero zero zero)
                       a (seq 0 n)) j k'
              = BufferAttribute.cell a j k').
    { intros j k'. apply sameLayout_cell, sameLayout_rewrites.
      apply rewrites_foldl; [|apply rewrites_refl].
      intros a' b' x H. apply rewrites_setXYZ. exact H. }
    apply setXYZ_agree_at; [exact Hl|reflexivity..|].
    intros Hnot. apply Hold. exists i, k.
    split; [|split; [exact Hk|reflexivity]].
    destruct (decide (i = n)) as [->|Hne]; [|lia].
    exfalso. apply (Hnot n k eq_refl Hk). apply Hcell.
Qed.

Lemma rewrites_recompute index positionAttribute n :
  rewrites n
    (normalizeAttribute Math_sqrt
       (faceNormals index positionAttribute (resetNormals n))).
Proof.
  unfold normalizeAttribute.
  apply rewrites_forEachVertex, rewrites_faceNormals, rewrites_resetNormals.
Qed.

(** What [computeVertexNormals] leaves in the vertices of the normal buffer
    depends on the layout of the buffer it finds, not on the numbers in
    it. *)
Lemma recompute_agreeOn index positionAttribute n1 n2 :
  sameLayout n1 n2 ->
  agreeOn (vertexCell n1)
    (normalizeAttribute Math_sqrt
       (faceNormals index positionAttribute (resetNormals n1)))
    (normalizeAttribute Math_sqrt
       (faceNormals index positionAttribute (resetNormals n2))).
Proof.
  intros H12. unfold normalizeAttribute.
  apply forEachVertex_agreeOn.
  - apply faceNormals_agreeOn, resetNormals_agreeOn, H12.
  - intros i k Hi Hk.
    assert (Hl : sameLayout n1
                   (faceNormals index positionAttribute (resetNormals n1)))
      by (apply sameLayout_rewrites, rewrites_faceNormals, rewrites_resetNormals).
    rewrite (sameLayout_count _ _ Hl) in Hi. rewrite (sameLayout_cell _ _ _ _ Hl).
    exists i, k. split; [exact Hi|]. split; [exact Hk|reflexivity].
Qed.

Lemma recompute_vertices index positionAttribute n1 n2 i :
  sameLayout n1 n2 -> i < BufferAttribute.count n1 ->
  Vector3.fromBufferAttribute
    (normalizeAttribute Math_sqrt
       (faceNormals index positionAttribute (resetNormals n1))) (Some i)
  = Vector3.fromBufferAttribute
      (normalizeAttribute Math_sqrt
         (faceNormals index positionAttribute (resetNormals n2))) (Some i).
Proof.
  intros H12 Hi.
  apply (fromBufferAttribute_agreeOn (vertexCell n1));
    [apply recompute_agreeOn, H12|].
  intros k Hk.
  rewrite (sameLayout_cell _ _ _ _
             (sameLayout_rewrites _ _ (rewrites_recompute index positionAttribute n1))).
  exists i, k. split; [exact Hi|]. split; [exact Hk|reflexivity].
Qed.

Lemma recomputedNormals_setAttribute this positionAttribute n :
  recomputedNormals Math_sqrt (setAttribute this "normal" n) positionAttribute
  = normalizeAttribute Math_sqrt
      (faceNormals (BufferGeometry.index this) positionAttribute (resetNormals n)).
Proof.
  unfold recomputedNormals, initialNormals.
  rewrite attributes_setAttribute, lookup_insert_eq. reflexivity.
Qed.

(** The first call starts from the buffer it finds, or from a new one;
    either way from a buffer that has gone through the reset loop. *)
Lemma recomputedNormals_start this positionAttribute :
  exists n0,
    recomputedNormals Math_sqrt this positionAttribute
    = normalizeAttribute Math_sqrt
        (faceNormals (BufferGeometry.index this) positionAttribute
           (resetNormals n0)).
Proof.
  unfold recomputedNormals, initialNormals.
  destruct (BufferGeometry.attributes this !! "normal") as [n|].
  - exists n. reflexivity.
  - eexists. rewrite resetNormals_fresh. reflexivity.
Qed.

(** On a normal buffer with whole vertices, the second recomputation gives
    the buffer of the first. *)
Lemma recomputedNormals_again this positionAttribute :
  (forall n, BufferGeometry.attributes this !! "normal" = Some n ->
             BufferAttribute.wf n) ->
  recomputedNormals Math_sqrt
    (setAttribute this "normal"
       (BufferAttribute.needsUpdate
          (recomputedNormals Math_sqrt this positionAttribute)))
    positionAttribute
  = BufferAttribute.needsUpdate
      (recomputedNormals Math_sqrt this positionAttribute).
Proof.
  intros Hwf. rewrite recomputedNormals_setAttribute.
  rewrite resetNormals_needsUpdate, faceNormals_needsUpdate,
    normalizeAttribute_needsUpdate.
  rewrite (resetNormals_recomputedNormals this positionAttribute Hwf).
  reflexivity.
Qed.

(** C6: on a geometry with a position attribute, a second
    [computeVertexNormals()] right after the first leaves every vertex
    normal as the first call left it, in a normal attribute of the same
    layout whose version counter has advanced by one, as it does on every
    call; where the array of an existing normal attribute holds whole
    vertices (the data-model invariant), the attribute is the same as a
    whole, element by element.  Prior normal values never influence the
    result: whatever buffer [prior] of that layout is put in place of the
    normal attribute before the call, the call leaves the same vertex
    normals. *)
Theorem computeVertexNormals_idempotent (this : BufferGeometry.t)
    (prior : BufferAttribute.t) (w w' w'' : World) :
  is_Some (BufferGeometry.attributes this !! "position") ->
  let once := fst (computeVertexNormals Math_sqrt this w) in
  let twice := fst (computeVertexNormals Math_sqrt once w') in
  let other :=
    fst (computeVertexNormals Math_sqrt (setAttribute this "normal" prior) w'') in
  exists normal normal2,
    BufferGeometry.attributes once !! "normal" = Some normal
    /\ BufferGeometry.attributes twice !! "normal" = Some normal2
    /\ sameLayout normal normal2
    /\ BufferAttribute.version normal2 = S (BufferAttribute.version normal)
    /\ (forall i, i < BufferAttribute.count normal ->
          Vector3.fromBufferAttribute normal2 (Some i)
          = Vector3.fromBufferAttribute normal (Some i))
    /\ ((forall n, BufferGeometry.attributes this !! "normal" = Some n ->
                   BufferAttribute.wf n) ->
        normal2 = BufferAttribute.needsUpdate normal)
    /\ (sameLayout normal prior ->
        exists normal3,
          BufferGeometry.attributes other !! "normal" = Some normal3
          /\ sameLayout normal normal3
          /\ forall i, i < BufferAttribute.count normal ->
               Vector3.fromBufferAttribute normal3 (Some i)
               = Vector3.fromBufferAttribute normal (Some i)).
Proof.
  intros [positionAttribute Hp]. cbv zeta.
  rewrite (computeVertexNormals_unfold this w positionAttribute Hp). cbn [fst].
  set (n1 := BufferAttribute.needsUpdate
               (recomputedNormals Math_sqrt this positionAttribute)).
  assert (Hpos : forall x,
            BufferGeometry.attributes (setAttribute this "normal" x) !! "position"
            = Some positionAttribute).
  { intros x. rewrite attributes_setAttribute, lookup_insert_ne by discriminate.
    exact Hp. }
  rewrite (computeVertexNormals_unfold _ w' positionAttribute (Hpos n1)).
  rewrite (computeVertexNormals_unfold _ w'' positionAttribute (Hpos prior)).
  cbn [fst]. rewrite !attributes_setAttribute, !lookup_insert_eq.
  rewrite !recomputedNormals_setAttribute.
  set (index := BufferGeometry.index this).
  destruct (recomputedNormals_start this positionAttribute) as [n0 Hn0].
  fold index in Hn0.
  pose proof (rewrites_recompute index positionAttribute) as Hrw.
  assert (Hl01 : sameLayout n0 n1).
  { unfold n1. rewrite Hn0.
    eapply sameLayout_trans; [apply sameLayout_rewrites, Hrw|].
    apply sameLayout_needsUpdate. }
  assert (Hc01 : BufferAttribute.count n1 = BufferAttribute.count n0)
    by (apply sameLayout_count, Hl01).
  assert (Hv1 : forall i,
            Vector3.fromBufferAttribute n1 (Some i)
            = Vector3.fromBufferAttribute
                (normalizeAttribute Math_sqrt
                   (faceNormals index positionAttribute (resetNormals n0)))
                (Some i)).
  { intros i. unfold n1. rewrite fromBufferAttribute_needsUpdate, Hn0.
    reflexivity. }
  eexists. eexists. split; [reflexivity|]. split; [reflexivity|].
  split.
  { eapply sameLayout_trans; [apply sameLayout_rewrites, Hrw|].
    apply sameLayout_needsUpdate. }
  split.
  { change (S (BufferAttribute.version
                 (normalizeAttribute Math_sqrt
                    (faceNormals index positionAttribute (resetNormals n1))))
            = S (BufferAttribute.version n1)).
    f_equal. apply version_rewrites, Hrw. }
  split.
  { intros i Hi. rewrite fromBufferAttribute_needsUpdate, Hv1.
    symmetry. apply recompute_vertices; [exact Hl01|]. rewrite <- Hc01. exact Hi. }
  split.
  { intros Hwf. unfold index. rewrite <- recomputedNormals_setAttribute.
    unfold n1. rewrite (recomputedNormals_again this positionAttribute Hwf).
    reflexivity. }
  intros Hprior. eexists. split; [reflexivity|].
  split.
  { eapply sameLayout_trans; [exact Hprior|].
    eapply sameLayout_trans; [apply sameLayout_rewrites, Hrw|].
    apply sameLayout_needsUpdate. }
  intros i Hi. rewrite fromBufferAttribute_needsUpdate, Hv1.
  symmetry. apply recompute_vertices; [|rewrite <- Hc01; exact Hi].
  eapply sameLayout_trans; [exact Hl01|exact Hprior].
Qed.

(** ** Bounding boxes *)

Lemma Vector3_isFinite_iff v :
  Vector3_isFinite v = true
  <-> isFinite (Vector3.x v) = true /\ isFinite (Vector3.y v) = true
      /\ isFinite (Vector3.z v) = true.
Proof. unfold Vector3_isFinite. rewrite !andb_true_iff. tauto. Qed.

Lemma Vector3_finite_noNaN v : Vector3_isFinite v = true -> Vector3_noNaN v.
Proof.
  rewrite Vector3_isFinite_iff. intros (Hx & Hy & Hz).
  repeat split; apply isFinite_notNaN; assumption.
Qed.

Lemma Box3_finite_noNaN b : Box3_isFinite b -> Box3_noNaN b.
Proof. intros [H1 H2]. split; apply Vector3_finite_noNaN; assumption. Qed.

Lemma Vector3_le_refl v : Vector3_noNaN v -> Vector3_le v v.
Proof. intros (Hx & Hy & Hz). repeat split; apply le_refl; assumption. Qed.

Lemma Vector3_le_trans a b c : Vector3_le a b -> Vector3_le b c -> Vector3_le a c.
Proof.
  intros (Hx & Hy & Hz) (Hx' & Hy' & Hz').
  repeat split; eapply le_trans; eassumption.
Qed.

Lemma Box3_within_refl b : Box3_noNaN b -> Box3_within b b.
Proof. intros [H1 H2]. split; apply Vector3_le_refl; assumption. Qed.

Lemma Box3_within_trans a b c :
  Box3_within a b -> Box3_within b c -> Box3_within a c.
Proof.
  intros [H1 H2] [H1' H2']. split; eapply Vector3_le_trans; eassumption.
Qed.

Lemma containsPoint_within b b' p :
  containsPoint b p -> Box3_within b b' -> containsPoint b' p.
Proof.
  intros [H1 H2] [H1' H2']. split; eapply Vector3_le_trans; eassumption.
Qed.

Lemma expandByPoint_noNaN b p :
  Box3_noNaN b -> Vector3_noNaN p -> Box3_noNaN (Box3.expandByPoint b p).
Proof.
  intros [(?&?&?) (?&?&?)] (?&?&?).
  repeat split; cbn; first [apply Math_min_notNaN | apply Math_max_notNaN];
    assumption.
Qed.

Lemma expandByPoint_contains b p :
  Box3_noNaN b -> Vector3_noNaN p -> containsPoint (Box3.expandByPoint b p) p.
Proof.
  intros [(?&?&?) (?&?&?)] (?&?&?).
  repeat split; cbn; first [apply Math_min_le_r | apply Math_max_le_r];
    assumption.
Qed.

Lemma expandByPoint_within b p :
  Box3_noNaN b -> Vector3_noNaN p -> Box3_within b (Box3.expandByPoint b p).
Proof.
  intros [(?&?&?) (?&?&?)] (?&?&?).
  repeat split; cbn; first [apply Math_min_le_l | apply Math_max_le_l];
    assumption.
Qed.

Lemma expandByPoint_finite b p :
  Box3_isFinite b -> Vector3_isFinite p = true ->
  Box3_isFinite (Box3.expandByPoint b p).
Proof.
  intros [Hmin Hmax] Hp.
  apply Vector3_isFinite_iff in Hmin as (?&?&?), Hmax as (?&?&?), Hp as (?&?&?).
  split; apply Vector3_isFinite_iff; repeat split; cbn;
    first [apply Math_min_finite | apply Math_max_finite]; assumption.
Qed.

Lemma expandByPoint_makeEmpty_finite p :
  Vector3_isFinite p = true ->
  Box3_isFinite (Box3.expandByPoint Box3.makeEmpty p).
Proof.
  destruct p as [[] [] []]; intros H; try discriminate H.
  split; reflexivity.
Qed.

Lemma makeEmpty_noNaN : Box3_noNaN Box3.makeEmpty.
Proof. repeat split. Qed.

(** Growing a box by a list of points. *)
Lemma expandByPoints_noNaN (vs : list Vector3.t) :
  forall b,
    Box3_noNaN b -> (forall v, v ∈ vs -> Vector3_noNaN v) ->
    Box3_noNaN (foldl Box3.expandByPoint b vs)
    /\ Box3_within b (foldl Box3.expandByPoint b vs)
    /\ forall v, v ∈ vs -> containsPoint (foldl Box3.expandByPoint b vs) v.
Proof.
  induction vs as [|p vs IH]; intros b Hb Hvs.
  - split; [exact Hb|]. split; [apply Box3_within_refl, Hb|].
    intros v Hv. inversion Hv.
  - cbn [foldl].
    assert (Hp : Vector3_noNaN p) by (apply Hvs; left).
    destruct (IH (Box3.expandByPoint b p)) as (Hn & Hw & Hc).
    { apply expandByPoint_noNaN; assumption. }
    { intros v Hv. apply Hvs. right. exact Hv. }
    split; [exact Hn|]. split.
    + eapply Box3_within_trans; [apply (expandByPoint_within b p); assumption|exact Hw].
    + intros v Hv. apply elem_of_cons in Hv as [->|Hv]; [|apply Hc, Hv].
      eapply containsPoint_within; [apply (expandByPoint_contains b p); assumption|exact Hw].
Qed.

Lemma expandByPoints_finite (vs : list Vector3.t) :
  forall b,
    Box3_isFinite b -> (forall v, v ∈ vs -> Vector3_isFinite v = true) ->
    Box3_isFinite (foldl Box3.expandByPoint b vs).
Proof.
  induction vs as [|p vs IH]; intros b Hb Hvs; [exact Hb|].
  cbn [foldl]. apply IH.
  - apply expandByPoint_finite; [exact Hb|]. apply Hvs. left.
  - intros v Hv. apply Hvs. right. exact Hv.
Qed.

Lemma setFromBufferAttribute_vertices a :
  Box3.setFromBufferAttribute a = foldl Box3.expandByPoint Box3.makeEmpty (verticesOf a).
Proof.
  unfold Box3.setFromBufferAttribute, verticesOf. rewrite foldl_fmap. reflexivity.
Qed.

Lemma finiteVertices_elem a v :
  finiteVertices a = true -> v ∈ verticesOf a -> Vector3_isFinite v = true.
Proof.
  unfold finiteVertices. rewrite forallb_forall. intros H Hv.
  apply H, list_elem_of_In, Hv.
Qed.

Lemma vertices_lookup a i :
  i < BufferAttribute.count a ->
  Vector3.fromBufferAttribute a (Some i) ∈ verticesOf a.
Proof.
  intros Hi. unfold verticesOf. apply list_elem_of_fmap.
  exists i. split; [reflexivity|]. apply elem_of_seq. lia.
Qed.

Lemma vertices_nonempty a : 0 < BufferAttribute.count a -> verticesOf a <> [].
Proof.
  intros H E. pose proof (vertices_lookup a 0 H) as Hin.
  rewrite E in Hin. inversion Hin.
Qed.

(** The box fitted to a buffer of finite vertices holds them all, and is
    finite as soon as there is a vertex. *)
Lemma setFromBufferAttribute_contains a :
  finiteVertices a = true ->
  Box3_noNaN (Box3.setFromBufferAttribute a)
  /\ forall v, v ∈ verticesOf a -> containsPoint (Box3.setFromBufferAttribute a) v.
Proof.
  intros Hfin. rewrite setFromBufferAttribute_vertices.
  destruct (expandByPoints_noNaN (verticesOf a) Box3.makeEmpty makeEmpty_noNaN)
    as (Hn & _ & Hc).
  { intros v Hv. apply Vector3_finite_noNaN. eapply finiteVertices_elem; eassumption. }
  split; assumption.
Qed.

Lemma setFromBufferAttribute_finite a :
  finiteVertices a = true -> 0 < BufferAttribute.count a ->
  Box3_isFinite (Box3.setFromBufferAttribute a).
Proof.
  intros Hfin Hcount. rewrite setFromBufferAttribute_vertices.
  pose proof (vertices_nonempty a Hcount) as Hne.
  pose proof (finiteVertices_elem a) as Hall. specialize (fun v => Hall v Hfin).
  destruct (verticesOf a) as [|p vs]; [congruence|].
  cbn [foldl]. apply expandByPoints_finite.
  - apply expandByPoint_makeEmpty_finite. apply Hall. left.
  - intros v Hv. apply Hall. right. exact Hv.
Qed.

Lemma add_comm (a b : number) : (a + b)%num = (b + a)%num.
Proof.
  destruct a, b; simpl; try reflexivity.
  f_equal. apply Qred_complete. apply Qplus_comm.
Qed.

Lemma Vector3_add_comm a b : Vector3.add a b = Vector3.add b a.
Proof.
  unfold Vector3.add. f_equal; apply add_comm.
Qed.

Lemma Vector3_add_finite a b :
  Vector3_isFinite a = true -> Vector3_isFinite b = true ->
  Vector3_isFinite (Vector3.add a b) = true.
Proof.
  rewrite !Vector3_isFinite_iff. intros (?&?&?) (?&?&?).
  repeat split; cbn; apply add_finite; assumption.
Qed.

Lemma Vector3_add_le_mono a b c d :
  Vector3_isFinite a = true -> Vector3_isFinite b = true ->
  Vector3_isFinite c = true -> Vector3_isFinite d = true ->
  Vector3_le a c -> Vector3_le b d ->
  Vector3_le (Vector3.add a b) (Vector3.add c d).
Proof.
  rewrite !Vector3_isFinite_iff.
  intros (?&?&?) (?&?&?) (?&?&?) (?&?&?) (?&?&?) (?&?&?).
  repeat split; cbn; apply add_le_mono; assumption.
Qed.

(** One morph target in absolute mode: the box grows and takes in every
    vertex of the target. *)
Lemma expandByMorph_absolute b m :
  Box3_noNaN b -> finiteVertices m = true ->
  Box3_noNaN (expandByMorph false b m)
  /\ Box3_within b (expandByMorph false b m)
  /\ forall v, v ∈ verticesOf m -> containsPoint (expandByMorph false b m) v.
Proof.
  intros Hb Hm. unfold expandByMorph.
  destruct (setFromBufferAttribute_contains m Hm) as [[Hmin Hmax] Hc].
  set (mb := Box3.setFromBufferAttribute m) in *.
  set (b1 := Box3.expandByPoint b (Box3.min mb)).
  assert (Hb1 : Box3_noNaN b1) by (apply expandByPoint_noNaN; assumption).
  pose proof (expandByPoint_within b (Box3.min mb) Hb Hmin) as Hw1.
  pose proof (expandByPoint_contains b (Box3.min mb) Hb Hmin) as Hc1.
  pose proof (expandByPoint_within b1 (Box3.max mb) Hb1 Hmax) as Hw2.
  pose proof (expandByPoint_contains b1 (Box3.max mb) Hb1 Hmax) as Hc2.
  fold b1 in Hc1.
  split; [apply expandByPoint_noNaN; assumption|].
  split; [eapply Box3_within_trans; eassumption|].
  intros v Hv. destruct (Hc v Hv) as [Hlo Hhi]. split.
  - eapply Vector3_le_trans; [apply Hw2|].
    eapply Vector3_le_trans; [apply Hc1|exact Hlo].
  - eapply Vector3_le_trans; [exact Hhi|apply Hc2].
Qed.

(** One morph target in relative mode, on a finite box: the box grows and
    takes in the sum of every vertex of the target with every point the box
    held. *)
Lemma expandByMorph_relative b m :
  Box3_isFinite b -> finiteVertices m = true -> 0 < BufferAttribute.count m ->
  Box3_isFinite (expandByMorph true b m)
  /\ Box3_within b (expandByMorph true b m)
  /\ forall v p,
       v ∈ verticesOf m -> containsPoint b p -> Vector3_isFinite p = true ->
       containsPoint (expandByMorph true b m) (Vector3.add v p).
Proof.
  intros Hb Hm Hcount. unfold expandByMorph.
  destruct (setFromBufferAttribute_contains m Hm) as [_ Hc].
  destruct (setFromBufferAttribute_finite m Hm Hcount) as [Hmin Hmax].
  set (mb := Box3.setFromBufferAttribute m) in *.
  unfold Vector3.addVectors.
  set (s1 := Vector3.add (Box3.min b) (Box3.min mb)).
  set (b1 := Box3.expandByPoint b s1).
  set (s2 := Vector3.add (Box3.max b1) (Box3.max mb)).
  pose proof Hb as [Hbmin Hbmax].
  assert (Hs1 : Vector3_isFinite s1 = true) by (apply Vector3_add_finite; assumption).
  assert (Hb1 : Box3_isFinite b1) by (apply expandByPoint_finite; assumption).
  pose proof Hb1 as [Hb1min Hb1max].
  assert (Hs2 : Vector3_isFinite s2 = true) by (apply Vector3_add_finite; assumption).
  pose proof (expandByPoint_within b s1 (Box3_finite_noNaN _ Hb)
                (Vector3_finite_noNaN _ Hs1)) as Hw1.
  pose proof (expandByPoint_contains b s1 (Box3_finite_noNaN _ Hb)
                (Vector3_finite_noNaN _ Hs1)) as Hc1.
  pose proof (expandByPoint_within b1 s2 (Box3_finite_noNaN _ Hb1)
                (Vector3_finite_noNaN _ Hs2)) as Hw2.
  pose proof (expandByPoint_contains b1 s2 (Box3_finite_noNaN _ Hb1)
                (Vector3_finite_noNaN _ Hs2)) as Hc2.
  fold b1 in Hw1, Hc1.
  split; [apply expandByPoint_finite; assumption|].
  split; [eapply Box3_within_trans; eassumption|].
  intros v p Hv [Hplo Hphi] Hp.
  assert (Hvfin : Vector3_isFinite v = true)
    by (eapply finiteVertices_elem; eassumption).
  destruct (Hc v Hv) as [Hlo Hhi].
  rewrite Vector3_add_comm. split.
  - eapply Vector3_le_trans; [apply Hw2|].
    eapply Vector3_le_trans; [apply Hc1|].
    apply Vector3_add_le_mono; assumption.
  - eapply Vector3_le_trans; [|apply Hc2].
    apply Vector3_add_le_mono; try assumption.
    eapply Vector3_le_trans; [exact Hphi|apply Hw1].
Qed.

Lemma expandByMorphs_absolute (morphs : list BufferAttribute.t) :
  forall b,
    Box3_noNaN b ->
    (forall m, m ∈ morphs -> finiteVertices m = true) ->
    Box3_noNaN (foldl (expandByMorph false) b morphs)
    /\ Box3_within b (foldl (expandByMorph false) b morphs)
    /\ forall m v, m ∈ morphs -> v ∈ verticesOf m ->
         containsPoint (foldl (expandByMorph false) b morphs) v.
Proof.
  induction morphs as [|m morphs IH]; intros b Hb Hms.
  - split; [exact Hb|]. split; [apply Box3_within_refl, Hb|].
    intros m v Hm. inversion Hm.
  - cbn [foldl].
    destruct (expandByMorph_absolute b m Hb) as (Hn1 & Hw1 & Hc1);
      [apply Hms; left|].
    destruct (IH (expandByMorph false b m) Hn1) as (Hn & Hw & Hc);
      [intros m' Hm'; apply Hms; right; exact Hm'|].
    split; [exact Hn|]. split; [eapply Box3_within_trans; eassumption|].
    intros m' v Hm' Hv. apply elem_of_cons in Hm' as [->|Hm'].
    + eapply containsPoint_within; [apply Hc1, Hv|exact Hw].
    + eapply Hc; eassumption.
Qed.

Lemma expandByMorphs_relative (morphs : list BufferAttribute.t) :
  forall b,
    Box3_isFinite b ->
    (forall m, m ∈ morphs ->
               finiteVertices m = true /\ 0 < BufferAttribute.count m) ->
    Box3_isFinite (foldl (expandByMorph true) b morphs)
    /\ Box3_within b (foldl (expandByMorph true) b morphs)
    /\ forall m v p, m ∈ morphs -> v ∈ verticesOf m ->
         containsPoint b p -> Vector3_isFinite p = true ->
         containsPoint (foldl (expandByMorph true) b morphs) (Vector3.add v p).
Proof.
  induction morphs as [|m morphs IH]; intros b Hb Hms.
  - split; [exact Hb|]. split; [apply Box3_within_refl, Box3_finite_noNaN, Hb|].
    intros m v p Hm. inversion Hm.
  - cbn [foldl].
    destruct (Hms m) as [Hmfin Hmcount]; [left|].
    destruct (expandByMorph_relative b m Hb Hmfin Hmcount) as (Hn1 & Hw1 & Hc1).
    destruct (IH (expandByMorph true b m) Hn1) as (Hn & Hw & Hc);
      [intros m' Hm'; apply Hms; right; exact Hm'|].
    split; [exact Hn|]. split; [eapply Box3_within_trans; eassumption|].
    intros m' v p Hm' Hv Hp Hpfin. apply elem_of_cons in Hm' as [->|Hm'].
    + eapply containsPoint_within; [apply Hc1; assumption|exact Hw].
    + eapply Hc; try eassumption.
      eapply containsPoint_within; eassumption.
Qed.











Lemma computeBoundingBox_stored this w position :
  BufferGeometry.attributes this !! "position" = Some position ->
  BufferAttribute.isGLBufferAttribute position = false ->
  BufferGeometry.boundingBox (fst (computeBoundingBox this w))
  = Some (fittedBox this position).
Proof.
  intros Hp Hgl. unfold computeBoundingBox, fittedBox. rewrite Hp, Hgl.
  case_match; reflexivity.
Qed.


(** ** Bounding spheres *)

Lemma maxRadiusSqOf_sphereVertices center position morphs relative :
  maxRadiusSqOf center position morphs relative
  = foldl (fun maxRadiusSq v =>
             Math_max maxRadiusSq (Vector3.distanceToSquared center v))
          zero (sphereVertices relative position morphs).
Proof.
  unfold maxRadiusSqOf, sphereVertices. rewrite foldl_app.
  unfold verticesOf at 1. rewrite foldl_fmap.
  generalize (foldl (fun maxRadiusSq i =>
                       Math_max maxRadiusSq
                         (Vector3.distanceToSquared center
                            (Vector3.fromBufferAttribute position (Some i))))
                    zero (seq 0 (BufferAttribute.count position))) as m0.
  destruct morphs as [morphs|]; [|reflexivity].
  change (default [] (Some morphs)) with morphs.
  induction morphs as [|m morphs IH]; intros m0; [reflexivity|].
  cbn [foldl flat_map]. rewrite foldl_app, foldl_fmap. rewrite IH.
  unfold morphExpanded. destruct relative; reflexivity.
Qed.

(** The running maximum over squared distances. *)
Lemma max_fold (ds : list number) :
  forall m0,
    isFinite m0 = true -> (forall d, d ∈ ds -> isFinite d = true) ->
    isFinite (foldl Math_max m0 ds) = true
    /\ (m0 <=? foldl Math_max m0 ds)%num = true
    /\ (forall d, d ∈ ds -> (d <=? foldl Math_max m0 ds)%num = true)
    /\ (foldl Math_max m0 ds = m0 \/ foldl Math_max m0 ds ∈ ds).
Proof.
  induction ds as [|d ds IH]; intros m0 Hm0 Hds.
  - split; [exact Hm0|]. split; [apply le_refl, isFinite_notNaN, Hm0|].
    split; [intros d Hd; inversion Hd | left; reflexivity].
  - cbn [foldl].
    assert (Hd : isFinite d = true) by (apply Hds; left).
    pose proof (isFinite_notNaN _ Hm0) as Hn0.
    pose proof (isFinite_notNaN _ Hd) as Hnd.
    destruct (IH (Math_max m0 d)) as (Hf & Hle & Hall & Hin).
    { apply Math_max_finite; assumption. }
    { intros d' Hd'. apply Hds. right. exact Hd'. }
    split; [exact Hf|].
    split; [eapply le_trans; [apply (Math_max_le_l m0 d); assumption|exact Hle]|].
    split.
    + intros d' Hd'. apply elem_of_cons in Hd' as [->|Hd']; [|apply Hall, Hd'].
      eapply le_trans; [apply (Math_max_le_r m0 d); assumption|exact Hle].
    + destruct Hin as [Hin|Hin]; [|right; right; exact Hin].
      rewrite Hin.
      destruct (Math_max_cases m0 d Hn0 Hnd) as [[-> _]|[-> _]];
        [left; reflexivity | right; left].
Qed.

(** With non-negative reduced entries, and at least one of them, the
    maximum started from zero is one of the entries. *)
Lemma max_fold_attained (ds : list number) :
  ds <> [] ->
  (forall d, d ∈ ds ->
     isFinite d = true /\ canonical d /\ (zero <=? d)%num = true) ->
  foldl Math_max zero ds ∈ ds
  /\ forall d, d ∈ ds -> (d <=? foldl Math_max zero ds)%num = true.
Proof.
  intros Hne Hds.
  destruct (max_fold ds zero eq_refl) as (_ & _ & Hall & Hin).
  { intros d Hd. apply Hds, Hd. }
  split; [|exact Hall].
  destruct Hin as [Hz|Hin]; [|exact Hin].
  destruct ds as [|d ds]; [congruence|].
  assert (Hd : d ∈ d :: ds) by left.
  destruct (Hds d Hd) as (_ & Hcan & Hpos).
  specialize (Hall d Hd). rewrite Hz in Hall |- *.
  rewrite (le_antisym zero d); [exact Hd|reflexivity|exact Hcan|exact Hpos|exact Hall].
Qed.

Lemma distanceToSquared_facts c v :
  Vector3_isFinite c = true -> Vector3_isFinite v = true ->
  isFinite (Vector3.distanceToSquared c v) = true
  /\ canonical (Vector3.distanceToSquared c v)
  /\ (zero <=? Vector3.distanceToSquared c v)%num = true.
Proof.
  rewrite !Vector3_isFinite_iff. intros (Hx & Hy & Hz) (Hx' & Hy' & Hz').
  unfold Vector3.distanceToSquared. cbv zeta.
  set (dx := (Vector3.x c - Vector3.x v)%num).
  set (dy := (Vector3.y c - Vector3.y v)%num).
  set (dz := (Vector3.z c - Vector3.z v)%num).
  assert (Hdx : isFinite dx = true) by (apply sub_finite; assumption).
  assert (Hdy : isFinite dy = true) by (apply sub_finite; assumption).
  assert (Hdz : isFinite dz = true) by (apply sub_finite; assumption).
  split; [repeat apply add_finite; apply mul_finite; assumption|].
  split; [apply add_canonical|].
  repeat apply add_nonneg;
    first [apply square_nonneg; assumption
          | repeat apply add_finite; apply mul_finite; assumption].
Qed.

Lemma expandByMorph_absolute_finite b m :
  Box3_isFinite b -> finiteVertices m = true -> 0 < BufferAttribute.count m ->
  Box3_isFinite (expandByMorph false b m).
Proof.
  intros Hb Hm Hcount. unfold expandByMorph.
  destruct (setFromBufferAttribute_finite m Hm Hcount) as [Hmin Hmax].
  repeat apply expandByPoint_finite; assumption.
Qed.

Lemma expandByMorphs_finite relative (morphs : list BufferAttribute.t) :
  forall b,
    Box3_isFinite b ->
    (forall m, m ∈ morphs ->
               finiteVertices m = true /\ 0 < BufferAttribute.count m) ->
    Box3_isFinite (foldl (expandByMorph relative) b morphs).
Proof.
  induction morphs as [|m morphs IH]; intros b Hb Hms; [exact Hb|].
  cbn [foldl]. destruct (Hms m) as [Hf Hc]; [left|].
  apply IH; [|intros m' Hm'; apply Hms; right; exact Hm'].
  destruct relative.
  - apply expandByMorph_relative; assumption.
  - apply expandByMorph_absolute_finite; assumption.
Qed.

Lemma multiplyScalar_finite v s :
  Vector3_isFinite v = true -> isFinite s = true ->
  Vector3_isFinite (Vector3.multiplyScalar v s) = true.
Proof.
  rewrite !Vector3_isFinite_iff. intros (?&?&?) Hs.
  repeat split; cbn; apply mul_finite; assumption.
Qed.

Lemma isEmpty_false_of_contains b p : containsPoint b p -> Box3.isEmpty b = false.
Proof.
  intros [(Hx & Hy & Hz) (Hx' & Hy' & Hz')]. unfold Box3.isEmpty.
  rewrite !(le_lt_false (Vector3.x (Box3.min b)) (Vector3.x (Box3.max b))),
          !(le_lt_false (Vector3.y (Box3.min b)) (Vector3.y (Box3.max b))),
          !(le_lt_false (Vector3.z (Box3.min b)) (Vector3.z (Box3.max b)));
    first [reflexivity | eapply le_trans; eassumption].
Qed.

Lemma computeBoundingSphere_stored this w position :
  BufferGeometry.attributes this !! "position" = Some position ->
  BufferAttribute.isGLBufferAttribute position = false ->
  BufferGeometry.boundingSphere (fst (computeBoundingSphere Math_sqrt this w))
  = Some (Sphere.make
            (Box3.getCenter (fittedBox this position))
            (Math_sqrt
               (maxRadiusSqOf (Box3.getCenter (fittedBox this position)) position
                  (BufferGeometry.morphAttributes this !! "position")
                  (BufferGeometry.morphTargetsRelative this)))).
Proof.
  intros Hp Hgl. unfold computeBoundingSphere, fittedBox. rewrite Hp, Hgl.
  repeat case_match; reflexivity.
Qed.

Lemma alignedMorphTargets_elem this position morphs m :
  alignedMorphTargets this position = true ->
  BufferGeometry.morphAttributes this !! "position" = Some morphs ->
  m ∈ morphs ->
  finiteVertices m = true /\ 0 < BufferAttribute.count m
  /\ (BufferGeometry.morphTargetsRelative this = true ->
      BufferAttribute.count m <= BufferAttribute.count position).
Proof.
  unfold alignedMorphTargets. intros H Hms Hm. rewrite Hms in H.
  change (default [] (Some morphs)) with morphs in H.
  rewrite forallb_forall in H. specialize (H m (proj1 (list_elem_of_In _ _) Hm)).
  apply andb_true_iff in H as [H H3]. apply andb_true_iff in H as [H1 H2].
  split; [exact H1|]. split; [apply Nat.ltb_lt, H2|].
  intros Hrel. rewrite Hrel in H3.
  change (negb true || (BufferAttribute.count m <=? BufferAttribute.count position))
    with (BufferAttribute.count m <=? BufferAttribute.count position) in H3.
  apply Nat.leb_le, H3.
Qed.

(** C2 (as the code has it): for a geometry with a non-empty readable
    position attribute, finite coordinates throughout, and morph targets
    that are not empty (and, in relative mode, not longer than the position
    buffer), [computeBoundingSphere()] stores the centre of the box that
    [computeBoundingBox()] fits, every vertex and every morph-expanded
    vertex is within the stored radius of that centre, and the radius is
    the square root of the largest squared distance, which one of these
    points attains.  [Math.sqrt] is assumed monotone on non-negative
    numbers. *)
Theorem computeBoundingSphere_bounds_finite_vertices (this : BufferGeometry.t)
    (w : World) (position : BufferAttribute.t) :
  BufferGeometry.attributes this !! "position" = Some position ->
  BufferAttribute.isGLBufferAttribute position = false ->
  0 < BufferAttribute.count position ->
  finiteVertices position = true ->
  alignedMorphTargets this position = true ->
  (forall a b, (zero <=? a)%num = true -> (a <=? b)%num = true ->
               (Math_sqrt a <=? Math_sqrt b)%num = true) ->
  exists sphere box,
    BufferGeometry.boundingSphere (fst (computeBoundingSphere Math_sqrt this w))
    = Some sphere
    /\ BufferGeometry.boundingBox (fst (computeBoundingBox this w)) = Some box
    /\ Box3.isEmpty box = false
    /\ Sphere.center sphere
       = Vector3.multiplyScalar (Vector3.addVectors (Box3.min box) (Box3.max box))
           (Fin (1 # 2))
    /\ (forall v,
          v ∈ sphereVertices (BufferGeometry.morphTargetsRelative this) position
                (BufferGeometry.morphAttributes this !! "position") ->
          (Vector3.distanceTo Math_sqrt (Sphere.center sphere) v
           <=? Sphere.radius sphere)%num = true)
    /\ exists farthest,
         farthest ∈ sphereVertices (BufferGeometry.morphTargetsRelative this)
                      position (BufferGeometry.morphAttributes this !! "position")
         /\ Sphere.radius sphere
            = Math_sqrt (Vector3.distanceToSquared (Sphere.center sphere) farthest)
         /\ forall v,
              v ∈ sphereVertices (BufferGeometry.morphTargetsRelative this)
                    position (BufferGeometry.morphAttributes this !! "position") ->
              (Vector3.distanceToSquared (Sphere.center sphere) v
               <=? Vector3.distanceToSquared (Sphere.center sphere) farthest)%num
              = true.
Proof.
  intros Hp Hgl Hcount Hfin Hmorph Hsqrt.
  exists (Sphere.make
            (Box3.getCenter (fittedBox this position))
            (Math_sqrt
               (maxRadiusSqOf (Box3.getCenter (fittedBox this position)) position
                  (BufferGeometry.morphAttributes this !! "position")
                  (BufferGeometry.morphTargetsRelative this)))).
  exists (fittedBox this position).
  split; [apply computeBoundingSphere_stored; assumption|].
  split; [apply computeBoundingBox_stored; assumption|].
  cbn [Sphere.center Sphere.radius].
  set (rel := BufferGeometry.morphTargetsRelative this) in *.
  set (morphs := BufferGeometry.morphAttributes this !! "position") in *.
  (* the fitted box is finite and holds the first vertex *)
  pose proof (setFromBufferAttribute_finite position Hfin Hcount) as Hb0.
  destruct (setFromBufferAttribute_contains position Hfin) as [_ Hc0].
  assert (Hmorph' : forall ms m, morphs = Some ms -> m ∈ ms ->
            finiteVertices m = true /\ 0 < BufferAttribute.count m
            /\ (rel = true -> BufferAttribute.count m <= BufferAttribute.count position)).
  { intros ms m Hms Hm. eapply alignedMorphTargets_elem; eassumption. }
  assert (Hbox : Box3_isFinite (fittedBox this position)
                 /\ Box3_within (Box3.setFromBufferAttribute position)
                      (fittedBox this position)).
  { unfold fittedBox. fold morphs rel.
    destruct morphs as [ms|] eqn:Hms.
    - split.
      + apply expandByMorphs_finite; [exact Hb0|].
        intros m Hm. destruct (Hmorph' ms m eq_refl Hm) as (?&?&?). split; assumption.
      + destruct rel eqn:Hrel.
        * eapply expandByMorphs_relative; [exact Hb0|].
          intros m Hm. destruct (Hmorph' ms m eq_refl Hm) as (?&?&?). split; assumption.
        * eapply expandByMorphs_absolute; [apply Box3_finite_noNaN, Hb0|].
          intros m Hm. apply (Hmorph' ms m eq_refl Hm).
    - split; [exact Hb0|apply Box3_within_refl, Box3_finite_noNaN, Hb0]. }
  destruct Hbox as [Hbfin Hbw].
  assert (Hempty : Box3.isEmpty (fittedBox this position) = false).
  { apply (isEmpty_false_of_contains _ (Vector3.fromBufferAttribute position (Some 0))).
    eapply containsPoint_within; [|exact Hbw].
    apply Hc0, vertices_lookup, Hcount. }
  split; [exact Hempty|].
  assert (Hcenter : Box3.getCenter (fittedBox this position)
                    = Vector3.multiplyScalar
                        (Vector3.addVectors (Box3.min (fittedBox this position))
                                            (Box3.max (fittedBox this position)))
                        (Fin (1 # 2))).
  { unfold Box3.getCenter. rewrite Hempty. reflexivity. }
  split; [exact Hcenter|].
  set (center := Box3.getCenter (fittedBox this position)) in *.
  assert (Hcfin : Vector3_isFinite center = true).
  { rewrite Hcenter. destruct Hbfin as [Hmin Hmax].
    apply multiplyScalar_finite; [|reflexivity].
    apply Vector3_add_finite; assumption. }
  (* every measured point is finite *)
  assert (Hvfin : forall v, v ∈ sphereVertices rel position morphs ->
                            Vector3_isFinite v = true).
  { intros v Hv. unfold sphereVertices in Hv. apply elem_of_app in Hv as [Hv|Hv].
    - eapply finiteVertices_elem; eassumption.
    - apply list_elem_of_In, in_flat_map in Hv as (m & Hm & Hv).
      apply list_elem_of_In in Hm, Hv.
      destruct morphs as [ms|] eqn:Hms; [|inversion Hm].
      change (default [] (Some ms)) with ms in Hm.
      destruct (Hmorph' ms m eq_refl Hm) as (Hmf & Hmc & Hml).
      apply list_elem_of_fmap in Hv as (j & -> & Hj).
      apply elem_of_seq in Hj. unfold morphExpanded.
      assert (Hmj : Vector3_isFinite (Vector3.fromBufferAttribute m (Some j)) = true).
      { eapply finiteVertices_elem; [exact Hmf|]. apply vertices_lookup. lia. }
      destruct rel; [|exact Hmj].
      apply Vector3_add_finite; [exact Hmj|].
      eapply finiteVertices_elem; [exact Hfin|].
      apply vertices_lookup. specialize (Hml eq_refl). lia. }
  (* the running maximum *)
  rewrite maxRadiusSqOf_sphereVertices.
  rewrite <- (foldl_fmap Math_max zero (sphereVertices rel position morphs)
                (Vector3.distanceToSquared center)).
  destruct (max_fold_attained
              (Vector3.distanceToSquared center <$> sphereVertices rel position morphs))
    as [Hin Hall].
  { intros E. apply fmap_nil_inv in E. unfold sphereVertices in E.
    apply app_eq_nil in E as [E _].
    exact (vertices_nonempty position Hcount E). }
  { intros d Hd. apply list_elem_of_fmap in Hd as (v & -> & Hv).
    apply distanceToSquared_facts; [exact Hcfin|apply Hvfin, Hv]. }
  split.
  - intros v Hv. unfold Vector3.distanceTo. apply Hsqrt.
    + apply distanceToSquared_facts; [exact Hcfin|apply Hvfin, Hv].
    + apply Hall.
      apply list_elem_of_fmap. exists v. split; [reflexivity|exact Hv].
  - apply list_elem_of_fmap in Hin as (far & Hfar & Hfarin).
    exists far. split; [exact Hfarin|]. split; [rewrite Hfar; reflexivity|].
    intros v Hv. rewrite <- Hfar. apply Hall.
    apply list_elem_of_fmap. exists v. split; [reflexivity|exact Hv].
Qed.

End Claims.

(** * Instances

    The statements above at the sample geometries, with the concrete square
    root. *)

Lemma sqrt_floor_monotone (a b : number) :
  (zero <=? a)%num = true -> (a <=? b)%num = true ->
  (sqrt_floor a <=? sqrt_floor b)%num = true.
Proof.
  destruct a as [| |p|], b as [| |q|]; intros H0 H;
    try discriminate H0; try discriminate H; try reflexivity.
  - change (Qle_bool 0 p = true) in H0. change (Qle_bool p q = true) in H.
    assert (Hq : Qle_bool 0 q = true).
    { apply Qle_bool_iff in H0, H. apply Qle_bool_iff.
      eapply Qle_trans; eassumption. }
    unfold sqrt_floor. rewrite H0, Hq. cbn [le].
    apply Qle_bool_iff in H. apply Qle_bool_iff. rewrite !Qred_correct.
    unfold Qle. cbn [Qnum Qden].
    apply Z.mul_le_mono_nonneg_r; [apply Pos2Z.is_nonneg|].
    apply Z.sqrt_le_mono, Qfloor_resp_le.
    apply Qmult_le_compat_r; [exact H|]. discriminate.
  - change (Qle_bool 0 p = true) in H0. unfold sqrt_floor. rewrite H0.
    reflexivity.
Qed.

(** C9 at the quad without positions. *)
Lemma computeVertexNormals_without_position_quad :
  BufferGeometry.attributes quadWithoutPosition !! "position" = None
  /\ computeVertexNormals sqrt_floor quadWithoutPosition world0
     = (quadWithoutPosition, world0).
Proof.
  split; [reflexivity|].
  apply (computeVertexNormals_without_position sqrt_floor quadWithoutPosition world0).
  reflexivity.
Defined.

(** C4 at the quad without texture coordinates. *)
Lemma computeTangents_missing_input_quad :
  (BufferGeometry.index quadWithoutUv = None
   \/ BufferGeometry.attributes quadWithoutUv !! "position" = None
   \/ BufferGeometry.attributes quadWithoutUv !! "normal" = None
   \/ BufferGeometry.attributes quadWithoutUv !! "uv" = None)
  /\ fst (computeTangents sqrt_floor quadWithoutUv world0) = Normal quadWithoutUv
  /\ reportsError world0 (snd (computeTangents sqrt_floor quadWithoutUv world0)).
Proof.
  assert (H : BufferGeometry.index quadWithoutUv = None
              \/ BufferGeometry.attributes quadWithoutUv !! "position" = None
              \/ BufferGeometry.attributes quadWithoutUv !! "normal" = None
              \/ BufferGeometry.attributes quadWithoutUv !! "uv" = None)
    by (right; right; right; reflexivity).
  split; [exact H|].
  exact (computeTangents_missing_input sqrt_floor quadWithoutUv world0 H).
Defined.

(** C5 at the quad with every vertex on one texture coordinate: the first
    triangle is skipped, the second is still processed. *)
Lemma degenerate_uv_triangle_quad :
  isFinite (tangentScale quadCollapsedUv (Some 0) (Some 1) (Some 2)) = false
  /\ handleTriangle (Float32BufferAttribute quadPositions 3) quadCollapsedUv
       (replicate 4 Vector3.new, replicate 4 Vector3.new)
       (Some 0, Some 1, Some 2)
     = Normal (replicate 4 Vector3.new, replicate 4 Vector3.new)
  /\ forEach (handleTriangle (Float32BufferAttribute quadPositions 3) quadCollapsedUv)
       ([] ++ (Some 0, Some 1, Some 2) :: [(Some 2, Some 1, Some 3)])
       (replicate 4 Vector3.new, replicate 4 Vector3.new)
     = forEach (handleTriangle (Float32BufferAttribute quadPositions 3) quadCollapsedUv)
         ([] ++ [(Some 2, Some 1, Some 3)])
         (replicate 4 Vector3.new, replicate 4 Vector3.new).
Proof.
  split; [reflexivity|].
  apply (degenerate_uv_triangle_contributes_nothing
           (Float32BufferAttribute quadPositions 3) quadCollapsedUv
           (Some 0) (Some 1) (Some 2)
           (replicate 4 Vector3.new, replicate 4 Vector3.new)
           [] [(Some 2, Some 1, Some 3)]).
  reflexivity.
Defined.

(** C6 at the quad, which comes with a normal attribute, and at the quad
    with other numbers in that attribute. *)
Lemma computeVertexNormals_idempotent_quad :
  is_Some (BufferGeometry.attributes quad !! "position")
  /\ exists normal normal2 normal3,
       BufferGeometry.attributes
         (fst (computeVertexNormals sqrt_floor quad world0)) !! "normal"
       = Some normal
       /\ BufferGeometry.attributes
            (fst (computeVertexNormals sqrt_floor
                    (fst (computeVertexNormals sqrt_floor quad world0)) world0))
            !! "normal"
          = Some normal2
       /\ BufferGeometry.attributes
            (fst (computeVertexNormals sqrt_floor
                    (setAttribute quad "normal" quadOtherNormals) world0))
            !! "normal"
          = Some normal3
       /\ sameLayout normal normal2
       /\ BufferAttribute.version normal2 = S (BufferAttribute.version normal)
       /\ (forall i, i < BufferAttribute.count normal ->
             Vector3.fromBufferAttribute normal2 (Some i)
             = Vector3.fromBufferAttribute normal (Some i))
       /\ normal2 = BufferAttribute.needsUpdate normal
       /\ sameLayout normal normal3
       /\ (forall i, i < BufferAttribute.count normal ->
             Vector3.fromBufferAttribute normal3 (Some i)
             = Vector3.fromBufferAttribute normal (Some i)).
Proof.
  assert (Hp : is_Some (BufferGeometry.attributes quad !! "position"))
    by (eexists; reflexivity).
  split; [exact Hp|].
  destruct (computeVertexNormals_idempotent sqrt_floor quad quadOtherNormals
              world0 world0 world0 Hp)
    as (normal & normal2 & H1 & H2 & Hl & Hv & Hvert & Hwf & Hprior).
  assert (Hn : forall n, BufferGeometry.attributes quad !! "normal" = Some n ->
                         BufferAttribute.wf n).
  { intros n H. vm_compute in H. injection H as <-.
    split; [discriminate|reflexivity]. }
  assert (Hs : sameLayout normal quadOtherNormals).
  { vm_compute in H1. injection H1 as <-. repeat split. }
  destruct (Hprior Hs) as (normal3 & H3 & Hl3 & Hvert3).
  exists normal, normal2, normal3.
  split; [exact H1|]. split; [exact H2|]. split; [exact H3|].
  split; [exact Hl|]. split; [exact Hv|]. split; [exact Hvert|].
  split; [exact (Hwf Hn)|]. split; [exact Hl3|exact Hvert3].
Defined.


(** C2 at the quad with its relative morph target. *)
Lemma computeBoundingSphere_bounds_quadMorphed :
  BufferGeometry.attributes quadMorphed !! "position"
  = Some (Float32BufferAttribute quadPositions 3)
  /\ BufferAttribute.isGLBufferAttribute (Float32BufferAttribute quadPositions 3)
     = false
  /\ 0 < BufferAttribute.count (Float32BufferAttribute quadPositions 3)
  /\ finiteVertices (Float32BufferAttribute quadPositions 3) = true
  /\ alignedMorphTargets quadMorphed (Float32BufferAttribute quadPositions 3) = true
  /\ exists sphere box,
       BufferGeometry.boundingSphere
         (fst (computeBoundingSphere sqrt_floor quadMorphed world0)) = Some sphere
       /\ BufferGeometry.boundingBox (fst (computeBoundingBox quadMorphed world0))
          = Some box
       /\ Box3.isEmpty box = false
       /\ Sphere.center sphere
          = Vector3.multiplyScalar
              (Vector3.addVectors (Box3.min box) (Box3.max box)) (Fin (1 # 2))
       /\ (forall v,
             v ∈ sphereVertices (BufferGeometry.morphTargetsRelative quadMorphed)
                   (Float32BufferAttribute quadPositions 3)
                   (BufferGeometry.morphAttributes quadMorphed !! "position") ->
             (Vector3.distanceTo sqrt_floor (Sphere.center sphere) v
              <=? Sphere.radius sphere)%num = true)
       /\ exists farthest,
            farthest ∈ sphereVertices
                         (BufferGeometry.morphTargetsRelative quadMorphed)
                         (Float32BufferAttribute quadPositions 3)
                         (BufferGeometry.morphAttributes quadMorphed !! "position")
            /\ Sphere.radius sphere
               = sqrt_floor
                   (Vector3.distanceToSquared (Sphere.center sphere) farthest)
            /\ forall v,
                 v ∈ sphereVertices
                       (BufferGeometry.morphTargetsRelative quadMorphed)
                       (Float32BufferAttribute quadPositions 3)
                       (BufferGeometry.morphAttributes quadMorphed !! "position") ->
                 (Vector3.distanceToSquared (Sphere.center sphere) v
                  <=? Vector3.distanceToSquared (Sphere.center sphere) farthest)%num
                 = true.
Proof.
  split; [reflexivity|]. split; [reflexivity|].
  split; [vm_compute; lia|]. split; [reflexivity|]. split; [reflexivity|].
  apply (computeBoundingSphere_bounds_finite_vertices sqrt_floor quadMorphed world0
           (Float32BufferAttribute quadPositions 3));
    first [reflexivity | exact sqrt_floor_monotone | vm_compute; lia].
Defined.

(** * Where the specification says more than the code does *)


(** C2 as stated fails on a NaN coordinate: the position attribute of
    [nanPoint] is readable and not empty, and its vertex is not within the
    stored radius of the stored centre (the radius is NaN). *)
Lemma computeBoundingSphere_nan_vertex_outside :
  exists position sphere,
    BufferGeometry.attributes nanPoint !! "position" = Some position
    /\ BufferAttribute.isGLBufferAttribute position = false
    /\ 0 < BufferAttribute.count position
    /\ BufferGeometry.boundingSphere
         (fst (computeBoundingSphere sqrt_floor nanPoint world0)) = Some sphere
    /\ isNaN (Sphere.radius sphere) = true
    /\ (Vector3.distanceTo sqrt_floor (Sphere.center sphere)
          (Vector3.fromBufferAttribute position (Some 0))
        <=? Sphere.radius sphere)%num = false.
Proof.
  eexists. eexists.
  split; [reflexivity|]. split; [reflexivity|].
  split; [vm_compute; lia|]. split; [vm_compute; reflexivity|].
  split; reflexivity.
Qed.

(** C3 as stated fails when only one volume was computed: [quadBoxed] has a
    bounding box and no bounding sphere, and after [applyMatrix4] the sphere
    is still null, although a box had been computed before the call. *)
Lemma applyMatrix4_leaves_missing_sphere_null :
  BufferGeometry.boundingBox quadBoxed <> None
  /\ BufferGeometry.boundingSphere quadBoxed = None
  /\ BufferGeometry.boundingBox
       (fst (applyMatrix4 sqrt_floor quadBoxed identity4 world0)) <> None
  /\ BufferGeometry.boundingSphere
       (fst (applyMatrix4 sqrt_floor quadBoxed identity4 world0)) = None.
Proof.
  split; [intros H; vm_compute in H; discriminate H|].
  split; [reflexivity|].
  split; [intros H; vm_compute in H; discriminate H|].
  vm_compute. reflexivity.
Qed.

(** * Further examples *)

(** The quad of section 8: index [0,1,2,2,1,3] over four vertices expands
    to six vertices per attribute, and the result has no index. *)
Example toNonIndexed_quad :
  exists geometry2,
    fst (toNonIndexed quad world0) = Fresh geometry2
    /\ BufferGeometry.index geometry2 = None
    /\ BufferAttribute.count <$> BufferGeometry.attributes geometry2 !! "position"
       = Some 6
    /\ BufferAttribute.count <$> BufferGeometry.attributes geometry2 !! "normal"
       = Some 6
    /\ BufferAttribute.count <$> BufferGeometry.attributes geometry2 !! "uv"
       = Some 6
    /\ BufferAttribute.array <$> BufferGeometry.attributes geometry2 !! "uv"
       = Some [Fin 0; Fin 0;   Fin 1; Fin 0;   Fin 0; Fin 1;
               Fin 0; Fin 1;   Fin 1; Fin 0;   Fin 1; Fin 1].
Proof.
  eexists. split; [vm_compute; reflexivity|].
  repeat split; vm_compute; reflexivity.
Qed.

(** In relative mode an empty morph target turns the box of a finite,
    non-empty position buffer into NaN: the sum of the grown maximum
    [+Infinity] and the empty box's maximum [-Infinity]. *)
Example computeBoundingBox_empty_relative_morph :
  BufferGeometry.boundingBox (fst (computeBoundingBox quadEmptyMorph world0))
  = Some (Box3.make (Vector3.make NaN NaN NaN) (Vector3.make NaN NaN NaN)).
Proof. vm_compute. reflexivity. Qed.

(** The quad's bounding sphere: centre [(1/2, 1/2, 0)], and squared radius
    [1/2] before the square root. *)
Example computeBoundingSphere_quad :
  Sphere.center <$> BufferGeometry.boundingSphere
                      (fst (computeBoundingSphere sqrt_floor quad world0))
  = Some (Vector3.make (Fin (1 # 2)) (Fin (1 # 2)) (Fin 0))
  /\ maxRadiusSqOf (Vector3.make (Fin (1 # 2)) (Fin (1 # 2)) (Fin 0))
       (Float32BufferAttribute quadPositions 3) None false
     = Fin (1 # 2).
Proof. split; vm_compute; reflexivity. Qed.

(** The normals of the indexed quad are recomputed to [(0, 0, 1)]. *)
Example computeVertexNormals_quad :
  BufferAttribute.array
    <$> BufferGeometry.attributes
          (fst (computeVertexNormals sqrt_floor quad world0)) !! "normal"
  = Some quadNormals.
Proof. vm_compute. reflexivity. Qed.

(** So are the normals of the quad that came with other numbers, NaN
    and infinities among them, in its normal attribute. *)
Example computeVertexNormals_quad_other_normals :
  BufferAttribute.array
    <$> BufferGeometry.attributes
          (fst (computeVertexNormals sqrt_floor
                  (setAttribute quad "normal" quadOtherNormals) world0))
          !! "normal"
  = Some quadNormals.
Proof. vm_compute. reflexivity. Qed.

(** The box of two vertices with infinite coordinates and a relative morph
    target. *)
Example computeBoundingBox_infinitePoints :
  BufferGeometry.boundingBox (fst (computeBoundingBox infinitePoints world0))
  = Some (Box3.make (Vector3.make (Fin 1) (Fin 0) NegInf)
                    (Vector3.make PosInf (Fin 3) (Fin 1))).
Proof. vm_compute. reflexivity. Qed.

(** The tangents of the quad: direction [+x], handedness [+1]. *)
Example computeTangents_quad :
  BufferAttribute.array
    <$> BufferGeometry.attributes
          (stateOf (fst (computeTangents sqrt_floor quad world0))) !! "tangent"
  = Some [Fin 1; Fin 0; Fin 0; Fin 1;   Fin 1; Fin 0; Fin 0; Fin 1;
          Fin 1; Fin 0; Fin 0; Fin 1;   Fin 1; Fin 0; Fin 0; Fin 1].
Proof. vm_compute. reflexivity. Qed.

(** An index entry beyond the position buffer makes [computeTangents]
    throw at the first vertex it cannot find. *)
Example computeTangents_index_out_of_range :
  exists g, fst (computeTangents sqrt_floor quadBadIndex world0) = Throw g.
Proof. eexists. vm_compute. reflexivity. Qed.

(** * More of the code *)

(** ** Whole numbers among the numbers *)

Lemma Qred_inject_Z (z : Z) : Qred (inject_Z z) = inject_Z z.
Proof.
  unfold Qred, inject_Z.
  pose proof (Z.ggcd_gcd z 1) as Hg.
  pose proof (Z.ggcd_correct_divisors z 1) as Hd.
  destruct (Z.ggcd z 1) as [g [aa bb]]. cbn [fst snd] in *.
  rewrite Z.gcd_1_r in Hg. subst g. destruct Hd as [Ha Hb].
  rewrite Z.mul_1_l in Ha, Hb. subst aa bb. reflexivity.
Qed.

Lemma add_ofNat (a b : nat) : (ofNat a + ofNat b)%num = ofNat (a + b).
Proof.
  unfold ofNat, ofZ. cbn [add]. f_equal.
  rewrite <- (Qred_inject_Z (Z.of_nat (a + b))). apply Qred_complete.
  rewrite Nat2Z.inj_add, inject_Z_plus. reflexivity.
Qed.

Lemma mul_ofNat (a b : nat) : (ofNat a * ofNat b)%num = ofNat (a * b).
Proof.
  unfold ofNat, ofZ. cbn [mul]. f_equal.
  rewrite <- (Qred_inject_Z (Z.of_nat (a * b))). apply Qred_complete.
  rewrite Nat2Z.inj_mul, inject_Z_mult. reflexivity.
Qed.

Lemma ofNat_succ (n : nat) : (ofNat n + one)%num = ofNat (S n).
Proof. change one with (ofNat 1). rewrite add_ofNat. f_equal. lia. Qed.

Lemma Math_floor_ofNat (n : nat) : Math_floor (ofNat n) = ofNat n.
Proof. unfold ofNat, ofZ. cbn [Math_floor]. rewrite Qfloor_Z. reflexivity. Qed.

Lemma tripCount_ofNat (n : nat) : tripCount (ofNat n) = Some n.
Proof.
  unfold ofNat, ofZ. cbn [tripCount]. rewrite Qceiling_Z, Nat2Z.id. reflexivity.
Qed.

Lemma toIndex_ofNat (n : nat) : toIndex (ofNat n) = n.
Proof. unfold ofNat, ofZ. cbn [toIndex]. rewrite Qfloor_Z, Nat2Z.id. reflexivity. Qed.

(** ** Loops that end *)

Lemma iterate_app {S} (body : S -> nat -> option S) (l1 l2 : list nat) (s : S) :
  iterate body (l1 ++ l2) s = iterate body l1 s ≫= iterate body l2.
Proof.
  revert s. induction l1 as [|i l1 IH]; intros s; [reflexivity|].
  cbn [app iterate]. destruct (body s i); [apply IH | reflexivity].
Qed.

(** A counted loop whose every round returns keeps, after [n] rounds, a
    relation [R n] that each round carries one step further. *)
Lemma iterate_seq_rel {S} (body : S -> nat -> option S)
    (R : nat -> S -> Prop) (n : nat) (s : S) :
  R 0 s ->
  (forall k s1, k < n -> R k s1 -> exists s2, body s1 k = Some s2 /\ R (Datatypes.S k) s2) ->
  exists s', iterate body (seq 0 n) s = Some s' /\ R n s'.
Proof.
  intros H0 Hstep. induction n as [|n IH].
  - exists s. split; [reflexivity|exact H0].
  - destruct IH as (s1 & Hs1 & HR1).
    { intros k s1 Hk. apply Hstep. lia. }
    destruct (Hstep n s1 (Nat.lt_succ_diag_r n) HR1) as (s2 & Hs2 & HR2).
    exists s2. split; [|exact HR2].
    rewrite seq_S, iterate_app, Hs1. cbn. rewrite Hs2. reflexivity.
Qed.

Lemma forUpTo_ofNat_rel {S} (body : S -> nat -> option S)
    (R : nat -> S -> Prop) (n : nat) (s : S) :
  R 0 s ->
  (forall k s1, k < n -> R k s1 -> exists s2, body s1 k = Some s2 /\ R (Datatypes.S k) s2) ->
  exists s', forUpTo (ofNat n) body s = Some s' /\ R n s'.
Proof.
  intros H0 Hstep. unfold forUpTo. rewrite tripCount_ofNat.
  apply iterate_seq_rel; assumption.
Qed.

(** ** One face of the box *)

Lemma buildPlane_ofNat (u v w : axis) (udir vdir width height depth : number)
    (gx gy materialIndex : nat) (st : Builder) :
  exists st',
    buildPlane u v w udir vdir width height depth (ofNat gx) (ofNat gy)
      materialIndex st = Some st' /\
    planeAdds gx gy materialIndex st st'.
Proof.
  unfold buildPlane. rewrite !ofNat_succ.
  (* the vertex loop *)
  match goal with |- context [forUpTo (ofNat (S gy)) ?body ?s0] =>
    destruct (forUpTo_ofNat_rel body
      (fun k s => exists vec vs ns us,
         s = (vec, vertices st ++ vs, normals st ++ ns, uvs st ++ us, S gx * k)
         /\ length vs = 3 * (S gx * k) /\ length ns = 3 * (S gx * k)
         /\ length us = 2 * (S gx * k)) (S gy) s0) as (s1 & -> & HR1)
  end.
  { exists Vector3.new, [], [], []. rewrite !app_nil_r, Nat.mul_0_r. auto. }
  { intros k s1 Hk (vec & vs & ns & us & -> & Hvs & Hns & Hus).
    match goal with |- context [forUpTo (ofNat (S gx)) ?body ?s0] =>
      destruct (forUpTo_ofNat_rel body
        (fun j s => exists vec vs' ns' us',
           s = (vec, vertices st ++ vs', normals st ++ ns', uvs st ++ us',
                S gx * k + j)
           /\ length vs' = 3 * (S gx * k + j) /\ length ns' = 3 * (S gx * k + j)
           /\ length us' = 2 * (S gx * k + j)) (S gx) s0) as (s2 & Hs2 & HR2)
    end.
    - exists vec, vs, ns, us. rewrite Nat.add_0_r. auto.
    - intros j s2 Hj (vec' & vs' & ns' & us' & -> & Hvs' & Hns' & Hus').
      eexists. split; [reflexivity|].
      eexists _, (vs' ++ [_; _; _]), (ns' ++ [_; _; _]), ((us' ++ [_]) ++ [_]).
      rewrite <- !app_assoc. split.
      { apply (f_equal2 pair); [reflexivity | lia]. }
      rewrite !length_app. cbn [length]. lia.
    - exists s2. split; [exact Hs2|].
      destruct HR2 as (vec' & vs' & ns' & us' & -> & Hvs' & Hns' & Hus').
      exists vec', vs', ns', us'. split; [f_equal; lia|]. lia. }
  destruct HR1 as (vec & vs & ns & us & -> & Hvs & Hns & Hus).
  (* the index loop *)
  match goal with |- context [forUpTo (ofNat gy) ?body ?s0] =>
    destruct (forUpTo_ofNat_rel body
      (fun k s => exists new,
         s = (indices st ++ new, 6 * (gx * k)) /\ length new = 6 * (gx * k)
         /\ Forall (fun n => toIndex n < numberOfVertices st + S gx * S gy) new)
      gy s0) as (s3 & -> & HR3)
  end.
  { exists []. rewrite app_nil_r, Nat.mul_0_r. auto. }
  { intros k s3 Hk (new & -> & Hnew & Hall).
    match goal with |- context [forUpTo (ofNat gx) ?body ?s0] =>
      destruct (forUpTo_ofNat_rel body
        (fun j s => exists new',
           s = (indices st ++ new', 6 * (gx * k + j))
           /\ length new' = 6 * (gx * k + j)
           /\ Forall (fun n => toIndex n < numberOfVertices st + S gx * S gy) new')
        gx s0) as (s4 & Hs4 & HR4)
    end.
    - exists new. rewrite Nat.add_0_r. auto.
    - intros j s4 Hj (new' & -> & Hnew' & Hall').
      eexists. split; [reflexivity|].
      eexists ((new' ++ [_; _; _]) ++ [_; _; _]).
      rewrite <- !app_assoc. split.
      { apply (f_equal2 pair); [reflexivity | lia]. }
      split; [rewrite !length_app; cbn [length]; lia|].
      rewrite !ofNat_succ, !add_ofNat, !mul_ofNat, !add_ofNat.
      rewrite !Forall_app. split; [exact Hall'|].
      split; repeat constructor; rewrite toIndex_ofNat; nia.
    - exists s4. split; [exact Hs4|].
      destruct HR4 as (new' & -> & Hnew' & Hall').
      exists new'. split; [f_equal; lia|]. split; [lia|exact Hall']. }
  destruct HR3 as (new & -> & Hnew & Hall).
  eexists. split; [reflexivity|].
  constructor; cbn.
  - exists vs. split; [reflexivity|]. lia.
  - exists ns. split; [reflexivity|]. lia.
  - exists us. split; [reflexivity|]. lia.
  - exists new. auto.
  - lia.
  - reflexivity.
  - reflexivity.
Qed.

(** ** The whole box *)

Lemma BoxGeometry_built (width height depth ws hs ds : number) (w h d : nat)
    (world : World) :
  Math_floor ws = ofNat w -> Math_floor hs = ofNat h -> Math_floor ds = ofNat d ->
  exists st,
    BoxGeometry width height depth ws hs ds world =
      (Some (setAttribute
               (setAttribute
                  (setAttribute
                     (setIndex (scope st) (IndexArray (map toIndex (indices st))))
                     "position" (Float32BufferAttribute (vertices st) 3))
                  "normal" (Float32BufferAttribute (normals st) 3))
               "uv" (Float32BufferAttribute (uvs st) 2)),
       snd (constructor world)) /\
    length (vertices st) = 3 * boxVertexCount w h d /\
    length (normals st) = 3 * boxVertexCount w h d /\
    length (uvs st) = 2 * boxVertexCount w h d /\
    length (indices st) = boxIndexCount w h d /\
    Forall (fun n => toIndex n < boxVertexCount w h d) (indices st) /\
    BufferGeometry.groups (scope st) = boxGroups w h d /\
    BufferGeometry.with_groups (scope st) [] =
      BufferGeometry.with_parameters
        (BufferGeometry.with_type (fst (constructor world)) "BoxGeometry")
        (Some (Parameters.make width height depth ws hs ds)).
Proof.
  intros Hw Hh Hd. unfold BoxGeometry. rewrite Hw, Hh, Hd.
  cbv beta iota zeta delta [bind constructor nextId generateUUID ret].
  cbn [mbind option_bind fst snd].
  match goal with |- context [buildPlane _ _ _ _ _ _ _ _ _ _ 0 ?st] =>
    destruct (buildPlane_ofNat AxisZ AxisY AxisX (Fin (-1)) (Fin (-1))
                depth height width d h 0 st)
      as (s1 & -> & [V1 N1 U1 I1 C1 G1 S1]) end.
  cbn [mbind option_bind].
  destruct (buildPlane_ofNat AxisZ AxisY AxisX one (Fin (-1))
              depth height (- width)%num d h 1 s1) as (s2 & -> & [V2 N2 U2 I2 C2 G2 S2]).
  cbn [mbind option_bind].
  destruct (buildPlane_ofNat AxisX AxisZ AxisY one one
              width depth height w d 2 s2) as (s3 & -> & [V3 N3 U3 I3 C3 G3 S3]).
  cbn [mbind option_bind].
  destruct (buildPlane_ofNat AxisX AxisZ AxisY one (Fin (-1))
              width depth (- height)%num w d 3 s3) as (s4 & -> & [V4 N4 U4 I4 C4 G4 S4]).
  cbn [mbind option_bind].
  destruct (buildPlane_ofNat AxisX AxisY AxisZ one (Fin (-1))
              width height depth w h 4 s4) as (s5 & -> & [V5 N5 U5 I5 C5 G5 S5]).
  cbn [mbind option_bind].
  destruct (buildPlane_ofNat AxisX AxisY AxisZ (Fin (-1)) (Fin (-1))
              width height (- depth)%num w h 5 s5) as (s6 & -> & [V6 N6 U6 I6 C6 G6 S6]).
  exists s6. split; [reflexivity|].
  cbn [vertices normals uvs indices numberOfVertices groupStart scope] in *.
  destruct V1 as (v1 & V1 & ?), V2 as (v2 & V2 & ?), V3 as (v3 & V3 & ?),
           V4 as (v4 & V4 & ?), V5 as (v5 & V5 & ?), V6 as (v6 & V6 & ?).
  destruct N1 as (n1 & N1 & ?), N2 as (n2 & N2 & ?), N3 as (n3 & N3 & ?),
           N4 as (n4 & N4 & ?), N5 as (n5 & N5 & ?), N6 as (n6 & N6 & ?).
  destruct U1 as (u1 & U1 & ?), U2 as (u2 & U2 & ?), U3 as (u3 & U3 & ?),
           U4 as (u4 & U4 & ?), U5 as (u5 & U5 & ?), U6 as (u6 & U6 & ?).
  destruct I1 as (i1 & I1 & ? & F1), I2 as (i2 & I2 & ? & F2),
           I3 as (i3 & I3 & ? & F3), I4 as (i4 & I4 & ? & F4),
           I5 as (i5 & I5 & ? & F5), I6 as (i6 & I6 & ? & F6).
  unfold boxVertexCount, boxIndexCount, boxGroups.
  rewrite V6, V5, V4, V3, V2, V1, N6, N5, N4, N3, N2, N1,
          U6, U5, U4, U3, U2, U1, I6, I5, I4, I3, I2, I1.
  rewrite !length_app. cbn [length app].
  repeat split; try lia.
  - rewrite !Forall_app.
    repeat split;
      match goal with
      | F : Forall _ ?l |- Forall _ ?l =>
          apply (Forall_impl _ _ _ F); intros n Hn; lia
      end.
  - rewrite S6, S5, S4, S3, S2, S1. unfold addGroup. cbn -[Nat.mul Nat.add].
    rewrite G5, G4, G3, G2, G1.
    repeat (apply (f_equal2 cons); [apply (f_equal3 Group.make); lia|]).
    reflexivity.
  - rewrite S6, S5, S4, S3, S2, S1. reflexivity.
Qed.

Lemma attributes_box (this : BufferGeometry.t) (ix : indexArgument)
    (p n u : BufferAttribute.t) :
  let g :=
    setAttribute (setAttribute (setAttribute (setIndex this ix) "position" p)
                    "normal" n) "uv" u in
  getAttribute g "position" = Some p /\ getAttribute g "normal" = Some n /\
  getAttribute g "uv" = Some u /\
  BufferGeometry.groups g = BufferGeometry.groups this.
Proof.
  cbv zeta. unfold getAttribute, setAttribute. cbn.
  repeat split.
  - rewrite lookup_insert_ne by discriminate.
    rewrite lookup_insert_ne by discriminate.
    apply lookup_insert_eq.
  - rewrite lookup_insert_ne by discriminate. apply lookup_insert_eq.
  - apply lookup_insert_eq.
  - destruct ix; reflexivity.
Qed.

Lemma count_Float32BufferAttribute (l : list number) (k n : nat) :
  k <> 0 -> length l = k * n ->
  BufferAttribute.count (Float32BufferAttribute l k) = n.
Proof.
  intros Hk Hl.
  unfold BufferAttribute.count, Float32BufferAttribute,
    BufferAttribute.Float32Array_from.
  cbn. rewrite length_map, Hl, Nat.mul_comm. apply Nat.div_mul. exact Hk.
Qed.

(** X1: a box whose segment counts round down to the naturals [w], [h] and
    [d] is built with [2((d+1)(h+1) + (w+1)(d+1) + (w+1)(h+1))] vertices in
    each of position, normal and uv, and [12(dh + wd + wh)] index entries. *)
Theorem BoxGeometry_buffer_sizes (width height depth ws hs ds : number)
    (w h d : nat) (world : World) :
  Math_floor ws = ofNat w -> Math_floor hs = ofNat h -> Math_floor ds = ofNat d ->
  exists g,
    fst (BoxGeometry width height depth ws hs ds world) = Some g /\
    BufferAttribute.count <$> getAttribute g "position"
      = Some (boxVertexCount w h d) /\
    BufferAttribute.count <$> getAttribute g "normal"
      = Some (boxVertexCount w h d) /\
    BufferAttribute.count <$> getAttribute g "uv"
      = Some (boxVertexCount w h d) /\
    IndexAttribute.count <$> getIndex g = Some (boxIndexCount w h d).
Proof.
  intros Hw Hh Hd.
  destruct (BoxGeometry_built width height depth ws hs ds w h d world Hw Hh Hd)
    as (st & -> & Hv & Hn & Hu & Hi & _).
  eexists. split; [reflexivity|].
  match goal with |- context [setAttribute (setAttribute (setAttribute
      (setIndex ?t ?ix) _ ?p) _ ?n) _ ?u] =>
    destruct (attributes_box t ix p n u) as (-> & -> & -> & _) end.
  cbn [fmap option_fmap option_map].
  rewrite !(count_Float32BufferAttribute _ _ (boxVertexCount w h d)) by (auto; lia).
  repeat split.
  unfold getIndex, setAttribute, setIndex. cbn.
  unfold IndexAttribute.count. cbn. rewrite length_map, Hi. reflexivity.
Qed.


(** X3: every entry of the index buffer of a box names one of its
    vertices. *)
Theorem BoxGeometry_index_in_range (width height depth ws hs ds : number)
    (w h d : nat) (world : World) :
  Math_floor ws = ofNat w -> Math_floor hs = ofNat h -> Math_floor ds = ofNat d ->
  exists g ix p,
    fst (BoxGeometry width height depth ws hs ds world) = Some g /\
    getIndex g = Some ix /\ getAttribute g "position" = Some p /\
    Forall (fun i => i < BufferAttribute.count p) (IndexAttribute.array ix).
Proof.
  intros Hw Hh Hd.
  destruct (BoxGeometry_built width height depth ws hs ds w h d world Hw Hh Hd)
    as (st & -> & Hv & _ & _ & _ & Hall & _).
  eexists _, _, _. split; [reflexivity|].
  match goal with |- context [setAttribute (setAttribute (setAttribute
      (setIndex ?t ?ix) _ ?p) _ ?n) _ ?u] =>
    destruct (attributes_box t ix p n u) as (-> & _) end.
  split; [reflexivity|]. split; [reflexivity|].
  cbn [IndexAttribute.array].
  rewrite (count_Float32BufferAttribute _ _ (boxVertexCount w h d)) by (auto; lia).
  rewrite Forall_map. exact Hall.
Qed.

(** ** Boxes that are never finished *)



Lemma forUpTo_PosInf {S} (body : S -> nat -> option S) (s : S) :
  forUpTo PosInf body s = None.
Proof. reflexivity. Qed.






Lemma buildPlane_gridY_PosInf (u v w : axis)
    (udir vdir width height depth gridX : number) (materialIndex : nat)
    (st : Builder) :
  buildPlane u v w udir vdir width height depth gridX PosInf materialIndex st
    = None.
Proof. reflexivity. Qed.

(** X5: with a height or depth segment count of [+Infinity] the
    constructor never returns: the row loop of a face has no last round. *)
Theorem BoxGeometry_never_returns (width height depth ws hs ds : number)
    (world : World) :
  hs = PosInf \/ ds = PosInf ->
  fst (BoxGeometry width height depth ws hs ds world) = None.
Proof.
  intros [-> | ->]; unfold BoxGeometry;
    cbv beta iota zeta delta [bind constructor nextId generateUUID ret];
    cbn [Math_floor mbind option_bind].
  - rewrite buildPlane_gridY_PosInf. reflexivity.
  - repeat (match goal with
    | |- context [buildPlane ?u ?v ?w ?ud ?vd ?wi ?he ?de ?gx ?gy ?m ?st] =>
        rewrite (buildPlane_gridY_PosInf u v w ud vd wi he de gx m st)
        || destruct (buildPlane u v w ud vd wi he de gx gy m st)
    end; cbn [mbind option_bind]; try reflexivity).
Qed.

(** ** Reading back what [setXYZ] wrote *)

Lemma cell_in_range (a : BufferAttribute.t) (i k : nat) :
  BufferAttribute.wf a ->
  BufferAttribute.offset a + 3 <= BufferAttribute.stride a ->
  i < BufferAttribute.count a -> k < 3 ->
  BufferAttribute.cell a i k < length (BufferAttribute.array a).
Proof.
  intros [Hs Hm] Ho Hi Hk. unfold BufferAttribute.cell, BufferAttribute.count in *.
  apply Nat.Div0.div_exact in Hm.
  set (s := BufferAttribute.stride a) in *.
  set (n := length (BufferAttribute.array a)) in *.
  set (c := n / s) in *.
  assert (S i * s <= c * s) by (apply Nat.mul_le_mono_r; lia).
  lia.
Qed.

Lemma read_with_array (a : BufferAttribute.t) (l : list number) (i k : nat) :
  BufferAttribute.read (BufferAttribute.with_array a l) (Some i) k
  = default NaN (l !! (i * BufferAttribute.stride a + BufferAttribute.offset a + k)).
Proof. reflexivity. Qed.

Lemma fromBufferAttribute_setXYZ_same (a : BufferAttribute.t) (i : nat)
    (x y z : number) :
  BufferAttribute.cell a i 2 < length (BufferAttribute.array a) ->
  Vector3.fromBufferAttribute (BufferAttribute.setXYZ a (Some i) x y z) (Some i)
  = Vector3_toElement (BufferAttribute.elementType a) (Vector3.make x y z).
Proof.
  intros H. rewrite setXYZ_array.
  unfold Vector3.fromBufferAttribute, BufferAttribute.getX, BufferAttribute.getY,
    BufferAttribute.getZ, BufferAttribute.cell in *.
  rewrite !read_with_array.
  unfold Vector3_toElement. cbn [Vector3.x Vector3.y Vector3.z].
  f_equal.
  - rewrite list_lookup_insert_ne by lia.
    rewrite list_lookup_insert_ne by lia.
    rewrite list_lookup_insert_eq by lia. reflexivity.
  - rewrite list_lookup_insert_ne by lia.
    rewrite list_lookup_insert_eq by (rewrite length_insert; lia). reflexivity.
  - rewrite list_lookup_insert_eq by (rewrite !length_insert; lia). reflexivity.
Qed.

Lemma fromBufferAttribute_setXYZ_other (a : BufferAttribute.t) (i j : nat)
    (x y z : number) :
  3 <= BufferAttribute.stride a -> i <> j ->
  Vector3.fromBufferAttribute (BufferAttribute.setXYZ a (Some i) x y z) (Some j)
  = Vector3.fromBufferAttribute a (Some j).
Proof.
  intros Hs Hij. rewrite setXYZ_array.
  unfold Vector3.fromBufferAttribute, BufferAttribute.getX, BufferAttribute.getY,
    BufferAttribute.getZ.
  rewrite !read_with_array.
  unfold BufferAttribute.read, BufferAttribute.cell.
  set (s := BufferAttribute.stride a) in *.
  assert (i * s + 3 <= j * s \/ j * s + 3 <= i * s) as Hfar.
  { destruct (Nat.lt_ge_cases i j) as [Hlt|Hge].
    - left. assert (S i * s <= j * s) by (apply Nat.mul_le_mono_r; lia). lia.
    - right. assert (S j * s <= i * s) by (apply Nat.mul_le_mono_r; lia). lia. }
  f_equal; rewrite !list_lookup_insert_ne by lia; reflexivity.
Qed.

(** ** setFromPoints *)

Lemma foldl_push_flat_map {A B} (f : A -> list B) (l : list A) (acc : list B) :
  foldl (fun acc a => acc ++ f a) acc l = acc ++ flat_map f l.
Proof.
  revert acc. induction l as [|a l IH]; intros acc; cbn [foldl flat_map].
  - symmetry. apply app_nil_r.
  - rewrite IH, app_assoc. reflexivity.
Qed.

Lemma map_seq_lookup {A B} (F : nat -> B) (G : A -> B) (l : list A) :
  (forall i x, l !! i = Some x -> F i = G x) ->
  map F (seq 0 (length l)) = map G l.
Proof.
  intros H. apply list_eq. intros i.
  rewrite !list_lookup_fmap.
  destruct (l !! i) as [x|] eqn:E.
  - rewrite lookup_seq_lt by (apply lookup_lt_Some in E; exact E).
    cbn. f_equal. apply H. exact E.
  - rewrite lookup_seq_ge by (apply lookup_ge_None in E; lia). reflexivity.
Qed.

Lemma Float32Array_from_flat_map {A} (f : A -> list number) (l : list A) :
  BufferAttribute.Float32Array_from (flat_map f l)
  = flat_map (fun a => map Math_fround (f a)) l.
Proof.
  unfold BufferAttribute.Float32Array_from.
  induction l as [|a l IH]; [reflexivity|].
  cbn [flat_map]. rewrite map_app, IH. reflexivity.
Qed.

(** X6: on a geometry without a position attribute, [setFromPoints] makes
    one over 32-bit floats, of item size 3, holding one vertex per point in
    order: the point's [(x, y, z || 0)] rounded to 32-bit floats; it logs
    nothing. *)
Theorem setFromPoints_creates_position (this : BufferGeometry.t)
    (points : list point) (world : World) :
  getAttribute this "position" = None ->
  exists p,
    setFromPoints this points world = (setAttribute this "position" p, world) /\
    BufferAttribute.elementType p = BufferAttribute.Float32 /\
    BufferAttribute.itemSize p = 3 /\
    BufferAttribute.count p = length points /\
    verticesOf p
    = map (fun pt => Vector3_toElement BufferAttribute.Float32 (pointVertex pt))
          points.
Proof.
  intros Hnone. unfold setFromPoints. rewrite Hnone.
  rewrite (foldl_push_flat_map
             (fun point => [point_x point; point_y point; point_z_or_0 point])).
  cbn [app]. eexists. split; [reflexivity|]. split; [reflexivity|].
  split; [reflexivity|].
  unfold Float32BufferAttribute. rewrite Float32Array_from_flat_map.
  set (f := fun point => map Math_fround
                           [point_x point; point_y point; point_z_or_0 point]).
  assert (forall a, length (f a) = 3) as Hf by reflexivity.
  assert (BufferAttribute.count
            (BufferAttribute.new BufferAttribute.Float32 (flat_map f points) 3 false)
          = length points) as Hcount.
  { unfold BufferAttribute.count.
    change (length (flat_map f points) / 3 = length points).
    rewrite (length_flat_map_fixed f 3) by exact Hf. apply Nat.div_mul. lia. }
  split; [exact Hcount|].
  unfold verticesOf. rewrite Hcount. apply map_seq_lookup.
  intros i x Hx.
  unfold Vector3.fromBufferAttribute, BufferAttribute.getX, BufferAttribute.getY,
    BufferAttribute.getZ, BufferAttribute.read, BufferAttribute.cell.
  cbn [BufferAttribute.array BufferAttribute.new BufferAttribute.stride
       BufferAttribute.offset BufferAttribute.interleaved BufferAttribute.itemSize].
  rewrite <- !Nat.add_assoc. cbn [Nat.add].
  rewrite !(lookup_flat_map_fixed f 3) by (exact Hf || lia).
  rewrite Hx. reflexivity.
Qed.

Lemma setPoints_loop (pts : list point) :
  forall (a : BufferAttribute.t) (i0 : nat),
  exists l,
    foldl (fun '(a, i) point =>
             (BufferAttribute.setXYZ a (Some i)
                (point_x point) (point_y point) (point_z_or_0 point), S i))
          (a, i0) pts
    = (BufferAttribute.with_array a l, i0 + length pts) /\
    length l = length (BufferAttribute.array a) /\
    (3 <= BufferAttribute.stride a ->
     forall j, j < i0 \/ i0 + length pts <= j ->
       Vector3.fromBufferAttribute (BufferAttribute.with_array a l) (Some j)
       = Vector3.fromBufferAttribute a (Some j)) /\
    (3 <= BufferAttribute.stride a ->
     forall k pt, pts !! k = Some pt ->
       BufferAttribute.cell a (i0 + k) 2 < length (BufferAttribute.array a) ->
       Vector3.fromBufferAttribute (BufferAttribute.with_array a l) (Some (i0 + k))
       = Vector3_toElement (BufferAttribute.elementType a) (pointVertex pt)).
Proof.
  induction pts as [|pt pts IH]; intros a i0.
  - exists (BufferAttribute.array a). cbn [foldl length].
    rewrite Nat.add_0_r. destruct a; cbn. repeat split; try reflexivity.
    intros _ k pt Hk. discriminate.
  - cbn [foldl].
    set (a1 := BufferAttribute.setXYZ a (Some i0)
                 (point_x pt) (point_y pt) (point_z_or_0 pt)).
    destruct (IH a1 (S i0)) as (l & Hl & Hlen & Hframe & Hhit).
    assert (length (BufferAttribute.array a1) = length (BufferAttribute.array a))
      as Hlen1.
    { unfold a1. rewrite setXYZ_array. cbn. rewrite !length_insert. reflexivity. }
    assert (BufferAttribute.with_array a1 l = BufferAttribute.with_array a l)
      as Hwa by reflexivity.
    assert (BufferAttribute.stride a1 = BufferAttribute.stride a) as Hs1
      by reflexivity.
    exists l. rewrite Hl, Hwa in *. cbn [length].
    split; [f_equal; lia|]. split; [lia|]. split.
    + intros Hs j Hj. rewrite Hframe by (rewrite ?Hs1; cbn [length] in Hj; lia).
      apply fromBufferAttribute_setXYZ_other; [exact Hs|]. cbn [length] in Hj. lia.
    + intros Hs [|k] p Hp Hin.
      * cbn in Hp. injection Hp as <-. rewrite Nat.add_0_r in *.
        rewrite Hframe by (rewrite ?Hs1; lia).
        apply fromBufferAttribute_setXYZ_same. exact Hin.
      * replace (i0 + S k) with (S i0 + k) in * by lia.
        apply Hhit; [rewrite Hs1; exact Hs|exact Hp|].
        rewrite Hlen1. exact Hin.
Qed.

(** X7: on a geometry whose position attribute is well formed and has room
    for three components per vertex, [setFromPoints] writes point [i] to
    vertex [i] for every point that fits, converted to the element type of
    the buffer, and leaves the vertices beyond the points as they were. *)
Theorem setFromPoints_overwrites_prefix (this : BufferGeometry.t)
    (a : BufferAttribute.t) (points : list point) (world : World) :
  getAttribute this "position" = Some a ->
  BufferAttribute.wf a ->
  BufferAttribute.offset a + 3 <= BufferAttribute.stride a ->
  exists p,
    fst (setFromPoints this points world) = setAttribute this "position" p /\
    (forall i pt, i < BufferAttribute.count a -> points !! i = Some pt ->
       Vector3.fromBufferAttribute p (Some i)
       = Vector3_toElement (BufferAttribute.elementType a) (pointVertex pt)) /\
    (forall i, length points <= i ->
       Vector3.fromBufferAttribute p (Some i)
       = Vector3.fromBufferAttribute a (Some i)).
Proof.
  intros Ha Hwf Ho. unfold setFromPoints. rewrite Ha.
  set (n := Nat.min (length points) (BufferAttribute.count a)).
  destruct (setPoints_loop (take n points) a 0) as (l & -> & Hlen & Hframe & Hhit).
  exists (BufferAttribute.needsUpdate (BufferAttribute.with_array a l)).
  split; [destruct (_ <? _); reflexivity|].
  assert (3 <= BufferAttribute.stride a) as Hs by lia.
  split.
  - intros i pt Hi Hpt. rewrite fromBufferAttribute_needsUpdate.
    apply (Hhit Hs i pt).
    + rewrite lookup_take_lt; [exact Hpt|].
      apply lookup_lt_Some in Hpt. unfold n. lia.
    + apply cell_in_range; [exact Hwf|exact Ho|exact Hi|lia].
  - intros i Hi. rewrite fromBufferAttribute_needsUpdate.
    apply Hframe; [exact Hs|]. right. rewrite length_take. unfold n. lia.
Qed.

(** X8: on a geometry that has a position attribute, [setFromPoints]
    keeps the length of its array, counts one more version, and logs the
    buffer-too-small warning exactly when there are more points than
    vertices, and nothing otherwise. *)
Theorem setFromPoints_never_grows (this : BufferGeometry.t)
    (a : BufferAttribute.t) (points : list point) (world : World) :
  getAttribute this "position" = Some a ->
  exists p,
    fst (setFromPoints this points world) = setAttribute this "position" p /\
    length (BufferAttribute.array p) = length (BufferAttribute.array a) /\
    BufferAttribute.version p = S (BufferAttribute.version a) /\
    console (snd (setFromPoints this points world))
    = console world ++
      (if BufferAttribute.count a <? length points then [bufferTooSmall] else []).
Proof.
  intros Ha. unfold setFromPoints. rewrite Ha.
  set (n := Nat.min (length points) (BufferAttribute.count a)).
  destruct (setPoints_loop (take n points) a 0) as (l & -> & Hlen & _).
  exists (BufferAttribute.needsUpdate (BufferAttribute.with_array a l)).
  destruct (_ <? _); cbn; rewrite ?app_nil_r; auto.
Qed.

(** ** copy and clone *)

Section CopyFacts.

Variable BufferAttribute_clone : BufferAttribute.t -> BufferAttribute.t.
Variable IndexAttribute_clone : IndexAttribute.t -> IndexAttribute.t.

Lemma map_fold_setAttribute (f : BufferAttribute.t -> BufferAttribute.t)
    (g0 : BufferGeometry.t) (attributes : gmap string BufferAttribute.t) :
  map_fold (fun name attribute this => setAttribute this name (f attribute))
           g0 attributes
  = BufferGeometry.with_attributes g0
      ((f <$> attributes) ∪ BufferGeometry.attributes g0).
Proof.
  apply (map_fold_weak_ind
           (fun r m => r = BufferGeometry.with_attributes g0
                             ((f <$> m) ∪ BufferGeometry.attributes g0))).
  - rewrite fmap_empty, (left_id_L ∅ (∪)). destruct g0; reflexivity.
  - intros i x m r Hi ->. unfold setAttribute. cbn.
    rewrite fmap_insert, insert_union_l. reflexivity.
Qed.

Lemma map_fold_morphAttributes (f : BufferAttribute.t -> BufferAttribute.t)
    (g0 : BufferGeometry.t)
    (morphAttributes : gmap string (list BufferAttribute.t)) :
  map_fold (fun name morphAttribute this =>
              let array := map f morphAttribute in
              BufferGeometry.with_morphAttributes this
                (<[name := array]> (BufferGeometry.morphAttributes this)))
           g0 morphAttributes
  = BufferGeometry.with_morphAttributes g0
      ((map f <$> morphAttributes) ∪ BufferGeometry.morphAttributes g0).
Proof.
  apply (map_fold_weak_ind
           (fun r m => r = BufferGeometry.with_morphAttributes g0
                             ((map f <$> m) ∪ BufferGeometry.morphAttributes g0))).
  - rewrite fmap_empty, (left_id_L ∅ (∪)). destruct g0; reflexivity.
  - intros i x m r Hi ->. cbn.
    rewrite fmap_insert, insert_union_l. reflexivity.
Qed.

Lemma copy_closed_form (this source : BufferGeometry.t) :
  copy BufferAttribute_clone IndexAttribute_clone this source
  = BufferGeometry.make
      (BufferGeometry.id this) (BufferGeometry.uuid this)
      (BufferGeometry.name source) (BufferGeometry.type this)
      (IndexAttribute_clone <$> BufferGeometry.index source)
      (BufferGeometry.indirect this)
      (BufferAttribute_clone <$> BufferGeometry.attributes source)
      (map BufferAttribute_clone <$> BufferGeometry.morphAttributes source)
      (BufferGeometry.morphTargetsRelative source)
      (BufferGeometry.groups source)
      (BufferGeometry.boundingBox source)
      (BufferGeometry.boundingSphere source)
      (BufferGeometry.drawRange source)
      (BufferGeometry.userData source)
      (BufferGeometry.parameters this).
Proof.
  unfold copy. cbv zeta.
  rewrite map_fold_setAttribute, map_fold_morphAttributes, copy_groups.
  destruct source as [sid suuid sname stype [six|] sind sattrs smorph srel sgroups
                        [sbox|] [ssphere|] [dstart dcount] sdata sparams];
    cbn; rewrite !(right_id_L ∅ (∪)); reflexivity.
Qed.

(** X9: [copy] makes the receiver a copy of the source in everything but
    its id, uuid, type, indirect buffer and parameters, which stay the
    receiver's; nothing of the receiver's earlier index, attributes, morph
    targets, groups or bounds survives. *)
Theorem copy_takes_all_but_identity (this source : BufferGeometry.t) :
  copy BufferAttribute_clone IndexAttribute_clone this source
  = BufferGeometry.make
      (BufferGeometry.id this) (BufferGeometry.uuid this)
      (BufferGeometry.name source) (BufferGeometry.type this)
      (IndexAttribute_clone <$> BufferGeometry.index source)
      (BufferGeometry.indirect this)
      (BufferAttribute_clone <$> BufferGeometry.attributes source)
      (map BufferAttribute_clone <$> BufferGeometry.morphAttributes source)
      (BufferGeometry.morphTargetsRelative source)
      (BufferGeometry.groups source)
      (BufferGeometry.boundingBox source)
      (BufferGeometry.boundingSphere source)
      (BufferGeometry.drawRange source)
      (BufferGeometry.userData source)
      (BufferGeometry.parameters this).
Proof. apply copy_closed_form. Qed.

(** X10: two clones of a geometry taken one after the other get
    different ids, and differ in nothing but id and uuid. *)
Theorem clone_twice_differs_in_identity_only (this : BufferGeometry.t)
    (world : World) :
  let (g1, world1) := clone BufferAttribute_clone IndexAttribute_clone this world in
  let (g2, _) := clone BufferAttribute_clone IndexAttribute_clone this world1 in
  BufferGeometry.id g1 <> BufferGeometry.id g2 /\
  reidentified g2 (BufferGeometry.id g1) (BufferGeometry.uuid g1) = g1.
Proof.
  unfold clone, bind, constructor, nextId, generateUUID, ret, bind.
  cbv beta iota. rewrite !copy_closed_form. cbn. split; [lia|reflexivity].
Qed.

End CopyFacts.

(** ** toJSON and fromJSON *)

Lemma buildPlane_rescope (f : BufferGeometry.t -> BufferGeometry.t)
    (u v w : axis) (udir vdir width height depth gridX gridY : number)
    (materialIndex : nat) (st : Builder) :
  (forall s a b c, f (addGroup s a b c) = addGroup (f s) a b c) ->
  buildPlane u v w udir vdir width height depth gridX gridY materialIndex
    (rescope f st)
  = rescope f <$>
      buildPlane u v w udir vdir width height depth gridX gridY materialIndex st.
Proof.
  intros Hf. unfold buildPlane. cbn [rescope vertices normals uvs indices
    numberOfVertices groupStart scope].
  destruct (forUpTo (gridY + one)%num _ _) as [[[[[? ?] ?] ?] ?]|]; [|reflexivity].
  destruct (forUpTo gridY _ _) as [[? ?]|]; [|reflexivity].
  cbn. unfold rescope. cbn. rewrite Hf. reflexivity.
Qed.

Lemma bind_rescope (f : BufferGeometry.t -> BufferGeometry.t)
    (k : Builder -> option Builder) (x : option Builder) :
  (forall st, k (rescope f st) = rescope f <$> k st) ->
  (rescope f <$> x) ≫= k = rescope f <$> (x ≫= k).
Proof. intros Hk. destruct x as [st|]; cbn; [apply Hk|reflexivity]. Qed.

Lemma reidentified_addGroup (i : nat) (u : string) (s : BufferGeometry.t)
    (a b c : nat) :
  reidentified (addGroup s a b c) i u = addGroup (reidentified s i u) a b c.
Proof. reflexivity. Qed.

(** The constructor reads the world for an id and a uuid and nothing else. *)
Lemma BoxGeometry_world (width height depth ws hs ds : number) (world : World) :
  fst (BoxGeometry width height depth ws hs ds world)
  = (fun g => reidentified g (_id world) (hd ""%string (uuids world)))
    <$> fst (BoxGeometry width height depth ws hs ds world0).
Proof.
  unfold BoxGeometry.
  cbv beta iota zeta delta [bind constructor nextId generateUUID ret].
  set (f := fun g => reidentified g (_id world) (hd ""%string (uuids world))).
  assert (forall s a b c, f (addGroup s a b c) = addGroup (f s) a b c) as Hf
    by reflexivity.
  match goal with
  | |- context [Some ?st ≫= _] =>
      match goal with
      | |- context [Some ?st0 ≫= _] =>
          lazymatch st0 with
          | st => fail
          | _ => change (Some st) with (rescope f <$> Some st0)
          end
      end
  end.
  rewrite !bind_rescope
    by (intros st; apply buildPlane_rescope; exact Hf).
  match goal with |- context [rescope f <$> ?x] => destruct x as [st|] end;
    reflexivity.
Qed.

Lemma buildPlane_keeps (u v w : axis)
    (udir vdir width height depth gridX gridY : number)
    (materialIndex : nat) (st st' : Builder) :
  buildPlane u v w udir vdir width height depth gridX gridY materialIndex st
    = Some st' ->
  BufferGeometry.with_groups (scope st') []
  = BufferGeometry.with_groups (scope st) [].
Proof.
  unfold buildPlane.
  destruct (forUpTo (gridY + one)%num _ _) as [[[[[? ?] ?] ?] ?]|]; [|discriminate].
  destruct (forUpTo gridY _ _) as [[? ?]|]; [|discriminate].
  intros [= <-]. reflexivity.
Qed.

Lemma BoxGeometry_parameters (width height depth ws hs ds : number)
    (world : World) (g : BufferGeometry.t) :
  fst (BoxGeometry width height depth ws hs ds world) = Some g ->
  BufferGeometry.parameters g
  = Some (Parameters.make width height depth ws hs ds).
Proof.
  unfold BoxGeometry.
  cbv beta iota zeta delta [bind constructor nextId generateUUID ret].
  cbn [mbind option_bind].
  repeat match goal with
  | |- context [buildPlane ?u ?v ?w ?ud ?vd ?wi ?he ?de ?gx ?gy ?m ?st] =>
      let s := fresh "s" in let E := fresh "E" in
      destruct (buildPlane u v w ud vd wi he de gx gy m st) as [s|] eqn:E;
        [apply buildPlane_keeps in E | discriminate]; cbn [mbind option_bind]
  end.
  cbn [fst]. intros [= <-].
  match goal with |- BufferGeometry.parameters (setAttribute (setAttribute
      (setAttribute (BufferGeometry.with_index ?s _) _ _) _ _) _ _) = _ =>
    change (BufferGeometry.parameters
              (BufferGeometry.with_groups s []) = Some (Parameters.make width height depth ws hs ds))
  end.
  repeat match goal with E : BufferGeometry.with_groups _ [] = _ |- _ =>
    rewrite E; clear E end.
  reflexivity.
Qed.

(** X11: a box written out by [toJSON] and read back by [fromJSON] is the
    same geometry again, under a new id and uuid, whatever the attribute
    serialiser. *)
Theorem fromJSON_toJSON_rebuilds_box {A} (ser : BufferAttribute.t -> A)
    (width height depth ws hs ds : number) (world world' : World)
    (g : BufferGeometry.t) :
  fst (BoxGeometry width height depth ws hs ds world) = Some g ->
  fst (fromJSON (toJSON A ser g) world')
  = Some (reidentified g (_id world') (hd ""%string (uuids world'))).
Proof.
  intros Hg. pose proof (BoxGeometry_parameters _ _ _ _ _ _ _ _ Hg) as Hp.
  assert (fromJSON (toJSON A ser g) = BoxGeometry width height depth ws hs ds)
    as ->.
  { unfold fromJSON, toJSON. rewrite Hp. reflexivity. }
  rewrite BoxGeometry_world in Hg |- *.
  destruct (fst (BoxGeometry width height depth ws hs ds world0)) as [g0|];
    [|discriminate].
  cbn in Hg |- *. injection Hg as <-. reflexivity.
Qed.

Lemma map_fold_insert_fmap {A B} (f : A -> B) (m : gmap string A) :
  map_fold (fun key a (acc : gmap string B) => <[key := f a]> acc) ∅ m
  = f <$> m.
Proof.
  apply (map_fold_weak_ind (fun r m => r = f <$> m)).
  - rewrite fmap_empty. reflexivity.
  - intros i x m' r Hi ->. rewrite fmap_insert. reflexivity.
Qed.

Lemma toJSON_morph_loop {A} (ser : BufferAttribute.t -> A)
    (m : gmap string (list BufferAttribute.t)) :
  map_fold (fun key attributeArray
                '((morphAttributes, hasMorphAttributes)
                  : gmap string (list A) * bool) =>
              let array := map ser attributeArray in
              if 0 <? length array
              then (<[key := array]> morphAttributes, true)
              else (morphAttributes, hasMorphAttributes))
           (∅, false) m
  = (map ser <$> filter (fun kv => 0 < length kv.2) m,
     bool_decide (filter (fun kv : string * list BufferAttribute.t =>
                            0 < length kv.2) m <> ∅)).
Proof.
  pose (P := fun (r : gmap string (list A) * bool)
                 (m : gmap string (list BufferAttribute.t)) =>
               r = (map ser <$> filter (fun kv => 0 < length kv.2) m,
                    bool_decide
                      (filter (fun kv : string * list BufferAttribute.t =>
                                 0 < length kv.2) m <> ∅))).
  match goal with |- ?lhs = _ => enough (P lhs m) as H by exact H end.
  apply (map_fold_weak_ind P); unfold P.
  - rewrite map_filter_empty, fmap_empty. reflexivity.
  - intros i x m' r Hi ->. cbv zeta. rewrite length_map.
    destruct (0 <? length x) eqn:E.
    + apply Nat.ltb_lt in E.
      rewrite map_filter_insert_True by exact E.
      rewrite fmap_insert. f_equal.
      symmetry. apply bool_decide_eq_true. apply insert_non_empty.
    + apply Nat.ltb_ge in E.
      rewrite map_filter_insert_not' ; [reflexivity| cbn; lia |].
      intros y Hy. rewrite Hi in Hy. discriminate.
Qed.

(** X12: for a geometry without parameters, [toJSON] writes every
    attribute, serialised, under its own name; of the morph targets it
    writes the keys whose list is not empty, and it writes
    [morphAttributes] and [morphTargetsRelative] only if there is such a
    key. *)
Theorem toJSON_writes_attributes_and_nonempty_morph_targets {A}
    (ser : BufferAttribute.t -> A) (this : BufferGeometry.t) :
  BufferGeometry.parameters this = None ->
  exists d,
    JSON.geometryData (toJSON A ser this) = Some d /\
    JSON.attributes d = ser <$> BufferGeometry.attributes this /\
    JSON.morphAttributes d
    = (if decide (writtenMorphTargets this = ∅) then None
       else Some (map ser <$> writtenMorphTargets this)) /\
    JSON.morphTargetsRelative d
    = (if decide (writtenMorphTargets this = ∅) then None
       else Some (BufferGeometry.morphTargetsRelative this)).
Proof.
  intros Hp. unfold toJSON. rewrite Hp.
  rewrite toJSON_morph_loop, map_fold_insert_fmap.
  eexists. split; [reflexivity|]. cbn [JSON.attributes JSON.morphAttributes
    JSON.morphTargetsRelative].
  split; [reflexivity|]. unfold writtenMorphTargets.
  destruct (decide (filter _ (BufferGeometry.morphAttributes this) = ∅)) as [E|E].
  - rewrite bool_decide_eq_false_2 by (intros H; apply H, E). auto.
  - rewrite bool_decide_eq_true_2 by exact E. auto.
Qed.

(** ** Transforms, vertex by vertex *)

Lemma forEachVertex_loop (f : Vector3.t -> Vector3.t) (n : nat) :
  forall (a : BufferAttribute.t) (i0 : nat),
  exists l,
    foldl (fun a i =>
             let v := f (Vector3.fromBufferAttribute a (Some i)) in
             BufferAttribute.setXYZ a (Some i)
               (Vector3.x v) (Vector3.y v) (Vector3.z v))
          a (seq i0 n)
    = BufferAttribute.with_array a l /\
    length l = length (BufferAttribute.array a) /\
    (3 <= BufferAttribute.stride a ->
     forall j, j < i0 \/ i0 + n <= j ->
       Vector3.fromBufferAttribute (BufferAttribute.with_array a l) (Some j)
       = Vector3.fromBufferAttribute a (Some j)) /\
    (3 <= BufferAttribute.stride a ->
     forall k, k < n ->
       BufferAttribute.cell a (i0 + k) 2 < length (BufferAttribute.array a) ->
       Vector3.fromBufferAttribute (BufferAttribute.with_array a l) (Some (i0 + k))
       = Vector3_toElement (BufferAttribute.elementType a)
           (f (Vector3.fromBufferAttribute a (Some (i0 + k))))).
Proof.
  induction n as [|n IH]; intros a i0.
  - exists (BufferAttribute.array a). cbn [seq foldl].
    destruct a; cbn. repeat split; try reflexivity. intros _ k Hk. lia.
  - change (seq i0 (S n)) with (i0 :: seq (S i0) n).
    match goal with |- context [foldl ?F a (i0 :: ?l)] =>
      change (foldl F a (i0 :: l)) with (foldl F (F a i0) l);
      set (a1 := F a i0)
    end.
    set (v := f (Vector3.fromBufferAttribute a (Some i0))).
    assert (a1 = BufferAttribute.setXYZ a (Some i0)
                   (Vector3.x v) (Vector3.y v) (Vector3.z v)) as Ha1
      by reflexivity.
    destruct (IH a1 (S i0)) as (l & Hl & Hlen & Hframe & Hhit).
    assert (length (BufferAttribute.array a1) = length (BufferAttribute.array a))
      as Hlen1.
    { rewrite Ha1, setXYZ_array. cbn. rewrite !length_insert. reflexivity. }
    assert (BufferAttribute.with_array a1 l = BufferAttribute.with_array a l)
      as Hwa by reflexivity.
    assert (BufferAttribute.stride a1 = BufferAttribute.stride a) as Hs1
      by reflexivity.
    exists l. rewrite Hl. rewrite Hwa in Hframe, Hhit |- *.
    split; [reflexivity|]. split; [lia|]. split.
    + intros Hs j Hj. rewrite Hframe by (rewrite ?Hs1; lia).
      rewrite Ha1. apply fromBufferAttribute_setXYZ_other; [exact Hs|]. lia.
    + intros Hs [|k] Hk Hin.
      * replace (i0 + 0) with i0 in * by lia.
        rewrite Hframe by (rewrite ?Hs1; lia).
        rewrite Ha1, fromBufferAttribute_setXYZ_same by exact Hin.
        subst v. destruct (f _); reflexivity.
      * replace (i0 + S k) with (S i0 + k) in * by lia.
        rewrite Hhit; [|rewrite Hs1; exact Hs|lia|rewrite Hlen1; exact Hin].
        rewrite Ha1.
        rewrite fromBufferAttribute_setXYZ_other by (exact Hs || lia).
        reflexivity.
Qed.

Lemma forEachVertex_vertexwise (f : Vector3.t -> Vector3.t)
    (a : BufferAttribute.t) :
  roomy a -> vertexwise f a (forEachVertex f a).
Proof.
  intros [Hwf Ho].
  destruct (forEachVertex_loop f (BufferAttribute.count a) a 0)
    as (l & Hl & Hlen & _ & Hhit).
  change (forEachVertex f a = BufferAttribute.with_array a l) in Hl.
  rewrite Hl.
  split; [apply count_with_array, Hlen|].
  intros i Hi. apply (Hhit ltac:(lia) i Hi).
  apply cell_in_range; [exact Hwf|exact Ho|exact Hi|lia].
Qed.

Lemma vertexwise_needsUpdate (f : Vector3.t -> Vector3.t)
    (a a' : BufferAttribute.t) :
  vertexwise f a a' -> vertexwise f a (BufferAttribute.needsUpdate a').
Proof.
  intros [Hc Hv]. split; [exact Hc|].
  intros i Hi. rewrite fromBufferAttribute_needsUpdate. apply Hv, Hi.
Qed.

(** A transform applied to a whole buffer keeps its layout and the length
    of its array. *)
Lemma forEachVertex_shape (f : Vector3.t -> Vector3.t) (a : BufferAttribute.t) :
  exists l,
    forEachVertex f a = BufferAttribute.with_array a l /\
    length l = length (BufferAttribute.array a).
Proof.
  destruct (forEachVertex_loop f (BufferAttribute.count a) a 0)
    as (l & Hl & Hlen & _).
  exists l. split; [exact Hl|exact Hlen].
Qed.

Section TransformFacts.

Variable Math_sqrt : number -> number.

Lemma computeBoundingBox_only_box (g : BufferGeometry.t) (w : World) :
  BufferGeometry.with_boundingBox (fst (computeBoundingBox g w)) None
  = BufferGeometry.with_boundingBox g None.
Proof.
  unfold computeBoundingBox. repeat (case_match; simpl); reflexivity.
Qed.

Lemma computeBoundingSphere_only_sphere (g : BufferGeometry.t) (w : World) :
  BufferGeometry.with_boundingSphere
    (fst (computeBoundingSphere Math_sqrt g w)) None
  = BufferGeometry.with_boundingSphere g None.
Proof.
  unfold computeBoundingSphere. repeat (case_match; simpl); reflexivity.
Qed.

(** [applyMatrix4] is its three attribute rewrites, then new bounds. *)
Lemma applyMatrix4_rewrites (g : BufferGeometry.t) (m : Matrix4.t) (w : World) :
  let this1 :=
    match BufferGeometry.attributes g !! "position" with
    | Some position =>
        setAttribute g "position"
          (BufferAttribute.needsUpdate
             (BufferAttribute_applyMatrix4 position m))
    | None => g
    end in
  let this2 :=
    match BufferGeometry.attributes this1 !! "normal" with
    | Some normal =>
        setAttribute this1 "normal"
          (BufferAttribute.needsUpdate
             (BufferAttribute_applyNormalMatrix normal
                (Matrix3.getNormalMatrix m)))
    | None => this1
    end in
  let this3 :=
    match BufferGeometry.attributes this2 !! "tangent" with
    | Some tangent =>
        setAttribute this2 "tangent"
          (BufferAttribute.needsUpdate
             (BufferAttribute_transformDirection Math_sqrt tangent m))
    | None => this2
    end in
  BufferGeometry.with_boundingBox
    (BufferGeometry.with_boundingSphere
       (fst (applyMatrix4 Math_sqrt g m w)) None) None
  = BufferGeometry.with_boundingBox
      (BufferGeometry.with_boundingSphere this3 None) None.
Proof.
  cbv zeta. unfold applyMatrix4, bind.
  set (g1 := match BufferGeometry.attributes g !! "position" with
             | Some _ => _ | None => _ end).
  set (g2 := match BufferGeometry.attributes g1 !! "normal" with
             | Some _ => _ | None => _ end).
  set (g3 := match BufferGeometry.attributes g2 !! "tangent" with
             | Some _ => _ | None => _ end).
  assert (forall g4 w4,
            BufferGeometry.with_boundingBox
              (BufferGeometry.with_boundingSphere
                 (fst ((match BufferGeometry.boundingSphere g4 with
                        | Some _ => computeBoundingSphere Math_sqrt g4
                        | None => ret g4
                        end) w4)) None) None
            = BufferGeometry.with_boundingBox
                (BufferGeometry.with_boundingSphere g4 None) None) as Hs.
  { intros g4 w4. destruct (BufferGeometry.boundingSphere g4);
      [rewrite computeBoundingSphere_only_sphere|]; reflexivity. }
  destruct (BufferGeometry.boundingBox g3).
  - destruct (computeBoundingBox g3 w) as [g4 w4] eqn:E.
    cbv beta iota. rewrite Hs.
    pose proof (computeBoundingBox_only_box g3 w) as Hb. rewrite E in Hb.
    cbn [fst] in Hb.
    transitivity (BufferGeometry.with_boundingSphere
                    (BufferGeometry.with_boundingBox g4 None) None);
      [destruct g4; reflexivity|].
    rewrite Hb. destruct g3; reflexivity.
  - unfold ret at 1. cbv beta iota. rewrite Hs. reflexivity.
Qed.

Lemma staged_rewrites (A0 : gmap string BufferAttribute.t)
    (fp fn ft : BufferAttribute.t -> BufferAttribute.t) (name : string) :
  let A1 :=
    match A0 !! "position" with
    | Some a => <["position" := fp a]> A0 | None => A0 end in
  let A2 :=
    match A1 !! "normal" with
    | Some a => <["normal" := fn a]> A1 | None => A1 end in
  let A3 :=
    match A2 !! "tangent" with
    | Some a => <["tangent" := ft a]> A2 | None => A2 end in
  A3 !! name
  = (if decide (name = "position"%string) then fp
     else if decide (name = "normal"%string) then fn
     else if decide (name = "tangent"%string) then ft
     else fun a => a) <$> A0 !! name.
Proof.
  cbv zeta.
  assert (forall (k : string) (f : BufferAttribute.t -> BufferAttribute.t)
                 (B : gmap string BufferAttribute.t),
            match B !! k with Some a => <[k := f a]> B | None => B end !! name
            = (if decide (name = k) then f else fun a => a) <$> B !! name) as H.
  { intros k f B. destruct (decide (name = k)) as [->|Hne].
    - destruct (B !! k) eqn:E; [rewrite lookup_insert_eq|rewrite E]; reflexivity.
    - destruct (B !! k); [rewrite lookup_insert_ne by congruence|];
        destruct (B !! name); reflexivity. }
  rewrite !H.
  destruct (decide (name = "position"%string)) as [->|Hp].
  - destruct (decide _) as [E|_]; [discriminate E|].
    destruct (decide _) as [E|_]; [discriminate E|].
    destruct (A0 !! "position"); reflexivity.
  - destruct (decide (name = "normal"%string)) as [->|Hn].
    + destruct (decide _) as [E|_]; [discriminate E|].
      destruct (A0 !! "normal"); reflexivity.
    + destruct (decide (name = "tangent"%string)); destruct (A0 !! name); reflexivity.
Qed.

Lemma applyMatrix4_lookup (g : BufferGeometry.t) (m : Matrix4.t) (w : World)
    (name : string) :
  BufferGeometry.attributes (fst (applyMatrix4 Math_sqrt g m w)) !! name
  = (if decide (name = "position"%string)
     then fun a => BufferAttribute.needsUpdate (BufferAttribute_applyMatrix4 a m)
     else if decide (name = "normal"%string)
     then fun a => BufferAttribute.needsUpdate
                     (BufferAttribute_applyNormalMatrix a
                        (Matrix3.getNormalMatrix m))
     else if decide (name = "tangent"%string)
     then fun a => BufferAttribute.needsUpdate
                     (BufferAttribute_transformDirection Math_sqrt a m)
     else fun a => a) <$> BufferGeometry.attributes g !! name.
Proof.
  pose proof (applyMatrix4_rewrites g m w) as H. cbv zeta in H.
  apply (f_equal BufferGeometry.attributes) in H. cbn in H. rewrite H.
  rewrite <- staged_rewrites. unfold setAttribute.
  destruct (BufferGeometry.attributes g !! "position"); cbn;
    (destruct (_ !! "normal"); cbn; (destruct (_ !! "tangent"); reflexivity)).
Qed.


Lemma applyMatrix4_frame (g : BufferGeometry.t) (m : Matrix4.t)
    (w : World) :
  let g' := fst (applyMatrix4 Math_sqrt g m w) in
  BufferGeometry.index g' = BufferGeometry.index g /\
  BufferGeometry.morphAttributes g' = BufferGeometry.morphAttributes g /\
  BufferGeometry.morphTargetsRelative g' = BufferGeometry.morphTargetsRelative g /\
  BufferGeometry.groups g' = BufferGeometry.groups g /\
  BufferGeometry.drawRange g' = BufferGeometry.drawRange g /\
  forall name,
    name <> "position"%string -> name <> "normal"%string ->
    name <> "tangent"%string ->
    BufferGeometry.attributes g' !! name = BufferGeometry.attributes g !! name.
Proof.
  cbv zeta. pose proof (applyMatrix4_rewrites g m w) as H. cbv zeta in H.
  repeat split.
  - apply (f_equal BufferGeometry.index) in H. cbn in H. rewrite H.
    unfold setAttribute. repeat (case_match; cbn); reflexivity.
  - apply (f_equal BufferGeometry.morphAttributes) in H. cbn in H. rewrite H.
    unfold setAttribute. repeat (case_match; cbn); reflexivity.
  - apply (f_equal BufferGeometry.morphTargetsRelative) in H. cbn in H. rewrite H.
    unfold setAttribute. repeat (case_match; cbn); reflexivity.
  - apply (f_equal BufferGeometry.groups) in H. cbn in H. rewrite H.
    unfold setAttribute. repeat (case_match; cbn); reflexivity.
  - apply (f_equal BufferGeometry.drawRange) in H. cbn in H. rewrite H.
    unfold setAttribute. repeat (case_match; cbn); reflexivity.
  - intros name Hp Hn Ht. rewrite applyMatrix4_lookup.
    repeat case_decide; try congruence.
    destruct (BufferGeometry.attributes g !! name); reflexivity.
Qed.


(** X14: [applyMatrix4] touches nothing but the position, normal and
    tangent attributes and the two bounding volumes: the index, the morph
    targets, the groups, the draw range and every other attribute are
    what they were. *)
Theorem applyMatrix4_leaves_the_rest (g : BufferGeometry.t) (m : Matrix4.t)
    (w : World) :
  let g' := fst (applyMatrix4 Math_sqrt g m w) in
  BufferGeometry.index g' = BufferGeometry.index g /\
  BufferGeometry.morphAttributes g' = BufferGeometry.morphAttributes g /\
  BufferGeometry.morphTargetsRelative g' = BufferGeometry.morphTargetsRelative g /\
  BufferGeometry.groups g' = BufferGeometry.groups g /\
  BufferGeometry.drawRange g' = BufferGeometry.drawRange g /\
  forall name,
    name <> "position"%string -> name <> "normal"%string ->
    name <> "tangent"%string ->
    BufferGeometry.attributes g' !! name = BufferGeometry.attributes g !! name.
Proof. apply applyMatrix4_frame. Qed.

End TransformFacts.

(** ** normalizeNormals *)

Lemma finiteVertices_lookup (a : BufferAttribute.t) (i : nat) :
  finiteVertices a = true -> i < BufferAttribute.count a ->
  Vector3_isFinite (Vector3.fromBufferAttribute a (Some i)) = true.
Proof.
  intros Hfin Hi. apply (finiteVertices_elem a); [exact Hfin|].
  apply vertices_lookup, Hi.
Qed.

Lemma zero_mul_finite (a : number) :
  isFinite a = true -> (zero * a)%num = zero.
Proof.
  destruct a as [| |q|]; try discriminate. intros _.
  unfold zero. cbn [mul]. rewrite (Qred_complete (0 * q) 0) by ring.
  reflexivity.
Qed.

Section NormalizeFacts.

Variable Math_sqrt : number -> number.

(** The zero vector has no direction to keep: normalising leaves it zero,
    whatever the square root of zero is taken to be. *)
Lemma normalize_zero : Vector3.normalize Math_sqrt Vector3.new = Vector3.new.
Proof.
  unfold Vector3.normalize, Vector3.divideScalar, Vector3.multiplyScalar,
    Vector3.new.
  cbn [Vector3.x Vector3.y Vector3.z].
  set (s := orElse _ one).
  assert (isFinite (one / s)%num = true) as Hs.
  { subst s. unfold orElse.
    destruct (Vector3.length Math_sqrt _) as [| |q|]; try reflexivity.
    cbn [isZero]. destruct (Qeq_bool q 0) eqn:E; [reflexivity|].
    unfold one. cbn [div]. rewrite E. reflexivity. }
  rewrite !zero_mul_finite by exact Hs. reflexivity.
Qed.

(** X17: on a geometry whose normal attribute has whole vertices of at
    least three components, [normalizeNormals] changes nothing but the
    numbers in the array of that attribute (same length, same layout, same
    version), and a normal that is zero stays zero: no division by a zero
    length. *)
Theorem normalizeNormals_keeps_zero_normals (g : BufferGeometry.t)
    (normals : BufferAttribute.t) :
  BufferGeometry.attributes g !! "normal" = Some normals ->
  roomy normals ->
  exists l,
    normalizeNormals Math_sqrt g
    = Normal (setAttribute g "normal" (BufferAttribute.with_array normals l)) /\
    length l = length (BufferAttribute.array normals) /\
    forall i, i < BufferAttribute.count normals ->
      Vector3.fromBufferAttribute normals (Some i) = Vector3.new ->
      Vector3.fromBufferAttribute (BufferAttribute.with_array normals l) (Some i)
      = Vector3.new.
Proof.
  intros Hn Hroomy. unfold normalizeNormals, normalizeAttribute. rewrite Hn.
  destruct (forEachVertex_shape (Vector3.normalize Math_sqrt) normals)
    as (l & Hl & Hlen).
  exists l. rewrite Hl. split; [reflexivity|]. split; [exact Hlen|].
  destruct (forEachVertex_vertexwise (Vector3.normalize Math_sqrt) normals Hroomy)
    as [_ Hv].
  rewrite Hl in Hv. intros i Hi Hzero.
  rewrite (Hv i Hi), Hzero, normalize_zero.
  unfold Vector3_toElement, Vector3.new. cbn [Vector3.x Vector3.y Vector3.z].
  rewrite toElement_zero. reflexivity.
Qed.

End NormalizeFacts.

(** ** Bounds that touch the vertices *)

Lemma Math_min_either (a b : number) : Math_min a b = a \/ Math_min a b = b.
Proof.
  destruct a, b; cbn; auto; destruct (negb _); auto.
Qed.

Lemma Math_max_either (a b : number) : Math_max a b = a \/ Math_max a b = b.
Proof.
  destruct a, b; cbn; auto; destruct (negb _); auto.
Qed.

Lemma fold_either (op : number -> number -> number) (ds : list number) :
  (forall a b, op a b = a \/ op a b = b) ->
  forall m0, foldl op m0 ds = m0 \/ foldl op m0 ds ∈ ds.
Proof.
  intros Hop. induction ds as [|d ds IH]; intros m0; [left; reflexivity|].
  cbn [foldl]. destruct (IH (op m0 d)) as [E|E].
  - rewrite E. destruct (Hop m0 d) as [-> | ->]; [left; reflexivity|].
    right. apply elem_of_cons. left. reflexivity.
  - right. apply elem_of_cons. right. exact E.
Qed.

Lemma fold_expandByPoint (vs : list Vector3.t) :
  forall b,
    foldl Box3.expandByPoint b vs
    = Box3.make
        (Vector3.make
           (foldl Math_min (Vector3.x (Box3.min b)) (Vector3.x <$> vs))
           (foldl Math_min (Vector3.y (Box3.min b)) (Vector3.y <$> vs))
           (foldl Math_min (Vector3.z (Box3.min b)) (Vector3.z <$> vs)))
        (Vector3.make
           (foldl Math_max (Vector3.x (Box3.max b)) (Vector3.x <$> vs))
           (foldl Math_max (Vector3.y (Box3.max b)) (Vector3.y <$> vs))
           (foldl Math_max (Vector3.z (Box3.max b)) (Vector3.z <$> vs))).
Proof.
  induction vs as [|v vs IH]; intros b.
  - destruct b as [[] []]; reflexivity.
  - cbn [foldl fmap list_fmap]. rewrite IH. reflexivity.
Qed.

Lemma attains_of_elem (a : BufferAttribute.t) (coord : Vector3.t -> number)
    (bound : number) :
  bound ∈ coord <$> verticesOf a -> attains a coord bound.
Proof.
  intros H. apply list_elem_of_fmap in H as (v & -> & Hv).
  unfold verticesOf in Hv. apply list_elem_of_fmap in Hv as (i & -> & Hi).
  apply elem_of_seq in Hi. exists i. split; [lia|reflexivity].
Qed.

(** X18: without morph targets, the box computed for a non-empty buffer of
    finite positions is the least one: each of its six faces passes
    through a vertex. *)
Theorem computeBoundingBox_is_tight (this : BufferGeometry.t) (w : World)
    (position : BufferAttribute.t) :
  BufferGeometry.attributes this !! "position" = Some position ->
  BufferAttribute.isGLBufferAttribute position = false ->
  finiteVertices position = true ->
  0 < BufferAttribute.count position ->
  BufferGeometry.morphAttributes this !! "position" = None ->
  exists box,
    BufferGeometry.boundingBox (fst (computeBoundingBox this w)) = Some box /\
    attains position Vector3.x (Vector3.x (Box3.min box)) /\
    attains position Vector3.y (Vector3.y (Box3.min box)) /\
    attains position Vector3.z (Vector3.z (Box3.min box)) /\
    attains position Vector3.x (Vector3.x (Box3.max box)) /\
    attains position Vector3.y (Vector3.y (Box3.max box)) /\
    attains position Vector3.z (Vector3.z (Box3.max box)).
Proof.
  intros Hp Hgl Hfin Hcount Hmorph.
  rewrite (computeBoundingBox_stored this w position Hp Hgl).
  unfold fittedBox. rewrite Hmorph.
  eexists. split; [reflexivity|].
  pose proof (setFromBufferAttribute_finite position Hfin Hcount) as [Hmin Hmax].
  rewrite setFromBufferAttribute_vertices, fold_expandByPoint in Hmin, Hmax |- *.
  cbn [Box3.min Box3.max Vector3.x Vector3.y Vector3.z Box3.makeEmpty] in *.
  unfold Vector3_isFinite in Hmin, Hmax. cbn in Hmin, Hmax.
  apply andb_prop in Hmin as [Hmin Hz]. apply andb_prop in Hmin as [Hx Hy].
  apply andb_prop in Hmax as [Hmax Hz']. apply andb_prop in Hmax as [Hx' Hy'].
  repeat split; apply attains_of_elem.
  - destruct (fold_either Math_min (Vector3.x <$> verticesOf position)
                Math_min_either PosInf) as [E|E]; [|exact E].
    rewrite E in Hx. discriminate Hx.
  - destruct (fold_either Math_min (Vector3.y <$> verticesOf position)
                Math_min_either PosInf) as [E|E]; [|exact E].
    rewrite E in Hy. discriminate Hy.
  - destruct (fold_either Math_min (Vector3.z <$> verticesOf position)
                Math_min_either PosInf) as [E|E]; [|exact E].
    rewrite E in Hz. discriminate Hz.
  - destruct (fold_either Math_max (Vector3.x <$> verticesOf position)
                Math_max_either NegInf) as [E|E]; [|exact E].
    rewrite E in Hx'. discriminate Hx'.
  - destruct (fold_either Math_max (Vector3.y <$> verticesOf position)
                Math_max_either NegInf) as [E|E]; [|exact E].
    rewrite E in Hy'. discriminate Hy'.
  - destruct (fold_either Math_max (Vector3.z <$> verticesOf position)
                Math_max_either NegInf) as [E|E]; [|exact E].
    rewrite E in Hz'. discriminate Hz'.
Qed.

Section BoundsEdges.

Variable Math_sqrt : number -> number.

(** X19: on a geometry without a position attribute, [computeBoundingBox]
    stores the empty box, whereas [computeBoundingSphere] keeps the sphere
    that is stored (a new sphere of radius -1 if there is none); neither
    logs anything. *)
Theorem bounds_without_position (this : BufferGeometry.t) (w : World) :
  BufferGeometry.attributes this !! "position" = None ->
  computeBoundingBox this w
  = (BufferGeometry.with_boundingBox this (Some Box3.makeEmpty), w) /\
  computeBoundingSphere Math_sqrt this w
  = (BufferGeometry.with_boundingSphere this
       (Some (default Sphere.new (BufferGeometry.boundingSphere this))), w).
Proof.
  intros Hp. unfold computeBoundingBox, computeBoundingSphere. rewrite Hp.
  split; [reflexivity|].
  destruct (BufferGeometry.boundingSphere this); reflexivity.
Qed.

(** X20: for a device-resident position buffer both computations give up:
    they log one error each and store all of space as the box and a sphere
    of infinite radius about the origin. *)
Theorem bounds_of_GL_position (this : BufferGeometry.t) (w : World)
    (position : BufferAttribute.t) :
  BufferGeometry.attributes this !! "position" = Some position ->
  BufferAttribute.isGLBufferAttribute position = true ->
  (fst (computeBoundingBox this w)
   = BufferGeometry.with_boundingBox this (Some Box3_everything) /\
   reportsError w (snd (computeBoundingBox this w))) /\
  (fst (computeBoundingSphere Math_sqrt this w)
   = BufferGeometry.with_boundingSphere this
       (Some (Sphere.make Vector3.new PosInf)) /\
   reportsError w (snd (computeBoundingSphere Math_sqrt this w))).
Proof.
  intros Hp Hgl. unfold computeBoundingBox, computeBoundingSphere.
  rewrite Hp, Hgl. repeat split; eexists; reflexivity.
Qed.

End BoundsEdges.

(** ** center *)

Section CenterFacts.

Variable Math_sqrt : number -> number.

Lemma applyMatrix4_box (g : BufferGeometry.t) (m : Matrix4.t) (w w' : World) :
  is_Some (BufferGeometry.boundingBox g) ->
  BufferGeometry.boundingBox (fst (applyMatrix4 Math_sqrt g m w))
  = BufferGeometry.boundingBox
      (fst (computeBoundingBox (fst (applyMatrix4 Math_sqrt g m w)) w')).
Proof.
  intros [b Hbox].
  destruct (applyMatrix4_unfold Math_sqrt g m w) as (g3 & Hb & Hs & Hpos & ->).
  rewrite <- Hb in Hbox. rewrite Hbox.
  destruct (computeBoundingBox g3 w) as [g4 w4] eqn:H4.
  pose proof (computeBoundingBox_frame g3 w) as (Hv & Hsph & Hsome).
  rewrite H4 in Hv, Hsph, Hsome. cbn [fst] in Hv, Hsph, Hsome.
  destruct (BufferGeometry.boundingSphere g4) as [s|] eqn:Hs4.
  - pose proof (computeBoundingSphere_frame Math_sqrt g4 w4) as (Hv' & Hbox' & _).
    rewrite Hbox'.
    rewrite <- (computeBoundingBox_congruence g3 _ w w').
    + rewrite H4. reflexivity.
    + destruct Hv as (? & ? & ?), Hv' as (? & ? & ?). repeat split; congruence.
  - cbn [fst].
    rewrite <- (computeBoundingBox_congruence g3 g4 w w').
    + rewrite H4. reflexivity.
    + destruct Hv as (? & ? & ?). repeat split; congruence.
Qed.

(** [applyMatrix4] stores a sphere exactly when one was stored. *)
Lemma applyMatrix4_sphere (g : BufferGeometry.t) (m : Matrix4.t) (w : World) :
  is_Some (BufferGeometry.boundingSphere (fst (applyMatrix4 Math_sqrt g m w)))
  <-> is_Some (BufferGeometry.boundingSphere g).
Proof.
  destruct (applyMatrix4_unfold Math_sqrt g m w) as (g3 & Hb & Hs & Hpos & ->).
  rewrite <- Hs. clear Hb Hs Hpos.
  destruct (BufferGeometry.boundingBox g3) as [b|].
  - destruct (computeBoundingBox g3 w) as [g4 w4] eqn:H4.
    pose proof (computeBoundingBox_frame g3 w) as (_ & Hsph & _).
    rewrite H4 in Hsph. cbn [fst] in Hsph. rewrite <- Hsph.
    destruct (BufferGeometry.boundingSphere g4) as [s|] eqn:Hs4.
    + pose proof (computeBoundingSphere_frame Math_sqrt g4 w4) as (_ & _ & Hsome).
      split; intros _; [eauto|exact Hsome].
    + cbn [fst]. rewrite Hs4. reflexivity.
  - destruct (BufferGeometry.boundingSphere g3) as [s|] eqn:Hs3.
    + pose proof (computeBoundingSphere_frame Math_sqrt g3 w) as (_ & _ & Hsome).
      split; intros _; [eauto|exact Hsome].
    + cbn [fst]. rewrite Hs3. reflexivity.
Qed.

(** X21: [center] always runs to its end and leaves a bounding box stored
    that is up to date: it is the box a new [computeBoundingBox] on the
    centred geometry stores.  A bounding sphere is stored afterwards
    exactly when one was stored before. *)
Theorem center_leaves_the_bounding_box_up_to_date (this : BufferGeometry.t)
    (w w' : World) :
  exists g' box,
    fst (center Math_sqrt this w) = Normal g' /\
    BufferGeometry.boundingBox g' = Some box /\
    BufferGeometry.boundingBox (fst (computeBoundingBox g' w')) = Some box /\
    (is_Some (BufferGeometry.boundingSphere g')
     <-> is_Some (BufferGeometry.boundingSphere this)).
Proof.
  unfold center, bind.
  pose proof (computeBoundingBox_frame this w) as (_ & Hsph & [b Hb]).
  destruct (computeBoundingBox this w) as [this1 w1].
  cbn [fst] in Hsph, Hb. rewrite Hb.
  set (c := Vector3.negate (Box3.getCenter b)).
  unfold translate.
  set (T := Matrix4_makeTranslation (Vector3.x c) (Vector3.y c) (Vector3.z c)).
  pose proof (applyMatrix4_box this1 T w1 w' ltac:(rewrite Hb; eauto)) as Hfresh.
  pose proof (applyMatrix4_sphere this1 T w1) as Hsphere.
  destruct (applyMatrix4 Math_sqrt this1 T w1) as [this2 w2].
  cbn [fst] in Hfresh, Hsphere |- *.
  pose proof (computeBoundingBox_frame this2 w') as (_ & _ & [box Hbox]).
  exists this2, box. split; [reflexivity|].
  split; [rewrite Hfresh; exact Hbox|].
  split; [exact Hbox|].
  rewrite Hsphere, Hsph. reflexivity.
Qed.

End CenterFacts.

(** ** Vertex normals, vertex by vertex *)

(** [b] is [a] with other numbers in its array. *)
Lemma setXYZ_shape (a : BufferAttribute.t) (u : vindex) (x y z : number) :
  exists l,
    BufferAttribute.setXYZ a u x y z = BufferAttribute.with_array a l /\
    length l = length (BufferAttribute.array a).
Proof.
  destruct u as [i|].
  - rewrite setXYZ_array. eexists. split; [reflexivity|].
    rewrite !length_insert. reflexivity.
  - exists (BufferAttribute.array a). split; [destruct a|]; reflexivity.
Qed.

Lemma setXYZ_stride (a : BufferAttribute.t) (u : vindex) (x y z : number) :
  BufferAttribute.stride (BufferAttribute.setXYZ a u x y z)
  = BufferAttribute.stride a.
Proof. destruct (setXYZ_shape a u x y z) as (l & -> & _). reflexivity. Qed.

Lemma setXYZ_elementType (a : BufferAttribute.t) (u : vindex) (x y z : number) :
  BufferAttribute.elementType (BufferAttribute.setXYZ a u x y z)
  = BufferAttribute.elementType a.
Proof. destruct (setXYZ_shape a u x y z) as (l & -> & _). reflexivity. Qed.

Lemma setXYZ_cell (a : BufferAttribute.t) (u : vindex) (x y z : number)
    (v k : nat) :
  BufferAttribute.cell (BufferAttribute.setXYZ a u x y z) v k
  = BufferAttribute.cell a v k.
Proof. destruct (setXYZ_shape a u x y z) as (l & -> & _). reflexivity. Qed.

Lemma setXYZ_length (a : BufferAttribute.t) (u : vindex) (x y z : number) :
  length (BufferAttribute.array (BufferAttribute.setXYZ a u x y z))
  = length (BufferAttribute.array a).
Proof. destruct (setXYZ_shape a u x y z) as (l & -> & H). exact H. Qed.

Lemma fromBufferAttribute_setXYZ (a : BufferAttribute.t) (u : vindex) (v : nat)
    (x y z : number) :
  3 <= BufferAttribute.stride a ->
  BufferAttribute.cell a v 2 < length (BufferAttribute.array a) ->
  Vector3.fromBufferAttribute (BufferAttribute.setXYZ a u x y z) (Some v)
  = if decide (u = Some v)
    then Vector3_toElement (BufferAttribute.elementType a) (Vector3.make x y z)
    else Vector3.fromBufferAttribute a (Some v).
Proof.
  intros Hs Hin. destruct (decide (u = Some v)) as [->|Hne].
  - apply fromBufferAttribute_setXYZ_same, Hin.
  - destruct u as [i|]; [|reflexivity].
    apply fromBufferAttribute_setXYZ_other; [exact Hs|congruence].
Qed.

Lemma with_array_with_array (a : BufferAttribute.t) (l l' : list number) :
  BufferAttribute.with_array (BufferAttribute.with_array a l) l'
  = BufferAttribute.with_array a l'.
Proof. reflexivity. Qed.

Lemma accumulateFace_shape (index : IndexAttribute.t)
    (positionAttribute a : BufferAttribute.t) (i : nat) :
  exists l,
    accumulateFace index positionAttribute a i = BufferAttribute.with_array a l /\
    length l = length (BufferAttribute.array a).
Proof.
  unfold accumulateFace. cbv zeta.
  match goal with |- context [BufferAttribute.setXYZ
      (BufferAttribute.setXYZ (BufferAttribute.setXYZ a ?u1 ?x1 ?y1 ?z1)
         ?u2 ?x2 ?y2 ?z2) ?u3 ?x3 ?y3 ?z3] =>
    destruct (setXYZ_shape a u1 x1 y1 z1) as (l1 & E1 & H1); rewrite E1;
    destruct (setXYZ_shape (BufferAttribute.with_array a l1) u2 x2 y2 z2)
      as (l2 & E2 & H2); rewrite E2;
    destruct (setXYZ_shape
                (BufferAttribute.with_array (BufferAttribute.with_array a l1) l2)
                u3 x3 y3 z3)
      as (l3 & E3 & H3); rewrite E3
  end.
  exists l3. split; [reflexivity|]. cbn in *. congruence.
Qed.

Lemma accumulateFace_vertex (index : IndexAttribute.t)
    (positionAttribute a : BufferAttribute.t) (i v : nat) :
  3 <= BufferAttribute.stride a ->
  BufferAttribute.cell a v 2 < length (BufferAttribute.array a) ->
  Vector3.fromBufferAttribute (accumulateFace index positionAttribute a i) (Some v)
  = if bool_decide (Some v ∈ cornersAt index i)
    then Vector3_toElement (BufferAttribute.elementType a)
           (Vector3.add (Vector3.fromBufferAttribute a (Some v))
                        (faceNormalAt index positionAttribute i))
    else Vector3.fromBufferAttribute a (Some v).
Proof.
  intros Hs Hin. unfold accumulateFace, cornersAt, faceNormalAt. cbv zeta.
  set (vA := IndexAttribute.getX index (i + 0)).
  set (vB := IndexAttribute.getX index (i + 1)).
  set (vC := IndexAttribute.getX index (i + 2)).
  set (cb := faceNormal _ _ _).
  rewrite !fromBufferAttribute_setXYZ
    by (rewrite ?setXYZ_stride, ?setXYZ_cell, ?setXYZ_length; assumption).
  rewrite ?setXYZ_elementType.
  destruct (decide (vC = Some v)) as [EC|NC].
  - rewrite bool_decide_eq_true_2 by (rewrite <- EC; set_solver).
    rewrite EC. reflexivity.
  - destruct (decide (vB = Some v)) as [EB|NB].
    + rewrite bool_decide_eq_true_2 by (rewrite <- EB; set_solver).
      rewrite EB. reflexivity.
    + destruct (decide (vA = Some v)) as [EA|NA].
      * rewrite bool_decide_eq_true_2 by (rewrite <- EA; set_solver).
        rewrite EA. reflexivity.
      * rewrite bool_decide_eq_false_2; [reflexivity|].
        intros H. apply elem_of_cons in H as [H|H]; [congruence|].
        apply elem_of_cons in H as [H|H]; [congruence|].
        apply elem_of_cons in H as [H|H]; [congruence|].
        inversion H.
Qed.

Lemma accumulateFaces_shape (index : IndexAttribute.t)
    (positionAttribute : BufferAttribute.t) (steps : list nat) :
  forall a,
    exists l,
      foldl (accumulateFace index positionAttribute) a steps
      = BufferAttribute.with_array a l /\
      length l = length (BufferAttribute.array a).
Proof.
  induction steps as [|i steps IH]; intros a.
  - exists (BufferAttribute.array a). split; [destruct a|]; reflexivity.
  - cbn [foldl].
    destruct (accumulateFace_shape index positionAttribute a i) as (l1 & E1 & H1).
    destruct (IH (accumulateFace index positionAttribute a i)) as (l & E & H).
    exists l. rewrite E, E1. split; [reflexivity|].
    rewrite H, E1. exact H1.
Qed.

Lemma accumulateFaces_vertex (index : IndexAttribute.t)
    (positionAttribute : BufferAttribute.t) (steps : list nat) (v : nat) :
  forall a,
    3 <= BufferAttribute.stride a ->
    BufferAttribute.cell a v 2 < length (BufferAttribute.array a) ->
    Vector3.fromBufferAttribute
      (foldl (accumulateFace index positionAttribute) a steps) (Some v)
    = foldl (fun acc i =>
               if bool_decide (Some v ∈ cornersAt index i)
               then Vector3_toElement (BufferAttribute.elementType a)
                      (Vector3.add acc (faceNormalAt index positionAttribute i))
               else acc)
            (Vector3.fromBufferAttribute a (Some v)) steps.
Proof.
  induction steps as [|i steps IH]; intros a Hs Hin; [reflexivity|].
  cbn [foldl].
  destruct (accumulateFace_shape index positionAttribute a i) as (l1 & E1 & H1).
  rewrite IH.
  - rewrite accumulateFace_vertex by assumption. rewrite E1. reflexivity.
  - rewrite E1. exact Hs.
  - rewrite E1. cbn. rewrite H1. exact Hin.
Qed.

(** A vertex that no entry of the index names is a corner of no
    triangle. *)
Lemma cornersAt_index (index : IndexAttribute.t) (i v : nat) :
  Some v ∈ cornersAt index i -> v ∈ IndexAttribute.array index.
Proof.
  unfold cornersAt, IndexAttribute.getX. intros H.
  repeat (apply elem_of_cons in H as [H|H];
          [symmetry in H; apply (list_elem_of_lookup_2 _ _ _ H)|]).
  inversion H.
Qed.

Lemma roomy_with_array (a : BufferAttribute.t) (l : list number) :
  length l = length (BufferAttribute.array a) ->
  roomy a -> roomy (BufferAttribute.with_array a l).
Proof.
  intros Hl [Hwf Ho]. split; [apply wf_with_array; assumption|exact Ho].
Qed.

Lemma roomy_cell (a : BufferAttribute.t) (v : nat) :
  roomy a -> v < BufferAttribute.count a ->
  3 <= BufferAttribute.stride a /\
  BufferAttribute.cell a v 2 < length (BufferAttribute.array a).
Proof.
  intros [Hwf Ho] Hv. split; [lia|].
  apply cell_in_range; [exact Hwf|exact Ho|exact Hv|lia].
Qed.

(** The buffer the loops of [computeVertexNormals] start from has whole
    vertices, all of them zero. *)
Lemma initialNormals_zero (this : BufferGeometry.t)
    (positionAttribute : BufferAttribute.t) :
  (forall n, BufferGeometry.attributes this !! "normal" = Some n -> roomy n) ->
  roomy (initialNormals this positionAttribute) /\
  BufferAttribute.count (initialNormals this positionAttribute)
  = match BufferGeometry.attributes this !! "normal" with
    | Some n => BufferAttribute.count n
    | None => BufferAttribute.count positionAttribute
    end /\
  forall v, v < BufferAttribute.count (initialNormals this positionAttribute) ->
    Vector3.fromBufferAttribute (initialNormals this positionAttribute) (Some v)
    = Vector3.new.
Proof.
  intros Hroomy. unfold initialNormals.
  destruct (BufferGeometry.attributes this !! "normal") as [n|].
  - specialize (Hroomy n eq_refl).
    change (resetNormals n) with (forEachVertex (fun _ => Vector3.new) n).
    destruct (forEachVertex_vertexwise (fun _ => Vector3.new) n Hroomy) as [Hc Hv].
    destruct (forEachVertex_loop (fun _ => Vector3.new)
                (BufferAttribute.count n) n 0) as (l & Hl & Hlen & _).
    change (forEachVertex (fun _ => Vector3.new) n
            = BufferAttribute.with_array n l) in Hl.
    split; [rewrite Hl; apply roomy_with_array; assumption|].
    split; [exact Hc|].
    intros v Hv'. rewrite Hv by (rewrite <- Hc; exact Hv').
    unfold Vector3_toElement, Vector3.new. cbn [Vector3.x Vector3.y Vector3.z].
    rewrite toElement_zero. reflexivity.
  - set (c := BufferAttribute.count positionAttribute).
    assert (BufferAttribute.count
              (BufferAttribute.new BufferAttribute.Float32 (BufferAttribute.Float32Array (c * 3)) 3 false)
            = c) as Hc.
    { unfold BufferAttribute.count, BufferAttribute.Float32Array, BufferAttribute.zeros.
      change (length (replicate (c * 3) zero) / 3 = c).
      rewrite length_replicate. apply Nat.div_mul. lia. }
    split; [split; [apply wf_fresh|cbn; lia]|].
    split; [exact Hc|].
    intros v Hv. rewrite Hc in Hv.
    unfold Vector3.fromBufferAttribute, BufferAttribute.getX,
      BufferAttribute.getY, BufferAttribute.getZ, BufferAttribute.read,
      BufferAttribute.cell, BufferAttribute.Float32Array, BufferAttribute.zeros.
    cbn [BufferAttribute.array BufferAttribute.new BufferAttribute.stride
         BufferAttribute.offset BufferAttribute.interleaved
         BufferAttribute.itemSize].
    rewrite !lookup_replicate_2 by lia. reflexivity.
Qed.

Section VertexNormalFacts.

Variable Math_sqrt : number -> number.

(** X22: on an indexed geometry, [computeVertexNormals] leaves a normal
    attribute (as many normals as there were, or as there are positions if
    there was none) in which every vertex that no entry of the index names
    has the zero normal, whatever was stored there before; this for a
    normal attribute that is missing or has whole vertices. *)
Theorem computeVertexNormals_zero_for_unused_vertices (this : BufferGeometry.t)
    (w : World) (index : IndexAttribute.t) (position : BufferAttribute.t) :
  BufferGeometry.index this = Some index ->
  BufferGeometry.attributes this !! "position" = Some position ->
  (forall n, BufferGeometry.attributes this !! "normal" = Some n -> roomy n) ->
  exists normal,
    BufferGeometry.attributes (fst (computeVertexNormals Math_sqrt this w))
      !! "normal" = Some normal /\
    BufferAttribute.count normal
    = match BufferGeometry.attributes this !! "normal" with
      | Some n => BufferAttribute.count n
      | None => BufferAttribute.count position
      end /\
    forall v, v < BufferAttribute.count normal ->
      v ∉ IndexAttribute.array index ->
      Vector3.fromBufferAttribute normal (Some v) = Vector3.new.
Proof.
  intros Hindex Hp Hroomy.
  rewrite (computeVertexNormals_unfold Math_sqrt this w position Hp).
  cbn [fst]. unfold setAttribute. cbn [BufferGeometry.attributes
    BufferGeometry.with_attributes]. rewrite lookup_insert_eq.
  eexists. split; [reflexivity|].
  unfold recomputedNormals, faceNormals. rewrite Hindex.
  destruct (initialNormals_zero this position Hroomy) as (Hr0 & Hc0 & Hz0).
  set (a0 := initialNormals this position) in *.
  set (steps := steps3 0 (IndexAttribute.count index)).
  destruct (accumulateFaces_shape index position steps a0) as (l & El & Hl).
  set (a1 := foldl (accumulateFace index position) a0 steps) in *.
  assert (roomy a1) as Hr1 by (rewrite El; apply roomy_with_array; assumption).
  assert (BufferAttribute.count a1 = BufferAttribute.count a0) as Hc1
    by (rewrite El; apply count_with_array, Hl).
  destruct (forEachVertex_vertexwise (Vector3.normalize Math_sqrt) a1 Hr1)
    as [Hc2 Hv2].
  change (forEachVertex (Vector3.normalize Math_sqrt) a1)
    with (normalizeAttribute Math_sqrt a1) in Hc2, Hv2.
  assert (forall x, BufferAttribute.count (BufferAttribute.needsUpdate x)
                    = BufferAttribute.count x) as Hcn by reflexivity.
  rewrite Hcn, Hc2, Hc1.
  split; [exact Hc0|].
  intros v Hv Hunused.
  rewrite fromBufferAttribute_needsUpdate, Hv2 by (rewrite Hc1; exact Hv).
  destruct (roomy_cell a0 v Hr0 Hv) as [Hs Hin].
  unfold a1.
  rewrite (accumulateFaces_vertex index position steps v a0 Hs Hin).
  rewrite Hz0 by exact Hv.
  assert (forall acc,
            foldl (fun acc i =>
                     if bool_decide (Some v ∈ cornersAt index i)
                     then Vector3_toElement (BufferAttribute.elementType a0)
                            (Vector3.add acc (faceNormalAt index position i))
                     else acc) acc steps = acc) as ->.
  { generalize steps. intros st. induction st as [|i st IH]; intros acc;
      [reflexivity|].
    cbn [foldl]. rewrite bool_decide_eq_false_2; [apply IH|].
    intros H. apply Hunused, (cornersAt_index index i v H). }
  rewrite normalize_zero.
  unfold Vector3_toElement, Vector3.new. cbn [Vector3.x Vector3.y Vector3.z].
  rewrite toElement_zero. reflexivity.
Qed.

End VertexNormalFacts.





Section FlatShadingFacts.

Variable Math_sqrt : number -> number.


End FlatShadingFacts.

(** ** Tangents *)









Section TangentFacts.

Variable Math_sqrt : number -> number.



End TangentFacts.

(** ** The handedness of a tangent *)

Lemma forEach_establishes {A S} (body : S -> A -> completion S)
    (I Q : S -> Prop) (K : A -> Prop) (l : list A) :
  (forall s x s', I s -> body s x = Normal s' ->
     I s' /\ (Q s -> Q s') /\ (K x -> Q s')) ->
  forall s s', I s -> forEach body l s = Normal s' ->
    I s' /\ (Q s -> Q s') /\ (Exists K l -> Q s').
Proof.
  intros Hbody. induction l as [|x l IH]; intros s s' Hs H.
  - cbn in H. injection H as <-.
    split; [exact Hs|]. split; [auto|]. intros HE. inversion HE.
  - cbn [forEach] in H. destruct (body s x) as [s1|s1] eqn:E; [|discriminate].
    destruct (Hbody s x s1 Hs E) as (Hs1 & Hq1 & Hk1).
    destruct (IH s1 s' Hs1 H) as (Hs' & Hq & Hk).
    split; [exact Hs'|]. split; [auto|].
    intros HE. apply Exists_cons in HE as [HE|HE]; auto.
Qed.

Lemma setXYZW_shape (a : BufferAttribute.t) (u : vindex) (x y z w : number) :
  exists l,
    BufferAttribute.setXYZW a u x y z w = BufferAttribute.with_array a l /\
    length l = length (BufferAttribute.array a).
Proof.
  destruct u as [i|].
  - unfold BufferAttribute.setXYZW, BufferAttribute.write. cbn.
    eexists. split; [reflexivity|]. rewrite !length_insert. reflexivity.
  - exists (BufferAttribute.array a). split; [destruct a|]; reflexivity.
Qed.

Lemma getW_setXYZW (a : BufferAttribute.t) (u : vindex) (i : nat)
    (x y z w : number) :
  4 <= BufferAttribute.stride a ->
  BufferAttribute.cell a i 3 < length (BufferAttribute.array a) ->
  BufferAttribute.getW (BufferAttribute.setXYZW a u x y z w) (Some i)
  = if decide (u = Some i)
    then BufferAttribute.toElement (BufferAttribute.elementType a) w
    else BufferAttribute.getW a (Some i).
Proof.
  intros Hs Hin. destruct u as [j|]; [|rewrite decide_False by discriminate; reflexivity].
  unfold BufferAttribute.getW, BufferAttribute.setXYZW, BufferAttribute.write.
  rewrite read_with_array. cbn [BufferAttribute.array BufferAttribute.with_array].
  unfold BufferAttribute.read, BufferAttribute.cell in *.
  change (BufferAttribute.stride (BufferAttribute.with_array _ _))
    with (BufferAttribute.stride a).
  change (BufferAttribute.offset (BufferAttribute.with_array _ _))
    with (BufferAttribute.offset a).
  set (s := BufferAttribute.stride a) in *.
  destruct (decide (Some j = Some i)) as [[= ->]|Hne].
  - rewrite list_lookup_insert_eq by (rewrite !length_insert; lia). reflexivity.
  - assert (i <> j) as Hij by congruence.
    assert (i * s + 4 <= j * s \/ j * s + 4 <= i * s) as Hfar.
    { destruct (Nat.lt_ge_cases i j) as [Hlt|Hge].
      - left. assert (S i * s <= j * s) by (apply Nat.mul_le_mono_r; lia). lia.
      - right. assert (S j * s <= i * s) by (apply Nat.mul_le_mono_r; lia). lia. }
    rewrite !list_lookup_insert_ne by lia. reflexivity.
Qed.

Section HandednessFacts.

Variable Math_sqrt : number -> number.

Lemma handleVertex_handedness (normalAttribute : BufferAttribute.t)
    (tan1 tan2 : list Vector3.t) (t0 : BufferAttribute.t) (i : nat)
    (s : BufferAttribute.t) (v : vindex) (s' : BufferAttribute.t) :
  4 <= BufferAttribute.stride t0 ->
  BufferAttribute.cell t0 i 3 < length (BufferAttribute.array t0) ->
  (exists l, s = BufferAttribute.with_array t0 l /\
             length l = length (BufferAttribute.array t0)) ->
  handleVertex Math_sqrt normalAttribute tan1 tan2 s v = Normal s' ->
  (exists l, s' = BufferAttribute.with_array t0 l /\
             length l = length (BufferAttribute.array t0)) /\
  ((BufferAttribute.getW s (Some i) = one \/
    BufferAttribute.getW s (Some i) = Fin (-1)) ->
   (BufferAttribute.getW s' (Some i) = one \/
    BufferAttribute.getW s' (Some i) = Fin (-1))) /\
  (v = Some i ->
   (BufferAttribute.getW s' (Some i) = one \/
    BufferAttribute.getW s' (Some i) = Fin (-1))).
Proof.
  intros Hs Hin (l & -> & Hl). unfold handleVertex.
  destruct (v ≫= _) as [t|]; [|discriminate].
  destruct (v ≫= _) as [t2|]; [|discriminate].
  cbv zeta. intros [= <-].
  match goal with |- context [BufferAttribute.setXYZW _ v ?x ?y ?z ?w] =>
    destruct (setXYZW_shape (BufferAttribute.with_array t0 l) v x y z w)
      as (l' & E & Hl');
    pose proof (getW_setXYZW (BufferAttribute.with_array t0 l) v i x y z w) as Hw
  end.
  rewrite Hw; [|exact Hs|cbn; rewrite Hl; exact Hin].
  split; [exists l'; rewrite E; split; [reflexivity|cbn in Hl'; congruence]|].
  split.
  - intros HQ. destruct (decide (v = Some i)); [|exact HQ].
    destruct (_ <? _)%num;
      rewrite ?toElement_one, ?toElement_minus_one; auto.
  - intros ->. rewrite decide_True by reflexivity.
    destruct (_ <? _)%num;
      rewrite ?toElement_one, ?toElement_minus_one; auto.
Qed.

(** X25: when [computeTangents] runs to its end, the fourth component of
    the tangent of every vertex it visited is 1 or -1; this for a tangent
    attribute that is missing or has whole vertices of at least four
    components. *)
Theorem computeTangents_handedness_is_a_sign (this : BufferGeometry.t)
    (w : World) (index : IndexAttribute.t)
    (position normal uv : BufferAttribute.t) (g' : BufferGeometry.t) :
  BufferGeometry.index this = Some index ->
  BufferGeometry.attributes this !! "position" = Some position ->
  BufferGeometry.attributes this !! "normal" = Some normal ->
  BufferGeometry.attributes this !! "uv" = Some uv ->
  (forall t, BufferGeometry.attributes this !! "tangent" = Some t ->
     BufferAttribute.wf t /\
     BufferAttribute.offset t + 4 <= BufferAttribute.stride t) ->
  fst (computeTangents Math_sqrt this w) = Normal g' ->
  exists tangent,
    BufferGeometry.attributes g' !! "tangent" = Some tangent /\
    forall i,
      Some i ∈ visitedCorners this index ->
      i < BufferAttribute.count tangent ->
      BufferAttribute.getW tangent (Some i) = one \/
      BufferAttribute.getW tangent (Some i) = Fin (-1).
Proof.
  intros Hindex Hp Hn Huv Ht. unfold computeTangents.
  rewrite Hindex, Hp, Hn, Huv.
  fold (tangentGroups this index).
  set (groups := tangentGroups this index).
  set (n := BufferAttribute.count position).
  set (t0 := match BufferGeometry.attributes this !! "tangent" with
             | Some a => a | None => _ end).
  assert (BufferAttribute.wf t0 /\
          BufferAttribute.offset t0 + 4 <= BufferAttribute.stride t0)
    as [Hwf Ho].
  { unfold t0. destruct (BufferGeometry.attributes this !! "tangent") as [t|].
    - apply Ht. reflexivity.
    - split; [|cbn; lia]. split; [cbn; lia|].
      change (length (replicate (4 * n) zero) mod 4 = 0).
      rewrite length_replicate, Nat.mul_comm. apply Nat.Div0.mod_mul. }
  destruct (accumulateTangents position uv index groups)
    as [[tan1 tan2]|?]; [|discriminate].
  destruct (forEach _ groups t0) as [a|a] eqn:E2; [|discriminate].
  cbn [fst]. intros [= <-].
  exists a. split; [unfold setAttribute; cbn; apply lookup_insert_eq|].
  intros i Hi Hcount.
  (* the shape of the buffer all along *)
  assert (exists l, a = BufferAttribute.with_array t0 l /\
                    length l = length (BufferAttribute.array t0)) as Hshape.
  { destruct (forEach_establishes
                (fun tangentAttribute group =>
                   forEach (handleVertex Math_sqrt normal tan1 tan2)
                           (groupVertices index group) tangentAttribute)
                (fun s => exists l, s = BufferAttribute.with_array t0 l /\
                                    length l = length (BufferAttribute.array t0))
                (fun _ => True) (fun _ => True) groups)
      with (s := t0) (s' := a) as (HI & _ & _); [| |exact E2|exact HI].
    - intros s g s' Hs Hg.
      destruct (forEach_establishes
                  (handleVertex Math_sqrt normal tan1 tan2)
                  (fun s => exists l, s = BufferAttribute.with_array t0 l /\
                                      length l = length (BufferAttribute.array t0))
                  (fun _ => True) (fun _ => True) (groupVertices index g))
        with (s := s) (s' := s') as (HI & _ & _); [|exact Hs|exact Hg|auto].
      intros s1 v s1' (l1 & -> & Hl1) Hv. unfold handleVertex in Hv.
      destruct (v ≫= _); [|discriminate]. destruct (v ≫= _); [|discriminate].
      injection Hv as <-.
      match goal with |- context [BufferAttribute.setXYZW ?b v ?x ?y ?z ?w] =>
        destruct (setXYZW_shape b v x y z w) as (l' & -> & Hl') end.
      split; [|auto]. exists l'. split; [reflexivity|]. cbn in Hl'. congruence.
    - exists (BufferAttribute.array t0). split; [destruct t0|]; reflexivity. }
  destruct Hshape as (la & Ea & Hla).
  assert (BufferAttribute.count a = BufferAttribute.count t0) as Hca
    by (rewrite Ea; apply count_with_array, Hla).
  rewrite Hca in Hcount.
  assert (BufferAttribute.cell t0 i 3 < length (BufferAttribute.array t0)) as Hin.
  { destruct Hwf as [Hs Hm]. unfold BufferAttribute.cell, BufferAttribute.count in *.
    apply Nat.Div0.div_exact in Hm.
    set (s := BufferAttribute.stride t0) in *.
    assert (S i * s <= (length (BufferAttribute.array t0) / s) * s)
      by (apply Nat.mul_le_mono_r; lia).
    lia. }
  destruct (forEach_establishes
              (fun tangentAttribute group =>
                 forEach (handleVertex Math_sqrt normal tan1 tan2)
                         (groupVertices index group) tangentAttribute)
              (fun s => exists l, s = BufferAttribute.with_array t0 l /\
                                  length l = length (BufferAttribute.array t0))
              (fun s => BufferAttribute.getW s (Some i) = one \/
                        BufferAttribute.getW s (Some i) = Fin (-1))
              (fun g => Some i ∈ groupVertices index g) groups)
    with (s := t0) (s' := a) as (_ & _ & HE).
  - intros s g s' Hs Hg.
    destruct (forEach_establishes
                (handleVertex Math_sqrt normal tan1 tan2)
                (fun s => exists l, s = BufferAttribute.with_array t0 l /\
                                    length l = length (BufferAttribute.array t0))
                (fun s => BufferAttribute.getW s (Some i) = one \/
                          BufferAttribute.getW s (Some i) = Fin (-1))
                (fun v => v = Some i) (groupVertices index g))
      with (s := s) (s' := s') as (Hs' & Hq & Hk).
    + intros s1 v s1' Hs1 Hv.
      apply (handleVertex_handedness normal tan1 tan2 t0 i s1 v s1');
        [lia|exact Hin|exact Hs1|exact Hv].
    + exact Hs.
    + exact Hg.
    + split; [exact Hs'|]. split; [exact Hq|].
      intros Hin'. apply Hk, Exists_exists. eauto.
  - exists (BufferAttribute.array t0). split; [destruct t0|]; reflexivity.
  - exact E2.
  - apply HE. unfold visitedCorners in Hi. fold groups in Hi.
    apply list_elem_of_In, in_flat_map in Hi as (g & Hg & Hi).
    apply Exists_exists. exists g. split; [apply list_elem_of_In, Hg|].
    apply list_elem_of_In, Hi.
Qed.

End HandednessFacts.

(** ** What toNonIndexed leaves behind *)

(** X26: the geometry [toNonIndexed] returns for an indexed geometry is a
    newly constructed one: it has its own id, no index, and the
    constructor's name, type, bounding volumes, draw range and user data,
    not those of the geometry it was made from. *)
Theorem toNonIndexed_starts_afresh (this : BufferGeometry.t) (w : World)
    (index : IndexAttribute.t) :
  BufferGeometry.index this = Some index ->
  exists geometry2,
    fst (toNonIndexed this w) = Fresh geometry2 /\
    BufferGeometry.id geometry2 = _id w /\
    BufferGeometry.name geometry2 = ""%string /\
    BufferGeometry.type geometry2 = "BufferGeometry"%string /\
    BufferGeometry.index geometry2 = None /\
    BufferGeometry.boundingBox geometry2 = None /\
    BufferGeometry.boundingSphere geometry2 = None /\
    BufferGeometry.drawRange geometry2 = DrawRange.make zero PosInf /\
    BufferGeometry.userData geometry2 = ∅ /\
    BufferGeometry.parameters geometry2 = None.
Proof.
  intros Hindex. unfold toNonIndexed. rewrite Hindex.
  unfold bind, constructor, nextId, generateUUID, ret, bind. cbv beta iota zeta.
  rewrite toNonIndexed_attributes, toNonIndexed_morphAttributes, copy_groups.
  cbn [fst]. eexists. split; [reflexivity|]. cbn. repeat split.
Qed.

(** ** The width of a box's index *)

(** X27: a box of at most 65535 vertices gets a 16-bit index buffer. *)
Theorem BoxGeometry_small_index_is_16_bit (width height depth ws hs ds : number)
    (w h d : nat) (world : World) :
  Math_floor ws = ofNat w -> Math_floor hs = ofNat h -> Math_floor ds = ofNat d ->
  (Z.of_nat (boxVertexCount w h d) <= 65535)%Z ->
  exists g,
    fst (BoxGeometry width height depth ws hs ds world) = Some g /\
    IndexAttribute.type <$> getIndex g = Some IndexAttribute.Uint16.
Proof.
  intros Hw Hh Hd Hsmall.
  destruct (BoxGeometry_built width height depth ws hs ds w h d world Hw Hh Hd)
    as (st & -> & _ & _ & _ & _ & Hall & _).
  eexists. split; [reflexivity|].
  unfold getIndex, setAttribute, setIndex. cbn.
  assert (arrayNeedsUint32 (map toIndex (indices st)) = false) as ->;
    [|reflexivity].
  unfold arrayNeedsUint32. apply not_true_is_false. intros H.
  apply existsb_exists in H as (v & Hv & Hbig).
  apply in_map_iff in Hv as (n & <- & Hn).
  rewrite Forall_forall in Hall. apply list_elem_of_In in Hn. specialize (Hall n Hn).
  apply Z.ltb_lt in Hbig. lia.
Qed.

(** ** What a face of the box holds *)

Lemma setComponent_thrice (vec : Vector3.t) (u v w : axis) (a b c : number) :
  u <> v -> u <> w -> v <> w ->
  setComponent (setComponent (setComponent vec u a) v b) w c
  = setComponent (setComponent (setComponent Vector3.new u a) v b) w c.
Proof.
  destruct u, v, w; intros; try congruence; reflexivity.
Qed.

Lemma triples_app (l1 l2 : list Vector3.t) :
  triples (l1 ++ l2) = triples l1 ++ triples l2.
Proof. unfold triples. apply flat_map_app. Qed.

Lemma gridPoints_rows {A} (gx k : nat) (F : nat -> nat -> A) :
  flat_map (fun iy => map (fun ix => F ix iy) (seq 0 (S gx))) (seq 0 (S k))
  = flat_map (fun iy => map (fun ix => F ix iy) (seq 0 (S gx))) (seq 0 k)
    ++ map (fun ix => F ix k) (seq 0 (S gx)).
Proof.
  rewrite (seq_S k), flat_map_app. cbn [flat_map]. rewrite app_nil_r. reflexivity.
Qed.

Lemma buildPlane_content (u v w : axis) (udir vdir width height depth : number)
    (gx gy materialIndex : nat) (st : Builder) :
  u <> v -> u <> w -> v <> w ->
  exists st',
    buildPlane u v w udir vdir width height depth (ofNat gx) (ofNat gy)
      materialIndex st = Some st' /\
    vertices st'
    = vertices st ++
      triples (gridPoints gx gy
                 (planePoint u v w udir vdir width height depth
                    (ofNat gx) (ofNat gy))) /\
    normals st'
    = normals st ++
      triples (gridPoints gx gy (fun _ _ => planeNormal u v w depth)).
Proof.
  intros Huv Huw Hvw.
  destruct (buildPlane_ofNat u v w udir vdir width height depth gx gy
              materialIndex st) as (st' & Hst' & _).
  exists st'. split; [exact Hst'|].
  revert Hst'. unfold buildPlane. rewrite !ofNat_succ.
  match goal with |- context [forUpTo (ofNat (S gy)) ?body ?s0] =>
    destruct (forUpTo_ofNat_rel body
      (fun k s => exists vec c,
         s = (vec,
              vertices st ++
              triples (flat_map
                         (fun iy => map (fun ix =>
                            planePoint u v w udir vdir width height depth
                              (ofNat gx) (ofNat gy) ix iy) (seq 0 (S gx)))
                         (seq 0 k)),
              normals st ++
              triples (flat_map
                         (fun iy => map (fun ix => planeNormal u v w depth)
                                        (seq 0 (S gx)))
                         (seq 0 k)),
              c.1, c.2)) (S gy) s0) as (s1 & -> & HR1)
  end.
  { exists Vector3.new, (uvs st, 0). cbn. rewrite !app_nil_r. reflexivity. }
  { intros k s1 Hk (vec & c & ->).
    match goal with |- context [forUpTo (ofNat (S gx)) ?body ?s0] =>
      destruct (forUpTo_ofNat_rel body
        (fun j s => exists vec c,
           s = (vec,
                (vertices st ++
                 triples (flat_map
                            (fun iy => map (fun ix =>
                               planePoint u v w udir vdir width height depth
                                 (ofNat gx) (ofNat gy) ix iy) (seq 0 (S gx)))
                            (seq 0 k))) ++
                triples (map (fun ix =>
                                planePoint u v w udir vdir width height depth
                                  (ofNat gx) (ofNat gy) ix k) (seq 0 j)),
                (normals st ++
                 triples (flat_map
                            (fun iy => map (fun ix => planeNormal u v w depth)
                                           (seq 0 (S gx)))
                            (seq 0 k))) ++
                triples (map (fun ix => planeNormal u v w depth) (seq 0 j)),
                c.1, c.2)) (S gx) s0) as (s2 & Hs2 & HR2)
    end.
    - exists vec, c. cbn. rewrite !app_nil_r. reflexivity.
    - intros j s2 Hj (vec' & c' & ->).
      eexists. split; [reflexivity|].
      eexists _, (_, _). cbn [fst snd].
      rewrite !(seq_S j), !map_app, !triples_app, !app_assoc.
      cbn [map triples flat_map app].
      repeat (apply (f_equal2 pair)); try reflexivity.
      + f_equal. unfold planePoint. cbv zeta.
        rewrite (setComponent_thrice vec') by assumption. reflexivity.
      + f_equal. unfold planeNormal.
        rewrite (setComponent_thrice _ u v w) by assumption. reflexivity.
    - exists s2. split; [exact Hs2|].
      destruct HR2 as (vec' & c' & ->). exists vec', c'.
      rewrite !gridPoints_rows, !triples_app, !app_assoc. reflexivity. }
  destruct HR1 as (vec & c & ->).
  destruct (forUpTo (ofNat gy) _ _) as [[? ?]|]; [|discriminate].
  intros [= <-]. cbn. split; reflexivity.
Qed.

Lemma BoxGeometry_content (width height depth ws hs ds : number) (w h d : nat)
    (world : World) :
  Math_floor ws = ofNat w -> Math_floor hs = ofNat h -> Math_floor ds = ofNat d ->
  exists g,
    fst (BoxGeometry width height depth ws hs ds world) = Some g /\
    getAttribute g "position"
    = Some (Float32BufferAttribute
              (triples
                 (gridPoints d h
                    (planePoint AxisZ AxisY AxisX (Fin (-1)) (Fin (-1))
                       depth height width (ofNat d) (ofNat h))
                  ++ gridPoints d h
                       (planePoint AxisZ AxisY AxisX one (Fin (-1))
                          depth height (- width)%num (ofNat d) (ofNat h))
                  ++ gridPoints w d
                       (planePoint AxisX AxisZ AxisY one one
                          width depth height (ofNat w) (ofNat d))
                  ++ gridPoints w d
                       (planePoint AxisX AxisZ AxisY one (Fin (-1))
                          width depth (- height)%num (ofNat w) (ofNat d))
                  ++ gridPoints w h
                       (planePoint AxisX AxisY AxisZ one (Fin (-1))
                          width height depth (ofNat w) (ofNat h))
                  ++ gridPoints w h
                       (planePoint AxisX AxisY AxisZ (Fin (-1)) (Fin (-1))
                          width height (- depth)%num (ofNat w) (ofNat h)))) 3) /\
    getAttribute g "normal"
    = Some (Float32BufferAttribute
              (triples
                 (gridPoints d h (fun _ _ => planeNormal AxisZ AxisY AxisX width)
                  ++ gridPoints d h
                       (fun _ _ => planeNormal AxisZ AxisY AxisX (- width)%num)
                  ++ gridPoints w d
                       (fun _ _ => planeNormal AxisX AxisZ AxisY height)
                  ++ gridPoints w d
                       (fun _ _ => planeNormal AxisX AxisZ AxisY (- height)%num)
                  ++ gridPoints w h
                       (fun _ _ => planeNormal AxisX AxisY AxisZ depth)
                  ++ gridPoints w h
                       (fun _ _ => planeNormal AxisX AxisY AxisZ (- depth)%num))) 3).
Proof.
  intros Hw Hh Hd. unfold BoxGeometry. rewrite Hw, Hh, Hd.
  cbv beta iota zeta delta [bind constructor nextId generateUUID ret].
  cbn [mbind option_bind fst snd].
  match goal with |- context [buildPlane _ _ _ _ _ _ _ _ _ _ 0 ?st] =>
    destruct (buildPlane_content AxisZ AxisY AxisX (Fin (-1)) (Fin (-1))
                depth height width d h 0 st)
      as (s1 & -> & V1 & N1); try discriminate end.
  cbn [mbind option_bind].
  destruct (buildPlane_content AxisZ AxisY AxisX one (Fin (-1))
              depth height (- width)%num d h 1 s1)
    as (s2 & -> & V2 & N2); try discriminate.
  cbn [mbind option_bind].
  destruct (buildPlane_content AxisX AxisZ AxisY one one
              width depth height w d 2 s2)
    as (s3 & -> & V3 & N3); try discriminate.
  cbn [mbind option_bind].
  destruct (buildPlane_content AxisX AxisZ AxisY one (Fin (-1))
              width depth (- height)%num w d 3 s3)
    as (s4 & -> & V4 & N4); try discriminate.
  cbn [mbind option_bind].
  destruct (buildPlane_content AxisX AxisY AxisZ one (Fin (-1))
              width height depth w h 4 s4)
    as (s5 & -> & V5 & N5); try discriminate.
  cbn [mbind option_bind].
  destruct (buildPlane_content AxisX AxisY AxisZ (Fin (-1)) (Fin (-1))
              width height (- depth)%num w h 5 s5)
    as (s6 & -> & V6 & N6); try discriminate.
  eexists. split; [reflexivity|].
  match goal with |- context [setAttribute (setAttribute (setAttribute
      (setIndex ?t ?ix) _ ?p) _ ?n) _ ?u] =>
    destruct (attributes_box t ix p n u) as (-> & -> & _) end.
  rewrite V6, V5, V4, V3, V2, V1, N6, N5, N4, N3, N2, N1.
  cbn [vertices normals app].
  rewrite !triples_app, <- !app_assoc. split; reflexivity.
Qed.

Lemma verticesOf_triples (vs : list Vector3.t) :
  BufferAttribute.count (Float32BufferAttribute (triples vs) 3) = length vs /\
  verticesOf (Float32BufferAttribute (triples vs) 3)
  = map (Vector3_toElement BufferAttribute.Float32) vs.
Proof.
  unfold Float32BufferAttribute, triples.
  rewrite Float32Array_from_flat_map.
  set (f := fun v => map Math_fround [Vector3.x v; Vector3.y v; Vector3.z v]).
  assert (forall a, length (f a) = 3) as Hf by reflexivity.
  assert (BufferAttribute.count
            (BufferAttribute.new BufferAttribute.Float32 (flat_map f vs) 3 false)
          = length vs) as Hc.
  { unfold BufferAttribute.count.
    change (length (flat_map f vs) / 3 = length vs).
    rewrite (length_flat_map_fixed f 3) by exact Hf. apply Nat.div_mul. lia. }
  split; [exact Hc|].
  unfold verticesOf. rewrite Hc. apply map_seq_lookup.
  intros i x Hx.
  unfold Vector3.fromBufferAttribute, BufferAttribute.getX, BufferAttribute.getY,
    BufferAttribute.getZ, BufferAttribute.read, BufferAttribute.cell.
  cbn [BufferAttribute.array BufferAttribute.new BufferAttribute.stride
       BufferAttribute.offset BufferAttribute.interleaved BufferAttribute.itemSize].
  rewrite <- !Nat.add_assoc. cbn [Nat.add].
  rewrite !(lookup_flat_map_fixed f 3) by (exact Hf || lia).
  rewrite Hx. reflexivity.
Qed.

(** Vertex [i] of a buffer made from a list of vectors. *)
Lemma fromBufferAttribute_triples (vs : list Vector3.t) (i : nat) (v : Vector3.t) :
  vs !! i = Some v ->
  Vector3.fromBufferAttribute (Float32BufferAttribute (triples vs) 3) (Some i)
  = Vector3_toElement BufferAttribute.Float32 v.
Proof.
  intros Hv. destruct (verticesOf_triples vs) as [Hc Hvs].
  pose proof (f_equal (fun l => l !! i) Hvs) as H. cbv beta in H.
  unfold verticesOf in H. rewrite Hc in H.
  change (map ?f ?l) with (f <$> l) in H.
  rewrite !list_lookup_fmap, Hv in H.
  rewrite lookup_seq_lt in H by (apply lookup_lt_Some in Hv; exact Hv).
  cbn [fmap option_fmap option_map Nat.add] in H.
  apply (inj Some) in H. exact H.
Qed.

Lemma Forall_gridPoints {A} (P : A -> Prop) (gx gy : nat) (F : nat -> nat -> A) :
  (forall ix iy, ix <= gx -> iy <= gy -> P (F ix iy)) ->
  Forall P (gridPoints gx gy F).
Proof.
  intros H. unfold gridPoints. apply Forall_flat_map, Forall_forall.
  intros iy Hiy. apply elem_of_seq in Hiy.
  apply Forall_map, Forall_forall. intros ix Hix. apply elem_of_seq in Hix.
  apply H; lia.
Qed.

Lemma planeNormal_direction (u v w : axis) (depth : number) :
  u <> v -> u <> w -> v <> w -> planeNormal u v w depth ∈ axisDirections.
Proof.
  intros Huv Huw Hvw. unfold planeNormal, axisDirections.
  destruct (zero <? depth)%num; destruct u, v, w; try congruence; cbn;
    set_solver.
Qed.

Lemma toElement_axisDirection (ty : BufferAttribute.floatType) (n : Vector3.t) :
  n ∈ axisDirections -> Vector3_toElement ty n ∈ axisDirections.
Proof.
  unfold axisDirections. intros H.
  repeat (apply elem_of_cons in H as [->|H];
          [destruct ty; vm_compute; set_solver|]).
  inversion H.
Qed.

(** X28: every normal of a box points along an axis: it is one of the six
    unit vectors [(±1, 0, 0)], [(0, ±1, 0)], [(0, 0, ±1)], whatever the
    sizes given. *)
Theorem BoxGeometry_normals_along_axes (width height depth ws hs ds : number)
    (w h d : nat) (world : World) :
  Math_floor ws = ofNat w -> Math_floor hs = ofNat h -> Math_floor ds = ofNat d ->
  exists g normal,
    fst (BoxGeometry width height depth ws hs ds world) = Some g /\
    getAttribute g "normal" = Some normal /\
    forall i, i < BufferAttribute.count normal ->
      Vector3.fromBufferAttribute normal (Some i) ∈ axisDirections.
Proof.
  intros Hw Hh Hd.
  destruct (BoxGeometry_content width height depth ws hs ds w h d world Hw Hh Hd)
    as (g & Hg & _ & Hn).
  eexists g, _. split; [exact Hg|]. split; [exact Hn|].
  intros i Hi.
  match type of Hi with _ < BufferAttribute.count
      (Float32BufferAttribute (triples ?vs) 3) =>
    destruct (verticesOf_triples vs) as [Hc Hvs];
    assert (Forall (fun n => n ∈ axisDirections)
              (map (Vector3_toElement BufferAttribute.Float32) vs)) as Hall
  end.
  { apply Forall_map. rewrite !Forall_app.
    repeat split; apply Forall_gridPoints; intros; cbv beta;
      apply toElement_axisDirection, planeNormal_direction; discriminate. }
  rewrite <- Hvs in Hall. rewrite Forall_forall in Hall.
  apply Hall, vertices_lookup, Hi.
Qed.

(** ** The faces of a box are flat *)

Lemma Forall2_gridPoints {A B} (P : A -> B -> Prop) (gx gy : nat)
    (F : nat -> nat -> A) (G : nat -> nat -> B) :
  (forall ix iy, P (F ix iy) (G ix iy)) ->
  Forall2 P (gridPoints gx gy F) (gridPoints gx gy G).
Proof.
  intros H. unfold gridPoints.
  generalize (seq 0 (S gy)). intros rows.
  induction rows as [|iy rows IH]; [constructor|].
  cbn [flat_map]. apply Forall2_app; [|exact IH].
  generalize (seq 0 (S gx)). intros cols.
  induction cols as [|ix cols IHc]; [constructor|].
  cbn [map]. constructor; [apply H|exact IHc].
Qed.

(** The normals of a box, face by face. *)
Lemma boxNormals_length (width height depth : number) (w h d : nat) :
  length (boxNormals width height depth w h d)
  = length (boxPoints width height depth w h d).
Proof.
  apply (Forall2_length (fun _ _ => True)).
  unfold boxNormals, boxPoints.
  do 5 (apply Forall2_app; [apply Forall2_gridPoints; intros; exact I|]).
  apply Forall2_gridPoints; intros; exact I.
Qed.

Lemma planePoint_onFacePlane (width height depth : number)
    (w h d : nat) :
  (zero <? width)%num = true -> (zero <? height)%num = true ->
  (zero <? depth)%num = true ->
  Forall2 (fun p n =>
             onFacePlane width height depth
               (Vector3_toElement BufferAttribute.Float32 n)
               (Vector3_toElement BufferAttribute.Float32 p))
          (boxPoints width height depth w h d)
          (boxNormals width height depth w h d).
Proof.
  intros Hw Hh Hd.
  assert ((zero <? - width)%num = false) as Hw'
    by (destruct width as [| |q|]; try discriminate; try reflexivity;
        cbn [neg lt] in *; apply negb_true_iff in Hw; apply negb_false_iff;
        apply Qle_bool_iff; rewrite Qred_correct;
        apply Qle_bool_false in Hw; lra).
  assert ((zero <? - height)%num = false) as Hh'
    by (destruct height as [| |q|]; try discriminate; try reflexivity;
        cbn [neg lt] in *; apply negb_true_iff in Hh; apply negb_false_iff;
        apply Qle_bool_iff; rewrite Qred_correct;
        apply Qle_bool_false in Hh; lra).
  assert ((zero <? - depth)%num = false) as Hd'
    by (destruct depth as [| |q|]; try discriminate; try reflexivity;
        cbn [neg lt] in *; apply negb_true_iff in Hd; apply negb_false_iff;
        apply Qle_bool_iff; rewrite Qred_correct;
        apply Qle_bool_false in Hd; lra).
  unfold boxPoints, boxNormals.
  assert (forall u v wa udir vdir wd ht dp gx gy (gxn gyn : number) side,
            u <> v -> u <> wa -> v <> wa ->
            (forall ix iy,
               onFacePlane width height depth
                 (Vector3_toElement BufferAttribute.Float32
                    (setComponent
                       (setComponent (setComponent Vector3.new u zero) v zero)
                       wa side))
                 (Vector3_toElement BufferAttribute.Float32
                    (planePoint u v wa udir vdir wd ht dp gxn gyn ix iy))) ->
            (if (zero <? dp)%num then one else Fin (-1)) = side ->
            Forall2 (fun p n =>
                       onFacePlane width height depth
                         (Vector3_toElement BufferAttribute.Float32 n)
                         (Vector3_toElement BufferAttribute.Float32 p))
              (gridPoints gx gy (planePoint u v wa udir vdir wd ht dp gxn gyn))
              (gridPoints gx gy (fun _ _ => planeNormal u v wa dp))) as Hface.
  { intros u v wa udir vdir wd ht dp gx gy gxn gyn side _ _ _ Hon Hside.
    apply Forall2_gridPoints. intros ix iy. unfold planeNormal.
    rewrite Hside. apply Hon. }
  unfold boxPoints, boxNormals.
  apply Forall2_app;
    [|apply Forall2_app;
      [|apply Forall2_app;
        [|apply Forall2_app; [|apply Forall2_app]]]].
  all: (eapply Hface; try discriminate;
            [|first [rewrite Hw | rewrite Hh | rewrite Hd
                    | rewrite Hw' | rewrite Hh' | rewrite Hd']; reflexivity];
            intros ix iy;
            unfold onFacePlane, planePoint, Vector3_toElement; cbv zeta;
            cbn [setComponent Vector3.new Vector3.x Vector3.y Vector3.z
                 BufferAttribute.toElement];
            repeat split; intros E; try reflexivity;
            vm_compute in E; discriminate E).
Qed.

(** X29: every vertex of a box of positive sizes lies on the plane of its
    face: the coordinate along the axis of its normal is half the size of
    the box along that axis, as a 32-bit float, on the side the normal
    points to. *)
Theorem BoxGeometry_faces_are_flat (width height depth ws hs ds : number)
    (w h d : nat) (world : World) :
  Math_floor ws = ofNat w -> Math_floor hs = ofNat h -> Math_floor ds = ofNat d ->
  (zero <? width)%num = true -> (zero <? height)%num = true ->
  (zero <? depth)%num = true ->
  exists g position normal,
    fst (BoxGeometry width height depth ws hs ds world) = Some g /\
    getAttribute g "position" = Some position /\
    getAttribute g "normal" = Some normal /\
    BufferAttribute.count normal = BufferAttribute.count position /\
    forall i, i < BufferAttribute.count position ->
      onFacePlane width height depth
        (Vector3.fromBufferAttribute normal (Some i))
        (Vector3.fromBufferAttribute position (Some i)).
Proof.
  intros Hw Hh Hd Hpw Hph Hpd.
  destruct (BoxGeometry_content width height depth ws hs ds w h d world Hw Hh Hd)
    as (g & Hg & Hp & Hn).
  fold (boxPoints width height depth w h d) in Hp.
  fold (boxNormals width height depth w h d) in Hn.
  eexists g, _, _. split; [exact Hg|]. split; [exact Hp|]. split; [exact Hn|].
  destruct (verticesOf_triples (boxPoints width height depth w h d)) as [Hcp _].
  destruct (verticesOf_triples (boxNormals width height depth w h d)) as [Hcn _].
  split; [rewrite Hcp, Hcn; apply boxNormals_length|].
  intros i Hi. rewrite Hcp in Hi.
  pose proof (planePoint_onFacePlane width height depth w h d Hpw Hph Hpd) as Hall.
  destruct (lookup_lt_is_Some_2 (boxPoints width height depth w h d) i Hi)
    as [p Ep].
  destruct (Forall2_lookup_l _ _ _ _ _ Hall Ep) as (n & En & Hpn).
  rewrite (fromBufferAttribute_triples _ i p Ep),
    (fromBufferAttribute_triples _ i n En).
  exact Hpn.
Qed.


(** * More instances

    The properties above at the sample geometries. *)

Ltac by_evaluation :=
  first
    [ vm_compute; first [reflexivity | lia | discriminate]
    | left; by_evaluation
    | right; by_evaluation
    | split; by_evaluation
    | let H := fresh in
      intros ? H; vm_compute in H;
      first [discriminate H | injection H as <-; by_evaluation] ].

(** X1 at a box of two and a half, one and one segments. *)
Lemma BoxGeometry_buffer_sizes_fractional_segments :
  Math_floor (Fin (5 # 2)) = ofNat 2
  /\ Math_floor one = ofNat 1
  /\ Math_floor one = ofNat 1
  /\ exists g : BufferGeometry.t,
       (BoxGeometry (Fin 2) one one (Fin (5 # 2)) one one world0).1 = Some g
       /\ BufferAttribute.count <$> getAttribute g "position" =
         Some (boxVertexCount 2 1 1)
         /\ BufferAttribute.count <$> getAttribute g "normal" =
           Some (boxVertexCount 2 1 1)
           /\ BufferAttribute.count <$> getAttribute g "uv" =
             Some (boxVertexCount 2 1 1)
             /\ IndexAttribute.count <$> getIndex g = Some (boxIndexCount 2 1 1).
Proof.
  do 3 (split; [by_evaluation|]).
  apply (BoxGeometry_buffer_sizes (Fin 2) one one (Fin (5 # 2)) one one 2
           1 1 world0);
    by_evaluation.
Defined.


(** X3 at the same box. *)
Lemma BoxGeometry_index_in_range_fractional_segments :
  Math_floor (Fin (5 # 2)) = ofNat 2
  /\ Math_floor one = ofNat 1
  /\ Math_floor one = ofNat 1
  /\ exists (g : BufferGeometry.t) (ix : IndexAttribute.t) (p : BufferAttribute.t),
       (BoxGeometry (Fin 2) one one (Fin (5 # 2)) one one world0).1 = Some g
       /\ getIndex g = Some ix
         /\ getAttribute g "position" = Some p
           /\ Forall (fun i : nat => i < BufferAttribute.count p)
               (IndexAttribute.array ix).
Proof.
  do 3 (split; [by_evaluation|]).
  apply (BoxGeometry_index_in_range (Fin 2) one one (Fin (5 # 2)) one one
           2 1 1 world0);
    by_evaluation.
Defined.


(** X5 at an infinite height segment count. *)
Lemma BoxGeometry_never_returns_infinite_height_segments :
  (PosInf = PosInf \/ one = PosInf)
  /\ (BoxGeometry (Fin 2) one one one PosInf one world0).1 = None.
Proof.
  do 1 (split; [by_evaluation|]).
  apply (BoxGeometry_never_returns (Fin 2) one one one PosInf one world0);
    by_evaluation.
Defined.

(** X6 at the empty geometry and the five sample points. *)
Lemma setFromPoints_creates_position_emptyGeometry :
  getAttribute emptyGeometry "position" = None
  /\ exists p : BufferAttribute.t,
       setFromPoints emptyGeometry samplePoints world0 =
       (setAttribute emptyGeometry "position" p, world0)
       /\ BufferAttribute.elementType p = BufferAttribute.Float32
         /\ BufferAttribute.itemSize p = 3
           /\ BufferAttribute.count p = length samplePoints
             /\ verticesOf p =
               map
                 (fun pt : point =>
                    Vector3_toElement BufferAttribute.Float32 (pointVertex pt))
                 samplePoints.
Proof.
  do 1 (split; [by_evaluation|]).
  apply (setFromPoints_creates_position emptyGeometry samplePoints world0);
    by_evaluation.
Defined.

(** X7 at the quad, which has four vertices for the five points. *)
Lemma setFromPoints_overwrites_prefix_quad :
  getAttribute quad "position" = Some (Float32BufferAttribute quadPositions 3)
  /\ BufferAttribute.wf (Float32BufferAttribute quadPositions 3)
  /\ BufferAttribute.offset (Float32BufferAttribute quadPositions 3) + 3 <=
     BufferAttribute.stride (Float32BufferAttribute quadPositions 3)
  /\ exists p : BufferAttribute.t,
       (setFromPoints quad samplePoints world0).1 =
       setAttribute quad "position" p
       /\ (forall (i : nat) (pt : point),
            i < BufferAttribute.count (Float32BufferAttribute quadPositions 3)
            -> samplePoints !! i = Some pt
              -> Vector3.fromBufferAttribute p (Some i) =
                Vector3_toElement
                  (BufferAttribute.elementType
                     (Float32BufferAttribute quadPositions 3))
                  (pointVertex pt))
         /\ forall i : nat,
             length samplePoints <= i
             -> Vector3.fromBufferAttribute p (Some i) =
               Vector3.fromBufferAttribute
                 (Float32BufferAttribute quadPositions 3) 
                 (Some i).
Proof.
  do 3 (split; [by_evaluation|]).
  apply (setFromPoints_overwrites_prefix quad (Float32BufferAttribute
           quadPositions 3) samplePoints world0);
    by_evaluation.
Defined.

(** X8 at the quad: the fifth point is dropped with a warning. *)
Lemma setFromPoints_never_grows_quad :
  getAttribute quad "position" = Some (Float32BufferAttribute quadPositions 3)
  /\ exists p : BufferAttribute.t,
       (setFromPoints quad samplePoints world0).1 =
       setAttribute quad "position" p
       /\ length (BufferAttribute.array p) =
         length (BufferAttribute.array (Float32BufferAttribute quadPositions 3))
         /\ BufferAttribute.version p =
           S (BufferAttribute.version (Float32BufferAttribute quadPositions 3))
           /\ console (setFromPoints quad samplePoints world0).2 =
             console world0 ++
             (if
               BufferAttribute.count (Float32BufferAttribute quadPositions 3) <?
               length samplePoints
              then [bufferTooSmall]
              else []).
Proof.
  do 1 (split; [by_evaluation|]).
  apply (setFromPoints_never_grows quad (Float32BufferAttribute
           quadPositions 3) samplePoints world0);
    by_evaluation.
Defined.

(** X11 at the box of section 8. *)
Lemma fromJSON_toJSON_rebuilds_box211 :
  (BoxGeometry (Fin 2) one one one one one world0).1 = Some box211Geometry
  /\ (fromJSON (toJSON unit (fun _ : BufferAttribute.t => tt) box211Geometry) world1).1 =
     Some (reidentified box211Geometry (_id world1) (hd "" (uuids world1))).
Proof.
  do 1 (split; [by_evaluation|]).
  apply (fromJSON_toJSON_rebuilds_box (fun _ : BufferAttribute.t => tt)
           (Fin 2) one one one one one world0 world1 box211Geometry);
    by_evaluation.
Defined.

(** X12 at the quad whose only morph target list holds one empty buffer. *)
Lemma toJSON_quadEmptyMorph :
  BufferGeometry.parameters quadEmptyMorph = None
  /\ exists d : JSON.data unit,
       JSON.geometryData (toJSON unit (fun _ : BufferAttribute.t => tt) quadEmptyMorph) =
       Some d
       /\ JSON.attributes d =
         (fun _ : BufferAttribute.t => tt) <$>
         BufferGeometry.attributes quadEmptyMorph
         /\ JSON.morphAttributes d =
           (if decide (writtenMorphTargets quadEmptyMorph = ∅) then None
            else
             Some
               (map (fun _ : BufferAttribute.t => tt) <$>
                writtenMorphTargets quadEmptyMorph))
           /\ JSON.morphTargetsRelative d =
             (if decide (writtenMorphTargets quadEmptyMorph = ∅) then None
              else Some (BufferGeometry.morphTargetsRelative quadEmptyMorph)).
Proof.
  do 1 (split; [by_evaluation|]).
  apply (toJSON_writes_attributes_and_nonempty_morph_targets (fun _ :
           BufferAttribute.t => tt) quadEmptyMorph);
    by_evaluation.
Defined.


(** X17 at the quad with two zero normals among its four. *)
Lemma normalizeNormals_keeps_zero_normals_quad :
  BufferGeometry.attributes quadZeroNormals !! "normal" =
     Some quadSomeZeroNormals
  /\ roomy quadSomeZeroNormals
  /\ exists l : list number,
       normalizeNormals sqrt_floor quadZeroNormals =
       Normal
         (setAttribute quadZeroNormals "normal"
            (BufferAttribute.with_array quadSomeZeroNormals l))
       /\ length l = length (BufferAttribute.array quadSomeZeroNormals)
         /\ forall i : nat,
             i < BufferAttribute.count quadSomeZeroNormals
             -> Vector3.fromBufferAttribute quadSomeZeroNormals (Some i) =
               Vector3.new
               -> Vector3.fromBufferAttribute
                   (BufferAttribute.with_array quadSomeZeroNormals l) 
                   (Some i) =
                 Vector3.new.
Proof.
  do 2 (split; [by_evaluation|]).
  apply (normalizeNormals_keeps_zero_normals sqrt_floor quadZeroNormals
           quadSomeZeroNormals);
    by_evaluation.
Defined.

(** X18 at the quad. *)
Lemma computeBoundingBox_is_tight_quad :
  BufferGeometry.attributes quad !! "position" =
     Some (Float32BufferAttribute quadPositions 3)
  /\ BufferAttribute.isGLBufferAttribute (Float32BufferAttribute quadPositions 3) =
     false
  /\ finiteVertices (Float32BufferAttribute quadPositions 3) = true
  /\ 0 < BufferAttribute.count (Float32BufferAttribute quadPositions 3)
  /\ BufferGeometry.morphAttributes quad !! "position" = None
  /\ exists box : Box3.t,
       BufferGeometry.boundingBox (computeBoundingBox quad world0).1 = Some box
       /\ attains (Float32BufferAttribute quadPositions 3) Vector3.x
           (Vector3.x (Box3.min box))
         /\ attains (Float32BufferAttribute quadPositions 3) Vector3.y
             (Vector3.y (Box3.min box))
           /\ attains (Float32BufferAttribute quadPositions 3) Vector3.z
               (Vector3.z (Box3.min box))
             /\ attains (Float32BufferAttribute quadPositions 3) Vector3.x
                 (Vector3.x (Box3.max box))
               /\ attains (Float32BufferAttribute quadPositions 3) Vector3.y
                   (Vector3.y (Box3.max box))
                 /\ attains (Float32BufferAttribute quadPositions 3) Vector3.z
                     (Vector3.z (Box3.max box)).
Proof.
  do 5 (split; [by_evaluation|]).
  apply (computeBoundingBox_is_tight quad world0 (Float32BufferAttribute
           quadPositions 3));
    by_evaluation.
Defined.

(** X19 at the quad without positions. *)
Lemma bounds_without_position_quad :
  BufferGeometry.attributes quadWithoutPosition !! "position" = None
  /\ computeBoundingBox quadWithoutPosition world0 =
     (BufferGeometry.with_boundingBox quadWithoutPosition (Some Box3.makeEmpty),
      world0)
     /\ computeBoundingSphere sqrt_floor quadWithoutPosition world0 =
       (BufferGeometry.with_boundingSphere quadWithoutPosition
          (Some
             (default Sphere.new
                (BufferGeometry.boundingSphere quadWithoutPosition))),
        world0).
Proof.
  do 1 (split; [by_evaluation|]).
  apply (bounds_without_position sqrt_floor quadWithoutPosition world0);
    by_evaluation.
Defined.

(** X20 at the quad with device-resident positions. *)
Lemma bounds_of_GL_position_quadGL :
  BufferGeometry.attributes quadGL !! "position" =
     Some
       {|
         BufferAttribute.array := quadPositions;
         BufferAttribute.itemSize := 3;
         BufferAttribute.normalized := false;
         BufferAttribute.version := 0;
         BufferAttribute.isGLBufferAttribute := true;
         BufferAttribute.interleaved := None;
         BufferAttribute.elementType := BufferAttribute.Float32
       |}
  /\ BufferAttribute.isGLBufferAttribute
       {|
         BufferAttribute.array := quadPositions;
         BufferAttribute.itemSize := 3;
         BufferAttribute.normalized := false;
         BufferAttribute.version := 0;
         BufferAttribute.isGLBufferAttribute := true;
         BufferAttribute.interleaved := None;
         BufferAttribute.elementType := BufferAttribute.Float32
       |} =
     true
  /\ ((computeBoundingBox quadGL world0).1 =
      BufferGeometry.with_boundingBox quadGL (Some Box3_everything)
      /\ reportsError world0 (computeBoundingBox quadGL world0).2)
     /\ (computeBoundingSphere sqrt_floor quadGL world0).1 =
       BufferGeometry.with_boundingSphere quadGL
         (Some {| Sphere.center := Vector3.new; Sphere.radius := PosInf |})
       /\ reportsError world0 (computeBoundingSphere sqrt_floor quadGL world0).2.
Proof.
  do 2 (split; [by_evaluation|]).
  apply (bounds_of_GL_position sqrt_floor quadGL world0
           (BufferAttribute.make quadPositions 3 false 0 true None
           BufferAttribute.Float32));
    by_evaluation.
Defined.

(** X22 at the quad with one triangle, which leaves the fourth vertex out. *)
Lemma computeVertexNormals_zero_for_unused_vertices_quadOneTriangle :
  BufferGeometry.index quadOneTriangle =
     Some
       {|
         IndexAttribute.array := [0; 1; 2];
         IndexAttribute.type := IndexAttribute.Uint16
       |}
  /\ BufferGeometry.attributes quadOneTriangle !! "position" =
     Some (Float32BufferAttribute quadPositions 3)
  /\ (forall n : BufferAttribute.t,
       BufferGeometry.attributes quadOneTriangle !! "normal" = Some n -> roomy n)
  /\ exists normal : BufferAttribute.t,
       BufferGeometry.attributes
         (computeVertexNormals sqrt_floor quadOneTriangle world0).1
       !! "normal" = Some normal
       /\ BufferAttribute.count normal =
         match BufferGeometry.attributes quadOneTriangle !! "normal" with
         | Some n => BufferAttribute.count n
         | None => BufferAttribute.count (Float32BufferAttribute quadPositions 3)
         end
         /\ forall v : nat,
             v < BufferAttribute.count normal
             -> v
               ∉ IndexAttribute.array
                   {|
                     IndexAttribute.array := [0; 1; 2];
                     IndexAttribute.type := IndexAttribute.Uint16
                   |}
               -> Vector3.fromBufferAttribute normal (Some v) = Vector3.new.
Proof.
  do 3 (split; [by_evaluation|]).
  apply (computeVertexNormals_zero_for_unused_vertices sqrt_floor
           quadOneTriangle world0 (IndexAttribute.make [0; 1; 2]
           IndexAttribute.Uint16) (Float32BufferAttribute quadPositions 3));
    by_evaluation.
Defined.



(** X25 at the quad. *)
Lemma computeTangents_handedness_is_a_sign_quad :
  BufferGeometry.index quad =
     Some
       {|
         IndexAttribute.array := quadIndex;
         IndexAttribute.type := IndexAttribute.Uint16
       |}
  /\ BufferGeometry.attributes quad !! "position" =
     Some (Float32BufferAttribute quadPositions 3)
  /\ BufferGeometry.attributes quad !! "normal" =
     Some (Float32BufferAttribute quadNormals 3)
  /\ BufferGeometry.attributes quad !! "uv" =
     Some (Float32BufferAttribute quadUvs 2)
  /\ (forall t : BufferAttribute.t,
       BufferGeometry.attributes quad !! "tangent" = Some t
       -> BufferAttribute.wf t
         /\ BufferAttribute.offset t + 4 <= BufferAttribute.stride t)
  /\ (computeTangents sqrt_floor quad world0).1 = Normal quadTangents
  /\ exists tangent : BufferAttribute.t,
       BufferGeometry.attributes quadTangents !! "tangent" = Some tangent
       /\ forall i : nat,
           Some i
           ∈ visitedCorners quad
               {|
                 IndexAttribute.array := quadIndex;
                 IndexAttribute.type := IndexAttribute.Uint16
               |}
           -> i < BufferAttribute.count tangent
             -> BufferAttribute.getW tangent (Some i) = one
               \/ BufferAttribute.getW tangent (Some i) = Fin (-1).
Proof.
  do 6 (split; [by_evaluation|]).
  apply (computeTangents_handedness_is_a_sign sqrt_floor quad world0
           (IndexAttribute.make quadIndex IndexAttribute.Uint16)
           (Float32BufferAttribute quadPositions 3)
           (Float32BufferAttribute quadNormals 3) (Float32BufferAttribute
           quadUvs 2) quadTangents);
    by_evaluation.
Defined.

(** X26 at the quad. *)
Lemma toNonIndexed_starts_afresh_quad :
  BufferGeometry.index quad =
     Some
       {|
         IndexAttribute.array := quadIndex;
         IndexAttribute.type := IndexAttribute.Uint16
       |}
  /\ exists geometry2 : BufferGeometry.t,
       (toNonIndexed quad world0).1 = Fresh geometry2
       /\ BufferGeometry.id geometry2 = _id world0
         /\ BufferGeometry.name geometry2 = ""%string
           /\ BufferGeometry.type geometry2 = "BufferGeometry"%string
             /\ BufferGeometry.index geometry2 = None
               /\ BufferGeometry.boundingBox geometry2 = None
                 /\ BufferGeometry.boundingSphere geometry2 = None
                   /\ BufferGeometry.drawRange geometry2 =
                     {| DrawRange.start := zero; DrawRange.count := PosInf |}
                     /\ BufferGeometry.userData geometry2 = ∅
                       /\ BufferGeometry.parameters geometry2 = None.
Proof.
  do 1 (split; [by_evaluation|]).
  apply (toNonIndexed_starts_afresh quad world0 (IndexAttribute.make
           quadIndex IndexAttribute.Uint16));
    by_evaluation.
Defined.

(** X27 at a box of two and a half, one and one segments. *)
Lemma BoxGeometry_small_index_is_16_bit_fractional_segments :
  Math_floor (Fin (5 # 2)) = ofNat 2
  /\ Math_floor one = ofNat 1
  /\ Math_floor one = ofNat 1
  /\ (Z.of_nat (boxVertexCount 2 1 1) <= 65535)%Z
  /\ exists g : BufferGeometry.t,
       (BoxGeometry (Fin 2) one one (Fin (5 # 2)) one one world0).1 = Some g
       /\ IndexAttribute.type <$> getIndex g = Some IndexAttribute.Uint16.
Proof.
  do 4 (split; [by_evaluation|]).
  apply (BoxGeometry_small_index_is_16_bit (Fin 2) one one (Fin (5 # 2))
           one one 2 1 1 world0);
    by_evaluation.
Defined.

(** X28 at the same box. *)
Lemma BoxGeometry_normals_along_axes_fractional_segments :
  Math_floor (Fin (5 # 2)) = ofNat 2
  /\ Math_floor one = ofNat 1
  /\ Math_floor one = ofNat 1
  /\ exists (g : BufferGeometry.t) (normal : BufferAttribute.t),
       (BoxGeometry (Fin 2) one one (Fin (5 # 2)) one one world0).1 = Some g
       /\ getAttribute g "normal" = Some normal
         /\ forall i : nat,
             i < BufferAttribute.count normal
             -> Vector3.fromBufferAttribute normal (Some i) ∈ axisDirections.
Proof.
  do 3 (split; [by_evaluation|]).
  apply (BoxGeometry_normals_along_axes (Fin 2) one one (Fin (5 # 2)) one
           one 2 1 1 world0);
    by_evaluation.
Defined.

(** X29 at the 2 x 1 x 1 box with two and a half, one and one segments. *)
Lemma BoxGeometry_faces_are_flat_211 :
  Math_floor (Fin (5 # 2)) = ofNat 2
  /\ Math_floor one = ofNat 1
  /\ Math_floor one = ofNat 1
  /\ (zero <? Fin 2)%num = true
  /\ (zero <? one)%num = true
  /\ (zero <? one)%num = true
  /\ exists (g : BufferGeometry.t) (position normal : BufferAttribute.t),
       (BoxGeometry (Fin 2) one one (Fin (5 # 2)) one one world0).1 = Some g
       /\ getAttribute g "position" = Some position
         /\ getAttribute g "normal" = Some normal
           /\ BufferAttribute.count normal = BufferAttribute.count position
             /\ forall i : nat,
                 i < BufferAttribute.count position
                 -> onFacePlane (Fin 2) one one
                     (Vector3.fromBufferAttribute normal (Some i))
                     (Vector3.fromBufferAttribute position (Some i)).
Proof.
  do 6 (split; [by_evaluation|]).
  apply (BoxGeometry_faces_are_flat (Fin 2) one one (Fin (5 # 2)) one one
           2 1 1 world0);
    by_evaluation.
Defined.
